(** * Deal catalog pipeline: resolution, deal factory and lifecycle manager

    A shallow embedding of the Python sources under [scraper/]:
    [models.py], [settings.py], [amazon_api.py], [focused_scraper.py],
    [deal_manager.py], [scraper_fallback.py] and parts of [utils.py].

    Conventions of the embedding.
    - [Decimal] values are rationals ([Q]); Python [int] is [Z].
    - A Python call that may raise returns a [result]; [try/except] is a
      [match] on it.
    - Strings are ASCII strings; [len] is [String.length].
    - Clocks, the network and URL validation are inputs of the functions
      that use them. *)

From Stdlib Require Import QArith Qround Qabs Qpower ZArith String Ascii List
  Sorted Lia Lqa.
From stdpp Require Import gmap strings list pretty.

Set Warnings "-clear-no-such-hyp".

Local Open Scope Z_scope.

(** ** Python results and exceptions *)

Inductive exn :=
| AttributeError
| ValidationError
| ValueError
| TypeError
| OverflowError
| DecimalOverflow
| NetworkError.

Inductive result (A : Type) :=
| Ok (a : A)
| Raise (e : exn).

Arguments Ok {A} a.
Arguments Raise {A} e.

Definition rbind {A B} (r : result A) (k : A -> result B) : result B :=
  match r with
  | Ok a => k a
  | Raise e => Raise e
  end.

#[global] Instance result_ret : MRet result := fun A a => Ok a.
#[global] Instance result_bind : MBind result := fun A B k r => rbind r k.

(** [try: r  except Exception: h] *)
Definition try_except {A} (r : result A) (h : A) : A :=
  match r with
  | Ok a => a
  | Raise _ => h
  end.

(** ** Decimal helpers *)

(** A finite [Decimal] is the rational number it denotes. *)

(** Truthiness of an [Optional[Decimal]]: present and non-zero. *)
Definition decimal_truthy (d : option Q) : bool :=
  match d with
  | Some q => negb (Qeq_bool q 0)
  | None => false
  end.

Definition Qltb (a b : Q) : bool := negb (Qle_bool b a).

(** ** Decimal and float arithmetic *)

(** [round(x)] on a finite float: to the nearest integer, a tie to the
    even one. *)
Definition py_round (x : Q) : Z :=
  let f := Qfloor x in
  match (x - inject_Z f ?= 1 # 2)%Q with
  | Lt => f
  | Gt => f + 1
  | Eq => if Z.even f then f else f + 1
  end.

(** The number of decimal digits of [n], less one. *)
Fixpoint Zlog10_loop (fuel : nat) (n acc : Z) : Z :=
  match fuel with
  | O => acc
  | S fuel' => if n <? 10 then acc else Zlog10_loop fuel' (n / 10) (acc + 1)
  end.

Definition Zlog10 (n : Z) : Z :=
  Zlog10_loop (S (Z.to_nat (Z.log2 n))) n 0.

(** [log] is the integer logarithm in base [b]: the number of digits of
    [n] in that base, less one. *)
Definition is_log (b : Z) (log : Z -> Z) : Prop :=
  forall n, 0 < n -> 0 <= log n /\ b ^ log n <= n < b ^ (log n + 1).

(** [b ^ e] for an exponent of either sign. *)
Definition Qpow (b e : Z) : Q :=
  if 0 <=? e then inject_Z (b ^ e) else (1 # Z.to_pos (b ^ (- e)))%Q.

(** The exponent of [x] in base [b], for [x] other than 0: the [e] with
    [b ^ e <= |x| < b ^ (e + 1)]. [log] is the integer logarithm of the
    base, which places [e] within one. *)
Definition Qexponent (log : Z -> Z) (b : Z) (x : Q) : Z :=
  let e := log (Z.abs (Qnum x)) - log (Zpos (Qden x)) in
  if Qle_bool (Qpow b e) (Qabs x) then e else e - 1.

(** [x] rounded to a multiple of [b ^ q], a tie to the even multiple. *)
Definition round_half_even (b q : Z) (x : Q) : Q :=
  Qred (inject_Z (py_round (x / Qpow b q)) * Qpow b q)%Q.

(** A Python [float] that is not a NaN. *)
Inductive float :=
| Finite (q : Q)
| Infinity (negative : bool).

(** The double nearest to [x] (IEEE 754 binary64: 53 bits, exponents from
    -1022 to 1023, subnormals, a tie to the even significand, infinity
    from 2^1024 on). *)
Definition binary64 (x : Q) : float :=
  if Qeq_bool x 0 then Finite 0
  else
    let e := Qexponent Z.log2 2 x in
    let v := round_half_even 2 (Z.max e (-1022) - 52) x in
    if Qle_bool (Qpow 2 1024) (Qabs v) then Infinity (Qle_bool x 0)
    else Finite v.

(** The default context of [decimal]: 28 digits, [ROUND_HALF_EVEN],
    exponents from -999999 to 999999, [decimal.Overflow] trapped and
    [Underflow] not. The result of an operation whose exact value is
    [x]. *)
Definition decimal_context (x : Q) : result Q :=
  if Qeq_bool x 0 then Ok 0%Q
  else
    let e := Qexponent Zlog10 10 x in
    let v := round_half_even 10 (Z.max e (-999999) - 27) x in
    if Qeq_bool v 0 then Ok 0%Q
    else if 999999 <? Qexponent Zlog10 10 v then Raise DecimalOverflow
    else Ok v.

(** [float(d)] for a finite [Decimal] [d]: correctly rounded. *)
Definition float_of_decimal (d : Q) : float := binary64 d.

(** [round(x)] on a [float]. *)
Definition round_float (x : float) : result Z :=
  match x with
  | Finite q => Ok (py_round q)
  | Infinity _ => Raise OverflowError
  end.

(** [x >= b] on a [float] and an [int]. *)
Definition float_ge_int (x : float) (b : Z) : bool :=
  match x with
  | Finite q => Qle_bool (inject_Z b) q
  | Infinity negative => negb negative
  end.

(** [x > b] on a [float] and an [int]. *)
Definition float_gt_int (x : float) (b : Z) : bool :=
  match x with
  | Finite q => Qltb (inject_Z b) q
  | Infinity negative => negb negative
  end.

(** Truthiness of a [float]. *)
Definition float_truthy (x : float) : bool :=
  match x with
  | Finite q => negb (Qeq_bool q 0)
  | Infinity _ => true
  end.

(** ** models.py *)

Inductive DataSource := PAAPI | SCRAPED | FALLBACK | UNKNOWN.

(** A field of type [HttpUrl] holds the text of the stored URL,
    [str(url)]. *)

Module AmazonProduct.
Record t := mk {
  asin : string;
  title : string;
  current_price : option Q;
  list_price : option Q;
  discount_percent : option Z;
  image_url : option string;
  availability : string;
  prime_eligible : bool;
  brand : option string;
  features : list string;
  data_source : DataSource
}.

(** [to_affiliate_url] *)
Definition to_affiliate_url (self : t) (partner_tag : string) : string :=
  "https://www.amazon.ca/dp/" +:+ asin self +:+ "?tag=" +:+ partner_tag.
End AmazonProduct.

Module SavingsGuruPost.
Record t := mk {
  post_id : string;
  post_title : string;
  post_url : string;
  amazon_short_links : list string;
  extracted_asins : list string;
  category : string;
  description : option string
}.
End SavingsGuruPost.

(** [datetime.utcnow()] as read at a call site, in the formats the code
    asks for. *)
Record Clock := {
  strftime_Ymd : string;
  strftime_Ymd_HMS : string;
  isoformat : string
}.

Module Deal.
Record t := mk {
  id : string;
  title : string;
  image_url : string;
  price : float;
  original_price : option float;
  discount_percent : option Z;
  category : string;
  description : string;
  affiliate_url : string;
  featured : bool;
  date_added : string;
  data_source : DataSource;
  asin : string
}.

(** The keyword arguments of [cls(...)], before validation: [image_url]
    is the [Url] object of the product or [None], [affiliate_url] a
    [str]. *)
Record kwargs := mk_kwargs {
  k_id : string;
  k_title : string;
  k_image_url : option string;
  k_price : float;
  k_original_price : option float;
  k_discount_percent : option Z;
  k_category : string;
  k_description : string;
  k_affiliate_url : string;
  k_featured : bool;
  k_date_added : string;
  k_data_source : DataSource;
  k_asin : string
}.
End Deal.

Definition opt_all {A} (P : A -> bool) (o : option A) : bool :=
  match o with
  | Some a => P a
  | None => true
  end.

Section DealFactory.
(** pydantic's validation of a [str] for an [HttpUrl] field: the text of
    the URL it stores, which is normalised and percent-encoded, or [None]
    when the string is rejected. *)
Variable HttpUrl : string -> option string.

(** [Deal.generate_id]: the [id] validator. [asin] is declared after
    [id], so it is not yet in [values.data] when the validator runs. *)
Definition generate_id (clock : Clock) (v : string) : string :=
  if String.eqb v "" then "deal_" +:+ strftime_Ymd_HMS clock else v.

(** [Deal(...)] with the keyword arguments of [from_amazon_product]:
    field validation of the model. The [Url] object of the product is
    taken as it is, [None] is rejected; the affiliate URL is a [str] and
    is validated. *)
Definition Deal_new (clock : Clock) (k : Deal.kwargs) : result Deal.t :=
  match Deal.k_image_url k, HttpUrl (Deal.k_affiliate_url k) with
  | Some image_url, Some affiliate_url =>
    if float_ge_int (Deal.k_price k) 0
       && opt_all (fun x => float_ge_int x 0) (Deal.k_original_price k)
       && opt_all (fun p => (0 <=? p) && (p <=? 100)) (Deal.k_discount_percent k)
    then Ok (Deal.mk (generate_id clock (Deal.k_id k)) (Deal.k_title k)
               image_url (Deal.k_price k) (Deal.k_original_price k)
               (Deal.k_discount_percent k) (Deal.k_category k)
               (Deal.k_description k) affiliate_url
               (Deal.k_featured k) (Deal.k_date_added k)
               (Deal.k_data_source k) (Deal.k_asin k))
    else Raise ValidationError
  | _, _ => Raise ValidationError
  end.

Definition default_description (amazon_product : AmazonProduct.t) : string :=
  "Great deal on " +:+ AmazonProduct.title amazon_product.

(** The arguments [from_amazon_product] hands to [cls(...)]. *)
Definition deal_kwargs (clock : Clock) (amazon_product : AmazonProduct.t)
    (partner_tag : string) (category description : string) (c : Q)
  : Deal.kwargs :=
  Deal.mk_kwargs
    ("deal_" +:+ AmazonProduct.asin amazon_product +:+ "_" +:+ strftime_Ymd clock)
    (AmazonProduct.title amazon_product)
    (AmazonProduct.image_url amazon_product)
    (float_of_decimal c)
    (if decimal_truthy (AmazonProduct.list_price amazon_product)
     then option_map float_of_decimal (AmazonProduct.list_price amazon_product)
     else None)
    (AmazonProduct.discount_percent amazon_product)
    category description
    (AmazonProduct.to_affiliate_url amazon_product partner_tag)
    (match AmazonProduct.discount_percent amazon_product with
     | Some p => 40 <=? p
     | None => false
     end)
    (isoformat clock)
    (AmazonProduct.data_source amazon_product)
    (AmazonProduct.asin amazon_product).

(** [savingsguru_post.description or f"Great deal on {title}"]; the
    attribute access on [None] raises. *)
Definition post_description (amazon_product : AmazonProduct.t)
    (savingsguru_post : option SavingsGuruPost.t) : result string :=
  match savingsguru_post with
  | None => Raise AttributeError
  | Some post =>
    match SavingsGuruPost.description post with
    | Some s => if String.eqb s "" then Ok (default_description amazon_product) else Ok s
    | None => Ok (default_description amazon_product)
    end
  end.

(** [Deal.from_amazon_product] *)
Definition from_amazon_product (clock : Clock)
    (amazon_product : AmazonProduct.t) (partner_tag : string)
    (savingsguru_post : option SavingsGuruPost.t) : result (option Deal.t) :=
  match AmazonProduct.current_price amazon_product with
  | None => Ok None
  | Some c =>
    if Qeq_bool c 0 || Qle_bool c 0 then Ok None
    else
      let category :=
        match savingsguru_post with
        | Some post => SavingsGuruPost.category post
        | None => "General"
        end in
      description ← post_description amazon_product savingsguru_post;
      Ok (try_except
            (d ← Deal_new clock
                   (deal_kwargs clock amazon_product partner_tag
                      category description c);
             Ok (Some d))
            None)
  end.
End DealFactory.

(** ** Python strings *)

(** A [string] is a [str] of code points below 256, one [ascii] each.
    [isspace], [lower] and [isalnum] are those of Python on these code
    points. [upper] is that of ASCII text: the capital of three of the
    other letters is not a single code point below 256, and what is
    stated of [py_upper] is stated of ASCII text ([py_isascii]). *)

(** [c.isspace()] *)
Definition py_isspace (c : ascii) : bool :=
  let n := nat_of_ascii c in
  ((9 <=? n) && (n <=? 13) || (28 <=? n) && (n <=? 32)
   || (n =? 133) || (n =? 160))%nat.

Fixpoint py_lstrip (s : string) : string :=
  match s with
  | EmptyString => EmptyString
  | String c s' => if py_isspace c then py_lstrip s' else s
  end.

Fixpoint string_rev (s : string) : string :=
  match s with
  | EmptyString => EmptyString
  | String c s' => string_rev s' +:+ String c EmptyString
  end.

(** [s.strip()] *)
Definition py_strip (s : string) : string :=
  string_rev (py_lstrip (string_rev (py_lstrip s))).

(** [s.replace(c, by)] for a one-character pattern [c]. *)
Fixpoint py_replace (c : ascii) (by_ : string) (s : string) : string :=
  match s with
  | EmptyString => EmptyString
  | String x s' =>
    if Ascii.eqb x c then by_ +:+ py_replace c by_ s'
    else String x (py_replace c by_ s')
  end.

(** [c.lower()] *)
Definition ascii_lower (c : ascii) : ascii :=
  let n := nat_of_ascii c in
  if ((65 <=? n) && (n <=? 90) || (192 <=? n) && (n <=? 214)
      || (216 <=? n) && (n <=? 222))%nat
  then ascii_of_nat (n + 32) else c.

(** [c.upper()] for an ASCII character. *)
Definition ascii_upper (c : ascii) : ascii :=
  let n := nat_of_ascii c in
  if ((97 <=? n) && (n <=? 122))%nat then ascii_of_nat (n - 32) else c.

Fixpoint string_map (f : ascii -> ascii) (s : string) : string :=
  match s with
  | EmptyString => EmptyString
  | String c s' => String (f c) (string_map f s')
  end.

Definition py_lower : string -> string := string_map ascii_lower.
Definition py_upper : string -> string := string_map ascii_upper.

(** [c.isalnum()] *)
Definition ascii_isalnum (c : ascii) : bool :=
  let n := nat_of_ascii c in
  ((48 <=? n) && (n <=? 57) || (65 <=? n) && (n <=? 90)
   || (97 <=? n) && (n <=? 122) || (n =? 170) || (178 <=? n) && (n <=? 179)
   || (n =? 181) || (185 <=? n) && (n <=? 186) || (188 <=? n) && (n <=? 190)
   || (192 <=? n) && (n <=? 214) || (216 <=? n) && (n <=? 246)
   || (248 <=? n))%nat.

Fixpoint string_forallb (f : ascii -> bool) (s : string) : bool :=
  match s with
  | EmptyString => true
  | String c s' => f c && string_forallb f s'
  end.

(** [s.isalnum()]: false on the empty string. *)
Definition py_isalnum (s : string) : bool :=
  negb (String.eqb s "") && string_forallb ascii_isalnum s.

(** [s.isascii()] *)
Definition py_isascii (s : string) : bool :=
  string_forallb (fun c => (nat_of_ascii c <? 128)%nat) s.

(** [sub in s] *)
Fixpoint py_contains (sub s : string) : bool :=
  String.prefix sub s ||
  match s with
  | EmptyString => false
  | String _ s' => py_contains sub s'
  end.

(** ** settings.py *)

Record Settings := mkSettings {
  amz_access_key : string;
  amz_secret_key : string;
  amz_partner_tag : string;
  amz_marketplace : string;
  api_rate_limit_delay : Q;
  scraper_delay_min : Q;
  scraper_delay_max : Q;
  max_retry_attempts : Z;
  request_timeout : Q;
  target_deal_count : Z;
  max_pages_to_scrape : Z;
  deal_freshness_hours : Z;
  min_deal_discount : Z;
  app_env : string;
  log_level : string;
  debug : bool
}.

(** [os.environ] after [load_dotenv()]. *)
Abbreviation environ := (gmap string string).

Section SettingsModel.
(** pydantic's parsing of a [float], [int] and [bool] field from the
    text of an environment variable. *)
Variable parse_float : string -> option Q.
Variable parse_int : string -> option Z.
Variable parse_bool : string -> option bool.
(** What the settings sources hold for a field, asked by its alias or
    else its name: the value of a variable of [os.environ] with that name,
    compared without regard to case ([case_sensitive=False]), or else of
    an entry of the file [.env]. *)
Variable field_input : environ -> string -> option string.
(** The file [.env] has an entry that belongs to no field: the model
    forbids extra inputs. *)
Variable extra_inputs : environ -> bool.

(** [validate_amazon_credentials] *)
Definition validate_amazon_credentials (v : string) : result string :=
  if String.eqb v "" || String.eqb (py_strip v) "" then Raise ValueError
  else Ok v.

Definition valid_marketplaces : list string :=
  ["CA"; "US"; "UK"; "DE"; "FR"; "IT"; "ES"; "IN"; "JP"; "AU"].

(** [validate_marketplace] *)
Definition validate_marketplace (v : string) : result string :=
  if existsb (String.eqb v) valid_marketplaces then Ok v else Raise ValueError.

(** A required field: missing is a validation error. *)
Definition required (env : environ) (name : string) : result string :=
  match field_input env name with
  | Some v => Ok v
  | None => Raise ValidationError
  end.

(** A field with a default, parsed from its input when there is one. *)
Definition with_default {A} (env : environ) (name : string)
    (parse : string -> option A) (default : A) : result A :=
  match field_input env name with
  | None => Ok default
  | Some v =>
    match parse v with
    | Some a => Ok a
    | None => Raise ValidationError
    end
  end.

(** A validator that raises [ValueError] makes the model raise
    [ValidationError]. *)
Definition as_validation {A} (r : result A) : result A :=
  match r with
  | Ok a => Ok a
  | Raise _ => Raise ValidationError
  end.

(** [Settings()] *)
Definition Settings_new (env : environ) : result Settings :=
  _ ← (if extra_inputs env then Raise ValidationError else Ok tt);
  access ← required env "AMZ_ACCESS_KEY";
  access ← as_validation (validate_amazon_credentials access);
  secret ← required env "AMZ_SECRET_KEY";
  secret ← as_validation (validate_amazon_credentials secret);
  tag ← required env "AMZ_PARTNER_TAG";
  tag ← as_validation (validate_amazon_credentials tag);
  marketplace ← with_default env "amz_marketplace" Some "CA";
  marketplace ← as_validation (validate_marketplace marketplace);
  rate ← with_default env "api_rate_limit_delay" parse_float 1%Q;
  dmin ← with_default env "scraper_delay_min" parse_float 1%Q;
  dmax ← with_default env "scraper_delay_max" parse_float 3%Q;
  retries ← with_default env "max_retry_attempts" parse_int 3;
  timeout ← with_default env "request_timeout" parse_float 30%Q;
  target ← with_default env "target_deal_count" parse_int 120;
  pages ← with_default env "max_pages_to_scrape" parse_int 20;
  fresh ← with_default env "deal_freshness_hours" parse_int 24;
  mindisc ← with_default env "min_deal_discount" parse_int 10;
  appenv ← with_default env "app_env" Some "development";
  loglevel ← with_default env "log_level" Some "INFO";
  dbg ← with_default env "debug" parse_bool false;
  Ok (mkSettings access secret tag marketplace rate dmin dmax retries
        timeout target pages fresh mindisc appenv loglevel dbg).


End SettingsModel.

(** ** Attribute access on a [Deal] object *)

Inductive pyval :=
| VNone
| VBool (b : bool)
| VInt (z : Z)
| VFloat (x : float)
| VStr (s : string)
| VSource (d : DataSource).

Definition opt_val {A} (f : A -> pyval) (o : option A) : pyval :=
  match o with
  | Some a => f a
  | None => VNone
  end.

(** The fields that [models.Deal] declares, by attribute name. The model
    sets no alias and no alias generator. *)
Definition Deal_fields : list (string * (Deal.t -> pyval)) :=
  [ ("id", fun d => VStr (Deal.id d));
    ("title", fun d => VStr (Deal.title d));
    ("image_url", fun d => VStr (Deal.image_url d));
    ("price", fun d => VFloat (Deal.price d));
    ("original_price", fun d => opt_val VFloat (Deal.original_price d));
    ("discount_percent", fun d => opt_val VInt (Deal.discount_percent d));
    ("category", fun d => VStr (Deal.category d));
    ("description", fun d => VStr (Deal.description d));
    ("affiliate_url", fun d => VStr (Deal.affiliate_url d));
    ("featured", fun d => VBool (Deal.featured d));
    ("date_added", fun d => VStr (Deal.date_added d));
    ("data_source", fun d => VSource (Deal.data_source d));
    ("asin", fun d => VStr (Deal.asin d)) ].

Fixpoint assoc_get {V} (name : string) (l : list (string * V)) : option V :=
  match l with
  | [] => None
  | (k, v) :: l' => if String.eqb k name then Some v else assoc_get name l'
  end.

(** [deal.<name>]: pydantic's [BaseModel.__getattr__] raises
    [AttributeError] for a name that is not a field. *)
Definition Deal_getattr (deal : Deal.t) (name : string) : result pyval :=
  match assoc_get name Deal_fields with
  | Some get => Ok (get deal)
  | None => Raise AttributeError
  end.

(** Truthiness of a Python value. *)
Definition py_truthy (v : pyval) : bool :=
  match v with
  | VNone => false
  | VBool b => b
  | VInt z => negb (z =? 0)
  | VFloat x => float_truthy x
  | VStr s => negb (String.eqb s "")
  | VSource _ => true
  end.

(** [a >= b] on an attribute value and an [int]. *)
Definition py_ge_int (a : pyval) (b : Z) : result bool :=
  match a with
  | VInt x => Ok (b <=? x)
  | VBool x => Ok (b <=? (if x then 1 else 0))
  | VFloat x => Ok (float_ge_int x b)
  | _ => Raise TypeError
  end.

(** The value as an [int], for unary minus. *)
Definition py_as_int (a : pyval) : result Z :=
  match a with
  | VInt x => Ok x
  | VBool x => Ok (if x then 1 else 0)
  | _ => Raise TypeError
  end.

Definition py_as_str (a : pyval) : result string :=
  match a with
  | VStr s => Ok s
  | _ => Raise AttributeError
  end.

(** The value as a [str] component of a sort key. *)
Definition py_key_str (a : pyval) : result string :=
  match a with
  | VStr s => Ok s
  | _ => Raise TypeError
  end.

(** ** Sorting as [sorted] does: stable, smallest key first *)

Section Sorted.
Context {A : Type}.
(** [lt a b]: [a] sorts strictly before [b]. *)
Variable lt : A -> A -> bool.

Fixpoint insert_sorted (x : A) (l : list A) : list A :=
  match l with
  | [] => [x]
  | y :: l' => if lt y x then y :: insert_sorted x l' else x :: y :: l'
  end.

(** Elements are inserted from the last to the first, each before the
    elements that do not sort strictly before it: equal keys keep their
    order. *)
Definition py_sorted (l : list A) : list A :=
  fold_right insert_sorted [] l.
End Sorted.

(** [l[:n]] *)
Definition py_slice_to {A} (n : Z) (l : list A) : list A :=
  if 0 <=? n then take (Z.to_nat n) l
  else take (Z.to_nat (Z.of_nat (length l) + n)) l.

(** ** deal_manager.py *)

Section DealManager.
(** [datetime.fromisoformat(s).replace(tzinfo=None)]: the wall-clock
    reading in microseconds, or the [ValueError] of a string that does
    not parse. *)
Variable fromisoformat : string -> result Z.

(** A [datetime] is its number of microseconds since
    0001-01-01T00:00:00; the last one is 9999-12-31T23:59:59.999999. *)
Definition datetime_max : Z := 3652059 * 86400 * 1000000 - 1.

Definition timedelta_hours (h : Z) : Z := h * 3600 * 1000000.

(** [now - timedelta(hours=h)] (line 62): [OverflowError] when the
    difference is not a [datetime]. *)
Definition datetime_sub_hours (now h : Z) : result Z :=
  let t := now - timedelta_hours h in
  if (0 <=? t) && (t <=? datetime_max) then Ok t else Raise OverflowError.

(** The body of the [try] of [filter_fresh_deals] (lines 67-68). *)
Definition deal_is_fresh (cutoff_time : Z) (deal : Deal.t) : result bool :=
  v ← Deal_getattr deal "dateAdded";
  s ← py_as_str v;
  deal_time ← fromisoformat (py_replace "Z" "+00:00" s);
  Ok (cutoff_time <? deal_time).

(** [filter_fresh_deals]; [utcnow] is [datetime.utcnow()]. The cutoff is
    computed outside the [try]. *)
Definition filter_fresh_deals (settings : Settings) (utcnow : Z)
    (deals : list Deal.t) : result (list Deal.t) :=
  cutoff_time ← datetime_sub_hours utcnow (deal_freshness_hours settings);
  Ok (fold_left
        (fun fresh_deals deal =>
           match deal_is_fresh cutoff_time deal with
           | Ok true => fresh_deals ++ [deal]
           | Ok false => fresh_deals
           | Raise _ => fresh_deals ++ [deal]
           end)
        deals []).

(** One iteration of the loop of [deduplicate_deals], on the pair
    [(unique_deals, self.existing_asins)]. *)
Definition deduplicate_step (acc : list Deal.t * gset string) (deal : Deal.t)
  : list Deal.t * gset string :=
  if bool_decide (Deal.asin deal ∈ acc.2) then acc
  else (acc.1 ++ [deal], acc.2 ∪ {[Deal.asin deal]}).

(** [deduplicate_deals]: the returned list and the updated
    [self.existing_asins]. *)
Definition deduplicate_deals (existing_asins : gset string)
    (new_deals : list Deal.t) : list Deal.t * gset string :=
  fold_left deduplicate_step new_deals ([], existing_asins).

(** The decision of one iteration of [filter_quality_deals]
    (lines 104-110). *)
Definition is_quality_deal (settings : Settings) (deal : Deal.t) : result bool :=
  d ← Deal_getattr deal "discountPercent";
  enough ← (if py_truthy d
            then d' ← Deal_getattr deal "discountPercent";
                 py_ge_int d' (min_deal_discount settings)
            else Ok false);
  if enough : bool then Ok true
  else
    d'' ← Deal_getattr deal "discountPercent";
    if negb (py_truthy d'') then Ok true
    else
      _ ← Deal_getattr deal "title";
      _ ← Deal_getattr deal "discountPercent";
      Ok false.

(** [filter_quality_deals] *)
Fixpoint filter_quality_loop (settings : Settings) (quality_deals : list Deal.t)
    (deals : list Deal.t) : result (list Deal.t) :=
  match deals with
  | [] => Ok quality_deals
  | deal :: rest =>
    keep ← is_quality_deal settings deal;
    filter_quality_loop settings
      (if keep : bool then quality_deals ++ [deal] else quality_deals) rest
  end.

Definition filter_quality_deals (settings : Settings) (deals : list Deal.t)
  : result (list Deal.t) :=
  filter_quality_loop settings [] deals.

(** The sort key of [manage_deal_count]. *)
Definition priority := (bool * Z * string)%type.

(** [deal_priority] *)
Definition deal_priority (deal : Deal.t) : result priority :=
  f ← Deal_getattr deal "featured";
  d ← Deal_getattr deal "discountPercent";
  n ← py_as_int (if py_truthy d then d else VInt 0);
  a ← Deal_getattr deal "dateAdded";
  s ← py_key_str a;
  Ok (negb (py_truthy f), - n, s).

(** Tuple comparison: [False < True], then the integers, then the
    strings by code point. *)
Definition priority_lt (x y : priority) : bool :=
  let '(b1, n1, s1) := x in
  let '(b2, n2, s2) := y in
  if Bool.eqb b1 b2 then
    if n1 =? n2 then String.ltb s1 s2 else n1 <? n2
  else negb b1.

Fixpoint compute_keys (deals : list Deal.t) : result (list (priority * Deal.t)) :=
  match deals with
  | [] => Ok []
  | deal :: rest =>
    k ← deal_priority deal;
    ks ← compute_keys rest;
    Ok ((k, deal) :: ks)
  end.

(** [manage_deal_count] *)
Definition manage_deal_count (settings : Settings) (all_deals : list Deal.t)
  : result (list Deal.t) :=
  let target := target_deal_count settings in
  if Z.of_nat (length all_deals) <=? target then Ok all_deals
  else
    keyed ← compute_keys all_deals;
    let sorted_deals :=
      snd <$> py_sorted (fun a b => priority_lt (fst a) (fst b)) keyed in
    Ok (py_slice_to target sorted_deals).

Record ScrapingStats := {
  existing_deals : Z;
  new_deals_scraped : Z;
  final_deal_count : Z;
  deals_added : Z;
  target_remaining : Z
}.

(** [get_scraping_stats] *)
Definition get_scraping_stats (settings : Settings)
    (existing_count new_count final_count : Z) : ScrapingStats :=
  {| existing_deals := existing_count;
     new_deals_scraped := new_count;
     final_deal_count := final_count;
     deals_added := Z.max 0 (final_count - existing_count);
     target_remaining := Z.max 0 (target_deal_count settings - final_count) |}.

(** [load_existing_deals]. [file] is what the deals file yields: [None]
    when there is no file or it cannot be read, else the entries that
    [Deal(...)] accepts. [self.existing_asins] is replaced only when
    entries were read. *)
Definition load_existing_deals (existing_asins : gset string)
    (file : option (list Deal.t)) : list Deal.t * gset string :=
  match file with
  | None => ([], existing_asins)
  | Some deals => (deals, list_to_set (Deal.asin <$> deals))
  end.

(** [process_deals], on a manager whose [self.existing_asins] is
    [existing_asins]. *)
Definition process_deals (existing_asins : gset string) (settings : Settings)
    (utcnow : Z) (file : option (list Deal.t)) (new_deals : list Deal.t)
  : result (list Deal.t * ScrapingStats) :=
  let '(existing_deals, existing_asins) :=
    load_existing_deals existing_asins file in
  let existing_count := Z.of_nat (length existing_deals) in
  fresh_existing ← filter_fresh_deals settings utcnow existing_deals;
  let unique_new_deals := (deduplicate_deals existing_asins new_deals).1 in
  let new_count := Z.of_nat (length unique_new_deals) in
  quality_new_deals ← filter_quality_deals settings unique_new_deals;
  final_deals ← manage_deal_count settings (fresh_existing ++ quality_new_deals);
  let final_count := Z.of_nat (length final_deals) in
  Ok (final_deals,
      get_scraping_stats settings existing_count new_count final_count).
End DealManager.

(** ** amazon_api.py *)

(** The discount computation shared by [_parse_paapi_item] (lines 198-201),
    the validator [calculate_discount_percent] (lines 50-54) and the
    scraping client:
    [if current_price and list_price and list_price > current_price]. *)
Definition discount_float (current_price list_price : Q) : result float :=
  difference ← decimal_context (list_price - current_price)%Q;
  quotient ← decimal_context (difference / list_price)%Q;
  percent ← decimal_context (quotient * 100)%Q;
  Ok (float_of_decimal percent).

Definition derive_discount (current_price list_price : option Q)
  : result (option Z) :=
  match current_price, list_price with
  | Some c, Some l =>
    if negb (Qeq_bool c 0) && negb (Qeq_bool l 0) && Qltb c l
    then
      discount ← discount_float c l;
      discount_percent ← round_float discount;
      Ok (Some discount_percent)
    else Ok None
  | _, _ => Ok None
  end.

(** [AmazonProduct.calculate_discount_percent]: the validator of
    [discount_percent], given the validated prices. *)
Definition calculate_discount_percent (v : option Z)
    (current_price list_price : option Q) : result (option Z) :=
  match v with
  | Some d => Ok (Some d)
  | None => derive_discount current_price list_price
  end.

(** [AmazonProduct.validate_asin], after the length constraint of the
    field. *)
Definition validate_asin (v : string) : result string :=
  if negb (String.length v =? 10)%nat then Raise ValidationError
  else if negb (py_isalnum v) then Raise ValueError
  else Ok (py_upper v).

(** The PAAPI item, as the dictionary keys that the parser reads. *)
Record PriceInfo := {
  Amount : option Q;
  DisplayValue : option string
}.

Record Listing := {
  Price : option PriceInfo;
  (** [SavingBasis]: absent, or a dictionary that may hold [Amount]. *)
  SavingBasis : option (option Q)
}.

Record Item := {
  ItemInfo_Title : option string;
  ItemInfo_Features : option (list string);
  ItemInfo_Brand : option string;
  Offers_Listings : list Listing;
  (** [Images.Primary]: the URLs of [Large], [Medium] and [Small]. *)
  Images_Primary : option (option string * option string * option string)
}.

(** [response] of [get_items]. *)
Inductive Response :=
| NoItemsResult
| ItemsResult (items : list Item).

Section AmazonAPIClient.
Variable HttpUrl : string -> option string.
(** [Decimal(s)]; [None] stands for [InvalidOperation]. *)
Variable parse_decimal : string -> option Q.

(** The validation of the field [discount_percent]. Without the keyword
    the default [None] is taken and the validator does not run. With it,
    the constraints come first and then [calculate_discount_percent], on
    the prices that passed their own validation; what the validator
    raises leaves the constructor. The inner [None] is a failed
    constraint. *)
Definition validate_discount_percent (passed : bool) (v : option Z)
    (current_price list_price : option Q) : result (option (option Z)) :=
  if negb passed then Ok (Some None)
  else if opt_all (fun p => (0 <=? p) && (p <=? 100)) v
  then
    discount_percent ← calculate_discount_percent v current_price list_price;
    Ok (Some discount_percent)
  else Ok None.

(** The validation of the field [image_url]. *)
Definition validate_image_url (v : option string) : option (option string) :=
  match v with
  | None => Some None
  | Some url => option_map Some (HttpUrl url)
  end.

(** A price in [values.data]: the fields validated so far. *)
Definition validated_price (v : option Q) : option Q :=
  if opt_all (Qle_bool 0) v then v else None.

(** [AmazonProduct(...)]: the fields are validated in the order of their
    declaration, each with its validator; [discount_percent_passed] tells
    whether the keyword [discount_percent] is among the arguments. *)
Definition AmazonProduct_init (discount_percent_passed : bool)
    (k : AmazonProduct.t) : result AmazonProduct.t :=
  let asin := validate_asin (AmazonProduct.asin k) in
  let current_price := AmazonProduct.current_price k in
  let list_price := AmazonProduct.list_price k in
  discount_percent ←
    validate_discount_percent discount_percent_passed
      (AmazonProduct.discount_percent k)
      (validated_price current_price) (validated_price list_price);
  match asin, discount_percent, validate_image_url (AmazonProduct.image_url k) with
  | Ok asin, Some discount_percent, Some image_url =>
    if opt_all (Qle_bool 0) current_price && opt_all (Qle_bool 0) list_price
    then Ok (AmazonProduct.mk asin (AmazonProduct.title k)
               current_price list_price discount_percent image_url
               (AmazonProduct.availability k)
               (AmazonProduct.prime_eligible k) (AmazonProduct.brand k)
               (AmazonProduct.features k) (AmazonProduct.data_source k))
    else Raise ValidationError
  | _, _, _ => Raise ValidationError
  end.

(** [AmazonProduct(...)] with [discount_percent] passed by keyword, as the
    two clients call it. *)
Definition AmazonProduct_new (k : AmazonProduct.t) : result AmazonProduct.t :=
  AmazonProduct_init true k.

(** [_extract_price_from_offers]; a string that does not parse raises
    inside, and the enclosing handler returns [None]. *)
Definition _extract_price_from_offers (listings : list Listing) : option Q :=
  match listings with
  | [] => None
  | listing :: _ =>
    match Price listing with
    | None => None
    | Some price_info =>
      if decimal_truthy (Amount price_info) then Amount price_info
      else
        match DisplayValue price_info with
        | None => None
        | Some display_value =>
          if String.eqb display_value "" then None
          else parse_decimal
                 (py_strip (py_replace "," "" (py_replace "$" "" display_value)))
        end
    end
  end.

(** [_extract_image_url] *)
Definition _extract_image_url
    (images : option (option string * option string * option string))
  : option string :=
  match images with
  | None => None
  | Some (large, medium, small) =>
    match large, medium, small with
    | Some u, _, _ => Some u
    | None, Some u, _ => Some u
    | None, None, Some u => Some u
    | None, None, None => None
    end
  end.

(** [_parse_paapi_item] *)
Definition _parse_paapi_item (item : Item) (asin : string)
  : option AmazonProduct.t :=
  match ItemInfo_Title item with
  | None => None
  | Some title =>
    if String.eqb title "" then None
    else
      let listings := Offers_Listings item in
      let current_price := _extract_price_from_offers listings in
      let list_price :=
        match listings with
        | listing :: _ =>
          match SavingBasis listing with
          | Some (Some amount) => Some amount
          | _ => None
          end
        | [] => None
        end in
      let list_price :=
        if negb (decimal_truthy list_price) && decimal_truthy current_price
        then current_price else list_price in
      let image_url := _extract_image_url (Images_Primary item) in
      let features := take 5 (default [] (ItemInfo_Features item)) in
      try_except
        (discount_percent ← derive_discount current_price list_price;
         p ← AmazonProduct_new
               (AmazonProduct.mk asin title current_price list_price
                  discount_percent image_url "Available" false
                  (ItemInfo_Brand item) features PAAPI);
         Ok (Some p))
        None
  end.

(** The client and what it has done: [_last_request_time], the clock
    [time.time()], the item ids sent to the API and the delays slept. *)
Record ApiClient := mkApiClient {
  _last_request_time : Q;
  time_now : Q;
  requests_sent : list string;
  sleeps : list Q
}.

(** Lines 135-144, the first statements of the [try]: the import of
    [GetItemsResource] from the SDK and the reads of its five attributes.
    They succeed or raise, the same at every call. *)
Variable get_items_resources : result unit.

(** [self.amazon_api.get_items]: the answer of the remote API. *)
Variable get_items : ApiClient -> string -> result Response.

(** [_throttle_request] *)
Definition _throttle_request (settings : Settings) (self : ApiClient) : ApiClient :=
  let time_since_last_request := (time_now self - _last_request_time self)%Q in
  let self' :=
    if Qltb time_since_last_request (api_rate_limit_delay settings) then
      let sleep_time := (api_rate_limit_delay settings - time_since_last_request)%Q in
      mkApiClient (_last_request_time self) (time_now self + sleep_time)%Q
        (requests_sent self) (sleeps self ++ [sleep_time])
    else self in
  mkApiClient (time_now self') (time_now self') (requests_sent self') (sleeps self').

(** [get_product_info] *)
Definition get_product_info (settings : Settings) (self : ApiClient)
    (asin : string) : option AmazonProduct.t * ApiClient :=
  if String.eqb asin "" || negb (String.length asin =? 10)%nat then (None, self)
  else
    let self1 := _throttle_request settings self in
    match get_items_resources with
    | Raise _ => (None, self1)
    | Ok _ =>
      let self2 :=
        mkApiClient (_last_request_time self1) (time_now self1)
          (requests_sent self1 ++ [asin]) (sleeps self1) in
      match get_items self1 asin with
      | Raise _ => (None, self2)
      | Ok NoItemsResult => (None, self2)
      | Ok (ItemsResult []) => (None, self2)
      | Ok (ItemsResult (item :: _)) => (_parse_paapi_item item asin, self2)
      end
    end.
End AmazonAPIClient.

(** ** focused_scraper.py *)

(** [self.session] *)
Record ScrapingSession := mkSession {
  total_products_attempted : Z;
  total_products_successful : Z;
  total_api_calls : Z;
  total_scraping_calls : Z;
  errors : list string
}.

(** [self.stats], the counters of the resolution loop. *)
Record Stats := mkStats {
  asins_found : Z;
  paapi_success : Z;
  scraping_success : Z;
  products_skipped : Z
}.

(** A call that left the orchestrator for one of the two clients. *)
Inductive ClientCall :=
| CallPaapi (asin : string)
| CallScraper (asin : string).

(** [results[asin] = product] on a [dict]: an existing key keeps its
    place, a new key goes last. *)
Fixpoint dict_set {V} (k : string) (v : V) (d : list (string * V))
  : list (string * V) :=
  match d with
  | [] => [(k, v)]
  | (k', v') :: d' =>
    if String.eqb k' k then (k, v) :: d' else (k', v') :: dict_set k v d'
  end.

(** [product and product.current_price and product.current_price > 0] *)
Definition is_priced (product : option AmazonProduct.t) : bool :=
  match product with
  | Some p =>
    match AmazonProduct.current_price p with
    | Some c => negb (Qeq_bool c 0) && Qltb 0 c
    | None => false
    end
  | None => false
  end.

(** What a client call yielded is a product with a present, positive
    current price. *)
Definition yields_priced (r : result (option AmazonProduct.t)) : bool :=
  match r with
  | Ok product => is_priced product
  | Raise _ => false
  end.

Section FocusedScraper.
(** The outside world of the two clients: network, clocks, rate-limit
    state. *)
Variable World : Type.
(** [self.amazon_api.get_product_info] and
    [self.scraper_client.scrape_product]: what the call returns or
    raises, and the world it leaves. *)
Variable paapi_get_product_info :
  string -> World -> result (option AmazonProduct.t) * World.
Variable scrape_product :
  string -> World -> result (option AmazonProduct.t) * World.
(** [datetime.utcnow().isoformat()] *)
Variable utcnow_isoformat : World -> string.

Record Scraper := mkScraper {
  session : ScrapingSession;
  stats : Stats;
  world : World;
  (** The calls made to the clients so far, oldest first. *)
  calls : list ClientCall
}.

(** [_try_paapi] *)
Definition _try_paapi (self : Scraper) (asin : string)
  : option AmazonProduct.t * Scraper :=
  let ss := session self in
  let ss' := mkSession (total_products_attempted ss) (total_products_successful ss)
               (total_api_calls ss + 1) (total_scraping_calls ss) (errors ss) in
  let '(r, w) := paapi_get_product_info asin (world self) in
  let self' := mkScraper ss' (stats self) w (calls self ++ [CallPaapi asin]) in
  match r with
  | Ok product => (if is_priced product then product else None, self')
  | Raise _ => (None, self')
  end.

(** [_try_web_scraping] *)
Definition _try_web_scraping (self : Scraper) (asin : string)
  : option AmazonProduct.t * Scraper :=
  let ss := session self in
  let ss' := mkSession (total_products_attempted ss) (total_products_successful ss)
               (total_api_calls ss) (total_scraping_calls ss + 1) (errors ss) in
  let '(r, w) := scrape_product asin (world self) in
  let self' := mkScraper ss' (stats self) w (calls self ++ [CallScraper asin]) in
  match r with
  | Ok product => (if is_priced product then product else None, self')
  | Raise _ => (None, self')
  end.

Definition results := list (string * option AmazonProduct.t).

Definition count_attempt (self : Scraper) : Scraper :=
  let ss := session self in
  let st := stats self in
  mkScraper
    (mkSession (total_products_attempted ss + 1) (total_products_successful ss)
       (total_api_calls ss) (total_scraping_calls ss) (errors ss))
    (mkStats (asins_found st + 1) (paapi_success st) (scraping_success st)
       (products_skipped st))
    (world self) (calls self).

Definition count_success (by_paapi : bool) (self : Scraper) : Scraper :=
  let ss := session self in
  let st := stats self in
  mkScraper
    (mkSession (total_products_attempted ss) (total_products_successful ss + 1)
       (total_api_calls ss) (total_scraping_calls ss) (errors ss))
    (mkStats (asins_found st)
       (if by_paapi then paapi_success st + 1 else paapi_success st)
       (if by_paapi then scraping_success st else scraping_success st + 1)
       (products_skipped st))
    (world self) (calls self).

Definition count_skip (asin : string) (self : Scraper) : Scraper :=
  let ss := session self in
  let st := stats self in
  mkScraper
    (mkSession (total_products_attempted ss) (total_products_successful ss)
       (total_api_calls ss) (total_scraping_calls ss)
       (errors ss ++ [utcnow_isoformat (world self) +:+ ": "
                      +:+ "No real data available for ASIN " +:+ asin]))
    (mkStats (asins_found st) (paapi_success st) (scraping_success st)
       (products_skipped st + 1))
    (world self) (calls self).

(** The body of the loop of [get_real_product_data] (lines 245-274). *)
Definition resolve_asin (acc : results * Scraper) (asin : string)
  : results * Scraper :=
  let '(res, self) := acc in
  let self := count_attempt self in
  let '(product, self) := _try_paapi self asin in
  match product with
  | Some p => (dict_set asin (Some p) res, count_success true self)
  | None =>
    let '(product, self) := _try_web_scraping self asin in
    match product with
    | Some p => (dict_set asin (Some p) res, count_success false self)
    | None => (dict_set asin None res, count_skip asin self)
    end
  end.

(** [get_real_product_data] *)
Definition get_real_product_data (self : Scraper) (asins : list string)
  : results * Scraper :=
  fold_left resolve_asin asins ([], self).
End FocusedScraper.

(** [d.discount_percent or 0] *)
Definition discount_or_0 (d : Deal.t) : Z :=
  match Deal.discount_percent d with
  | Some p => p
  | None => 0
  end.

(** [_sort_deals_by_discount]: [sorted(..., reverse=True)], which keeps
    the order of deals with equal keys. *)
Definition _sort_deals_by_discount (deals : list Deal.t) : list Deal.t :=
  py_sorted (fun a b => discount_or_0 b <? discount_or_0 a) deals.

(** [deal.featured = b] *)
Definition set_featured (b : bool) (d : Deal.t) : Deal.t :=
  Deal.mk (Deal.id d) (Deal.title d) (Deal.image_url d) (Deal.price d)
    (Deal.original_price d) (Deal.discount_percent d) (Deal.category d)
    (Deal.description d) (Deal.affiliate_url d) b (Deal.date_added d)
    (Deal.data_source d) (Deal.asin d).

(** The test of line 366:
    [deal.discount_percent and deal.discount_percent >= featured_threshold]. *)
Definition meets_threshold (featured_threshold : Z) (deal : Deal.t) : bool :=
  match Deal.discount_percent deal with
  | Some p => negb (p =? 0) && (featured_threshold <=? p)
  | None => false
  end.

(** The marking loop of [_mark_featured_deals] (lines 364-372). The deals
    of a run are distinct objects, each built by its own [Deal(...)] call,
    so the assignment to [deal.featured] rewrites one entry of the list. *)
Fixpoint mark_loop (featured_threshold : Z) (featured_count : Z)
    (sorted_deals : list Deal.t) : list Deal.t :=
  match sorted_deals with
  | [] => []
  | deal :: rest =>
    if meets_threshold featured_threshold deal && (featured_count <? 20)
    then set_featured true deal
           :: mark_loop featured_threshold (featured_count + 1) rest
    else set_featured false deal
           :: mark_loop featured_threshold featured_count rest
  end.

(** [_mark_featured_deals] *)
Definition _mark_featured_deals (deals : list Deal.t) (featured_threshold : Z)
  : list Deal.t :=
  mark_loop featured_threshold 0 (_sort_deals_by_discount deals).

(** ** Fixtures *)

(** The product and the post of the test fixtures. *)
Definition fixture_clock : Clock :=
  {| strftime_Ymd := "20240115";
     strftime_Ymd_HMS := "20240115_103000";
     isoformat := "2024-01-15T10:30:00" |}.

Definition fixture_product : AmazonProduct.t :=
  AmazonProduct.mk "B08N5WRWNW" "Test Product" (Some (2999 # 100)%Q)
    (Some (4999 # 100)%Q) (Some 40) (Some "https://example.com/image.jpg")
    "In Stock" true (Some "TestBrand") ["Feature 1"; "Feature 2"] PAAPI.

Definition fixture_post : SavingsGuruPost.t :=
  SavingsGuruPost.mk "test_post_123" "Great Deal on Test Product"
    "https://savingsguru.ca/test-post" ["https://amzn.to/test123"]
    ["B08N5WRWNW"] "Electronics" (Some "This is a test deal description").

(** An [HttpUrl] validation that accepts every string and stores it as
    it is. *)
Definition accept_all_urls (u : string) : option string := Some u.

(** An [HttpUrl] validation that percent-encodes the space of one URL, as
    pydantic does, and stores every other string as it is. *)
Definition fixture_encoding_urls (u : string) : option string :=
  if String.eqb u "https://www.amazon.ca/dp/B08N5WRWNW?tag=my tag"
  then Some "https://www.amazon.ca/dp/B08N5WRWNW?tag=my%20tag"
  else Some u.

(** The settings of the test fixtures: test credentials, defaults
    elsewhere. *)
Definition fixture_settings : Settings :=
  mkSettings "test_access_key" "test_secret_key" "test-tag-20" "CA"
    1%Q 1%Q 3%Q 3 30%Q 120 20 24 10 "testing" "INFO" false.

(** A deal as the factory builds it, with a given identifier, discount and
    time of addition. *)
Definition fixture_deal (asin : string) (discount_percent : option Z)
    (date_added : string) : Deal.t :=
  Deal.mk ("deal_" +:+ asin +:+ "_20240115") "Test Product"
    "https://example.com/image.jpg" (float_of_decimal (2999 # 100))
    (Some (float_of_decimal (4999 # 100)))
    discount_percent "Electronics" "This is a test deal description"
    ("https://www.amazon.ca/dp/" +:+ asin +:+ "?tag=test-tag-20")
    false date_added PAAPI asin.

(** 2024-01-15T00:00:00, day 738899 after 0001-01-01. *)
Definition fixture_midnight : Z := 738899 * 86400 * 1000000.

(** [datetime.utcnow()] of the runs below: 2024-01-15T10:30:00. *)
Definition fixture_utcnow : Z :=
  fixture_midnight + 10 * 3600 * 1000000 + 1800000000.

(** A parser of the timestamps used below, for the three instants that
    occur. *)
Definition fixture_fromisoformat (s : string) : result Z :=
  if String.eqb s "2024-01-13T10:30:00"
  then Ok (fixture_midnight - 37 * 3600 * 1000000 - 1800000000)
  else if String.eqb s "2024-01-15T09:30:00"
  then Ok (fixture_midnight + 9 * 3600 * 1000000 + 1800000000)
  else if String.eqb s "2024-01-15T10:30:00" then Ok fixture_utcnow
  else Raise ValueError.

(** The item of the mocked PAAPI response. *)
Definition fixture_item : Item :=
  {| ItemInfo_Title := Some "Test Product";
     ItemInfo_Features := Some ["Feature 1"; "Feature 2"];
     ItemInfo_Brand := Some "TestBrand";
     Offers_Listings :=
       [ {| Price := Some {| Amount := Some (2999 # 100)%Q;
                             DisplayValue := Some "$29.99" |};
            SavingBasis := Some (Some (4999 # 100)%Q) |} ];
     Images_Primary := Some (Some "https://example.com/image.jpg", None, None) |}.

Definition fixture_parse_decimal (s : string) : option Q :=
  if String.eqb s "29.99" then Some (2999 # 100)%Q
  else if String.eqb s "49.99" then Some (4999 # 100)%Q
  else None.

(** ** The discount rule, as the specification words it *)

(** [n] is an integer nearest to [x]. *)
Definition nearest_integer (x : Q) (n : Z) : Prop :=
  (x - (1 # 2) <= inject_Z n /\ inject_Z n <= x + (1 # 2))%Q.

(** The discount percentage of a product is consistent with its prices:
    present exactly when both prices are present, the current price is
    positive and the list price is above it, and then [round] of the
    float of (list - current) / list * 100 as [decimal] computes it, an
    integer nearest to that float. *)
Definition discount_consistent (p : AmazonProduct.t) : Prop :=
  match AmazonProduct.discount_percent p with
  | Some d =>
    exists c l x, AmazonProduct.current_price p = Some c
                  /\ AmazonProduct.list_price p = Some l
                  /\ (c < l)%Q
                  /\ discount_float c l = Ok (Finite x)
                  /\ d = py_round x
                  /\ nearest_integer x d
  | None =>
    ~ exists c l, AmazonProduct.current_price p = Some c
                  /\ AmazonProduct.list_price p = Some l
                  /\ (0 < c)%Q /\ (c < l)%Q
  end.

(** What the parser makes of [fixture_item]. *)
Definition fixture_product_parsed : AmazonProduct.t :=
  AmazonProduct.mk "B08N5WRWNW" "Test Product" (Some (2999 # 100)%Q)
    (Some (4999 # 100)%Q) (Some 40) (Some "https://example.com/image.jpg")
    "Available" false (Some "TestBrand") ["Feature 1"; "Feature 2"] PAAPI.

(** ** The identifier rule, as the specification words it *)

(** Exactly ten characters, all alphanumeric. *)
Definition well_formed_asin (asin : string) : bool :=
  (String.length asin =? 10)%nat && py_isalnum asin.

(** A client that made its last request half a second ago, and a remote
    API that knows no item. *)
Definition fixture_client : ApiClient :=
  mkApiClient 100%Q (201 # 2)%Q [] [].

Definition fixture_get_items (self : ApiClient) (asin : string)
  : result Response := Ok NoItemsResult.

(** Whether [get_product_info] sends a request for an identifier: it has
    ten characters and the SDK import succeeds. *)
Definition sends_request (get_items_resources : result unit) (asin : string)
  : bool :=
  (String.length asin =? 10)%nat
  && match get_items_resources with Ok _ => true | Raise _ => false end.

(** The test of lines 199, 155 and 50. *)
Definition discount_applies (c l : Q) : Prop :=
  Qeq_bool c 0 = false /\ Qeq_bool l 0 = false /\ (c < l)%Q.

(** An SDK whose [GetItemsResource] has the five attributes. *)
Definition fixture_resources : result unit := Ok tt.

(** The environment variable parsers of the fixtures: no numeric or
    boolean variable is set. *)
Definition fixture_parse_float (s : string) : option Q := None.
Definition fixture_parse_int (s : string) : option Z := None.
Definition fixture_parse_bool (s : string) : option bool := None.


(** The settings sources, for environments that spell no name in two
    ways and with no file [.env]: the variable whose name is the same
    without regard to case. *)
Definition fixture_field_input (env : environ) (name : string)
  : option string :=
  snd <$> List.find (fun kv => String.eqb (py_lower kv.1) (py_lower name))
            (map_to_list env).

Definition fixture_extra_inputs (env : environ) : bool := false.




(** The end-to-end scenario: PAAPI knows [B08N5WRWNW] and nothing else,
    the scraping client finds nothing. The world of the clients has no
    state. *)
Definition fixture_paapi (asin : string) (w : unit)
  : result (option AmazonProduct.t) * unit :=
  (Ok (if String.eqb asin "B08N5WRWNW" then Some fixture_product else None), w).

Definition fixture_scraper (asin : string) (w : unit)
  : result (option AmazonProduct.t) * unit :=
  (Ok None, w).

Definition fixture_scraper_state : Scraper unit :=
  mkScraper unit (mkSession 0 0 0 0 []) (mkStats 0 0 0 0) tt [].

(** * More of the code *)

(** ** amazon_api.py: batches of requests and the health check *)

Section AmazonAPIClientBatch.
Variable HttpUrl : string -> option string.
Variable parse_decimal : string -> option Q.
Variable get_items_resources : result unit.
Variable get_items : ApiClient -> string -> result Response.

(** [await asyncio.sleep(d)] on the clock of the client. *)
Definition api_sleep (d : Q) (self : ApiClient) : ApiClient :=
  mkApiClient (_last_request_time self) (time_now self + d)%Q
    (requests_sent self) (sleeps self ++ [d]).

(** The body of the loop of [get_multiple_products] (lines 260-266), on
    the pair [(results, self)]. *)
Definition get_multiple_step (settings : Settings)
    (acc : list (string * option AmazonProduct.t) * ApiClient) (asin : string)
  : list (string * option AmazonProduct.t) * ApiClient :=
  let '(results, self) := acc in
  let self := if (0 <? length results)%nat then api_sleep (1 # 2) self else self in
  let '(product, self) :=
    get_product_info HttpUrl parse_decimal get_items_resources get_items
      settings self asin in
  (dict_set asin product results, self).

(** [get_multiple_products] *)
Definition get_multiple_products (settings : Settings) (self : ApiClient)
    (asins : list string)
  : list (string * option AmazonProduct.t) * ApiClient :=
  fold_left (get_multiple_step settings) asins ([], self).
End AmazonAPIClientBatch.

(** [is_healthy]; [self.amazon_api] is set once [__init__] has returned. *)
Definition is_healthy (settings : Settings) : bool :=
  negb (String.eqb (amz_access_key settings) "")
  && negb (String.eqb (amz_secret_key settings) "")
  && negb (String.eqb (amz_partner_tag settings) "").

(** ** models.py: the session's success rate *)

(** [ScrapingSession.success_rate] *)
Definition success_rate (self : ScrapingSession) : Q :=
  if total_products_attempted self =? 0 then 0%Q
  else (inject_Z (total_products_successful self)
        / inject_Z (total_products_attempted self) * 100)%Q.

(** ** The counters of the resolution loop *)

(** How the session [s0], the statistics [t0] and the number of client
    calls [c0] have moved to [s1], [t1] and [c1] when [n] identifiers were
    processed in between. *)
Definition counters_advance (n : Z) (s0 s1 : ScrapingSession) (t0 t1 : Stats)
    (c0 c1 : nat) : Prop :=
  let by_paapi := paapi_success t1 - paapi_success t0 in
  let by_scraping := scraping_success t1 - scraping_success t0 in
  let skipped := products_skipped t1 - products_skipped t0 in
  total_products_attempted s1 = total_products_attempted s0 + n
  /\ total_api_calls s1 = total_api_calls s0 + n
  /\ asins_found t1 = asins_found t0 + n
  /\ 0 <= by_paapi /\ 0 <= by_scraping /\ 0 <= skipped
  /\ by_paapi + by_scraping + skipped = n
  /\ total_products_successful s1
     = total_products_successful s0 + by_paapi + by_scraping
  /\ total_scraping_calls s1 = total_scraping_calls s0 + n - by_paapi
  /\ Z.of_nat (length (errors s1)) = Z.of_nat (length (errors s0)) + skipped
  /\ Z.of_nat c1 = Z.of_nat c0 + n + (n - by_paapi).

(** ** focused_scraper.py: categories and deal creation *)

(** The [categories] dictionary of [_categorize_post], in its order. *)
Definition categories : list (string * list string) :=
  [ ("Electronics", ["electronics"; "tech"; "computer"; "laptop"; "phone";
                     "tablet"; "camera"; "tv"]);
    ("Home & Garden", ["home"; "kitchen"; "garden"; "furniture"; "decor";
                       "appliance"]);
    ("Clothing", ["clothing"; "fashion"; "shirt"; "dress"; "shoes"; "jacket"]);
    ("Books", ["book"; "novel"; "kindle"; "ebook"; "reading"]);
    ("Toys & Games", ["toy"; "game"; "kids"; "children"; "play"]);
    ("Health & Beauty", ["health"; "beauty"; "skincare"; "makeup"; "supplement"]);
    ("Sports", ["sport"; "fitness"; "gym"; "exercise"; "outdoor"]) ].

(** [any(keyword in title_lower for keyword in keywords)] *)
Definition any_keyword (title_lower : string) (keywords : list string) : bool :=
  existsb (fun keyword => py_contains keyword title_lower) keywords.

(** [_categorize_post] *)
Definition _categorize_post (title : string) : string :=
  let title_lower := py_lower title in
  match List.find (fun entry => any_keyword title_lower entry.2) categories with
  | Some (category, _) => category
  | None => "General"
  end.

(** [{asin: post for post in posts for asin in post.extracted_asins}] *)
Definition post_lookup (posts : list SavingsGuruPost.t)
  : list (string * SavingsGuruPost.t) :=
  fold_left
    (fun d post =>
       fold_left (fun d asin => dict_set asin post d)
         (SavingsGuruPost.extracted_asins post) d)
    posts [].

Section CreateDeals.
Variable HttpUrl : string -> option string.
(** [datetime.utcnow()] as read while the entry of an identifier is
    processed. *)
Variable clock_at : string -> Clock.

(** The loop of [create_deals_from_products] (lines 328-347), on the list
    [deals]; an exception of [Deal.from_amazon_product] leaves the
    function. *)
Fixpoint create_deals_loop (partner_tag : string)
    (lookup : list (string * SavingsGuruPost.t))
    (items : list (string * option AmazonProduct.t)) (deals : list Deal.t)
  : result (list Deal.t) :=
  match items with
  | [] => Ok deals
  | (asin, product) :: rest =>
    match product with
    | None => create_deals_loop partner_tag lookup rest deals
    | Some p =>
      deal ← from_amazon_product HttpUrl
               (clock_at asin) p partner_tag (assoc_get asin lookup);
      create_deals_loop partner_tag lookup rest
        (match deal with
         | Some d => deals ++ [d]
         | None => deals
         end)
    end
  end.

(** [create_deals_from_products] *)
Definition create_deals_from_products (settings : Settings)
    (products : list (string * option AmazonProduct.t))
    (posts : list SavingsGuruPost.t) : result (list Deal.t) :=
  create_deals_loop (amz_partner_tag settings) (post_lookup posts) products [].
End CreateDeals.

(** The deal that the factory makes of [fixture_product] and
    [fixture_post]. *)
Definition fixture_factory_deal : Deal.t :=
  Deal.mk "deal_B08N5WRWNW_20240115" "Test Product"
    "https://example.com/image.jpg" (float_of_decimal (2999 # 100))
    (Some (float_of_decimal (4999 # 100)))
    (Some 40) "Electronics" "This is a test deal description"
    "https://www.amazon.ca/dp/B08N5WRWNW?tag=test-tag-20"
    true "2024-01-15T10:30:00" PAAPI "B08N5WRWNW".

(** ** focused_scraper.py: the whole run *)

(** [list(dict.fromkeys(l))]: the first occurrence of each entry, in
    order. *)
Definition dict_fromkeys (l : list string) : list string :=
  (fold_left (fun d k => dict_set k tt d) l []).*1.

(** The path of lines 423-426. *)
Definition output_path (output_file : string) : string :=
  if String.prefix "/" output_file then output_file
  else "public/" +:+ output_file.

Section ScrapeDeals.
Variable World : Type.
Variable paapi_get_product_info :
  string -> World -> result (option AmazonProduct.t) * World.
Variable scrape_product :
  string -> World -> result (option AmazonProduct.t) * World.
Variable utcnow_isoformat : World -> string.
Variable HttpUrl : string -> option string.
Variable clock_at : string -> Clock.
Variable fromisoformat : string -> result Z.
(** [self.scrape_savingsguru_posts(max_pages)]: the posts it returns, or
    what it raises, and the world it leaves. *)
Variable scrape_savingsguru_posts :
  Z -> World -> result (list SavingsGuruPost.t) * World.
(** [datetime.utcnow()] in microseconds. *)
Variable utcnow : World -> Z.
(** The deals file at a path, as [load_existing_deals] reads it. *)
Variable deals_file : string -> World -> option (list Deal.t).
(** [str(e)] *)
Variable exception_str : exn -> string.

(** [self.session.add_error(error)] *)
Definition add_error (error : string) (self : Scraper World) : Scraper World :=
  let ss := session World self in
  mkScraper World
    (mkSession (total_products_attempted ss) (total_products_successful ss)
       (total_api_calls ss) (total_scraping_calls ss)
       (errors ss ++ [utcnow_isoformat (world World self) +:+ ": " +:+ error]))
    (stats World self) (world World self) (calls World self).

(** The [try] block of [scrape_deals] (lines 389-455) on a scraper whose
    deal manager holds [existing_asins]: the list it returns together with
    the path and the deals handed to [save_json_file], or the exception
    that leaves it; and the scraper as it is by then. *)
Definition scrape_deals_try (existing_asins : gset string) (settings : Settings)
    (self : Scraper World) (max_pages : option Z) (output_file : string)
  : result (list Deal.t * option (string * list Deal.t)) * Scraper World :=
  let max_pages := default (max_pages_to_scrape settings) max_pages in
  let '(r, w) := scrape_savingsguru_posts max_pages (world World self) in
  let self :=
    mkScraper World (session World self) (stats World self) w (calls World self) in
  match r with
  | Raise e => (Raise e, self)
  | Ok [] => (Ok ([], None), self)
  | Ok posts =>
    let all_asins := concat (SavingsGuruPost.extracted_asins <$> posts) in
    let unique_asins := dict_fromkeys all_asins in
    match unique_asins with
    | [] => (Ok ([], None), self)
    | _ =>
      let '(products, self) :=
        get_real_product_data World paapi_get_product_info scrape_product
          utcnow_isoformat self unique_asins in
      (new_deals ← create_deals_from_products HttpUrl
                     clock_at settings products posts;
       let path := output_path output_file in
       management_result ← process_deals fromisoformat existing_asins settings
                             (utcnow (world World self))
                             (deals_file path (world World self)) new_deals;
       let final_deals := _mark_featured_deals management_result.1 40 in
       Ok (final_deals, Some (path, final_deals)),
       self)
    end
  end.

(** [scrape_deals]: the returned list, what was handed to
    [save_json_file], and the scraper afterwards. *)
Definition scrape_deals (existing_asins : gset string) (settings : Settings)
    (self : Scraper World) (max_pages : option Z) (output_file : string)
  : list Deal.t * option (string * list Deal.t) * Scraper World :=
  match scrape_deals_try existing_asins settings self max_pages output_file with
  | (Ok (final_deals, saved), self) => (final_deals, saved, self)
  | (Raise e, self) =>
    ([], None, add_error ("Critical error: " +:+ exception_str e) self)
  end.
End ScrapeDeals.

(** ** scraper_fallback.py *)

Module AmazonScrapingClient.
Section Client.
Variable HttpUrl : string -> option string.
(** A parsed page ([BeautifulSoup]), and what the selector methods of the
    client find on it or raise. *)
Variable Soup : Type.
Variable _extract_title : Soup -> result (option string).
Variable _extract_current_price : Soup -> result (option Q).
Variable _extract_list_price : Soup -> result (option Q).
Variable _extract_price_alternative : Soup -> result (option Q).
Variable _extract_image_url : Soup -> result (option string).
Variable _extract_availability : Soup -> result string.
Variable _is_valid_product_page : Soup -> result bool.

(** [_extract_product_data] *)
Definition _extract_product_data (soup : Soup) (asin : string)
  : option AmazonProduct.t :=
  try_except
    (title ← _extract_title soup;
     match title with
     | None => Ok None
     | Some title =>
       if String.eqb title "" then Ok None
       else
         current_price ← _extract_current_price soup;
         list_price ← _extract_list_price soup;
         current_price ← (if negb (decimal_truthy current_price)
                          then _extract_price_alternative soup
                          else Ok current_price);
         image_url ← _extract_image_url soup;
         availability ← _extract_availability soup;
         discount_percent ← derive_discount current_price list_price;
         match current_price with
         | None => Ok None
         | Some c =>
           if Qeq_bool c 0 || Qle_bool c 0 then Ok None
           else
             product ← AmazonProduct_new HttpUrl
                         (AmazonProduct.mk asin title current_price list_price
                            discount_percent image_url availability false None
                            [] SCRAPED);
             Ok (Some product)
         end
     end)
    None.

(** What one pass of the [try] of [scrape_product] meets at
    [self.client.get]: a response, with its page parsed, or an
    exception. *)
Inductive HttpOutcome :=
| Responded (status_code : Z) (soup : Soup)
| TimeoutException
| OtherException.

(** [self.client.get(url, headers=headers)] at the given attempt. *)
Variable client_get : string -> nat -> HttpOutcome.

(** The retry loop of [scrape_product] (lines 316-360) from [attempt] on,
    with [remaining] iterations left: the product returned and the number
    of requests sent so far. The delays are left out. *)
Fixpoint scrape_attempts (url asin : string) (remaining attempt : nat)
  : option AmazonProduct.t * nat :=
  match remaining with
  | O => (None, attempt)
  | S remaining' =>
    match client_get url attempt with
    | Responded status_code soup =>
      if status_code =? 200 then
        match _is_valid_product_page soup with
        | Ok true => (_extract_product_data soup asin, S attempt)
        | _ => scrape_attempts url asin remaining' (S attempt)
        end
      else if (status_code =? 503) || (status_code =? 403)
              || (status_code =? 429)
      then scrape_attempts url asin remaining' (S attempt)
      else (None, S attempt)
    | _ => scrape_attempts url asin remaining' (S attempt)
    end
  end.

(** [scrape_product] *)
Definition scrape_product (settings : Settings) (asin : string)
  : option AmazonProduct.t * nat :=
  if String.eqb asin "" || negb (String.length asin =? 10)%nat then (None, O)
  else scrape_attempts ("https://www.amazon.ca/dp/" +:+ asin) asin
         (Z.to_nat (max_retry_attempts settings)) O.
End Client.
End AmazonScrapingClient.

(** ** Fixtures of the run and of the scraping client *)

(** A run over one page of posts, with the clients of the fixtures. *)
Definition fixture_posts (max_pages : Z) (w : unit)
  : result (list SavingsGuruPost.t) * unit :=
  (Ok [fixture_post], w).

(** The deals file of a run: [public/deals.json] holds the given deals,
    no other path exists. *)
Definition fixture_deals_file (deals : option (list Deal.t)) (path : string)
    (w : unit) : option (list Deal.t) :=
  if String.eqb path "public/deals.json" then deals else None.

Definition fixture_run (deals : option (list Deal.t))
  : list Deal.t * option (string * list Deal.t) * Scraper unit :=
  scrape_deals unit fixture_paapi fixture_scraper
    (fun _ => "2024-01-15T10:30:00") accept_all_urls
    (fun _ => fixture_clock) fixture_fromisoformat fixture_posts
    (fun _ => fixture_utcnow) (fixture_deals_file deals)
    (fun _ => "AttributeError")
    ∅ fixture_settings fixture_scraper_state None "deals.json".

(** A product page on which the selectors find a title, both prices, an
    image and the availability. *)
Definition fixture_page_title (soup : unit) : result (option string) :=
  Ok (Some "Test Product").
Definition fixture_page_price (soup : unit) : result (option Q) :=
  Ok (Some (2999 # 100)%Q).
Definition fixture_page_list_price (soup : unit) : result (option Q) :=
  Ok (Some (4999 # 100)%Q).
Definition fixture_page_no_price (soup : unit) : result (option Q) :=
  Ok None.
Definition fixture_page_image (soup : unit) : result (option string) :=
  Ok (Some "https://example.com/image.jpg").
Definition fixture_page_availability (soup : unit) : result string :=
  Ok "In Stock".
Definition fixture_page_valid (soup : unit) : result bool := Ok true.

Definition fixture_scraped_product : AmazonProduct.t :=
  AmazonProduct.mk "B08N5WRWNW" "Test Product" (Some (2999 # 100)%Q)
    (Some (4999 # 100)%Q) (Some 40) (Some "https://example.com/image.jpg")
    "In Stock" false None [] SCRAPED.

(** A server that answers 503, then times out, then serves the page. *)
Definition fixture_client_get (url : string) (attempt : nat)
  : AmazonScrapingClient.HttpOutcome unit :=
  match attempt with
  | O => AmazonScrapingClient.Responded unit 503 tt
  | S O => AmazonScrapingClient.TimeoutException unit
  | _ => AmazonScrapingClient.Responded unit 200 tt
  end.

Definition fixture_scrape_product (settings : Settings) (asin : string)
  : option AmazonProduct.t * nat :=
  AmazonScrapingClient.scrape_product accept_all_urls unit fixture_page_title
    fixture_page_price fixture_page_list_price fixture_page_no_price
    fixture_page_image fixture_page_availability fixture_page_valid
    fixture_client_get settings asin.

(** The identifiers that were sent to the PAAPI client, oldest first. *)
Definition paapi_lookups (calls : list ClientCall) : list string :=
  omap (fun c => match c with
                 | CallPaapi asin => Some asin
                 | CallScraper _ => None
                 end) calls.

(** ** focused_scraper.py: the pages of posts *)

(** [range(start, stop, step)] *)
Definition py_range (start stop step : Z) : result (list Z) :=
  if step =? 0 then Raise ValueError
  else
    let n := if 0 <? step then (stop - start + step - 1) / step
             else (start - stop - step - 1) / (- step) in
    Ok ((fun k => start + Z.of_nat k * step) <$> seq 0 (Z.to_nat n)).

Module PostPages.
Section SavingsGuruPosts.
Variable World : Type.
Variable Soup : Type.
(** [client.get(url)]: the status code and the parsed page of the
    response, or the exception raised, and the world it leaves. *)
Variable client_get : string -> World -> result (Z * Soup) * World.
(** [self._extract_posts_from_page(soup, base_url)] *)
Variable _extract_posts_from_page :
  Soup -> string -> result (list SavingsGuruPost.t).

(** The state of the loop of [scrape_savingsguru_posts]: [posts],
    [self.stats['posts_scraped']], the URLs requested so far, the seconds
    slept between pages, and the world. *)
Record PostScraper := mkPostScraper {
  posts : list SavingsGuruPost.t;
  posts_scraped : Z;
  requested : list string;
  slept : Z;
  post_world : World
}.

Definition page_url (base_url : string) (page : Z) : string :=
  if 1 <? page then base_url +:+ "/page/" +:+ pretty page else base_url.

(** One pass of the loop (lines 82-105). *)
Definition scrape_page (base_url : string) (acc : PostScraper) (page : Z)
  : PostScraper :=
  let url := page_url base_url page in
  let '(r, w) := client_get url (post_world acc) in
  let failed :=
    mkPostScraper (posts acc) (posts_scraped acc) (requested acc ++ [url])
      (slept acc) w in
  match r with
  | Raise _ => failed
  | Ok (status_code, soup) =>
    if negb (status_code =? 200) then failed
    else
      match _extract_posts_from_page soup base_url with
      | Raise _ => failed
      | Ok page_posts =>
        mkPostScraper (posts acc ++ page_posts)
          (posts_scraped acc + Z.of_nat (length page_posts))
          (requested acc ++ [url]) (slept acc + 2) w
      end
  end.

(** [scrape_savingsguru_posts], from a scraper that has counted
    [posts_scraped] posts so far. *)
Definition scrape_savingsguru_posts (max_pages : Z) (posts_scraped : Z)
    (w : World) : result PostScraper :=
  pages ← py_range 1 (max_pages + 1) 1;
  Ok (fold_left (scrape_page "https://www.savingsguru.ca") pages
        (mkPostScraper [] posts_scraped [] 0 w)).
End SavingsGuruPosts.
End PostPages.

(** ** utils.py *)

Module utils.
(** [validate_asin] *)
Definition validate_asin (asin : string) : bool :=
  if String.eqb asin "" then false
  else (String.length asin =? 10)%nat && py_isalnum asin.

(** [base_urls] *)
Definition base_urls : list (string * string) :=
  [ ("CA", "https://www.amazon.ca");
    ("US", "https://www.amazon.com");
    ("UK", "https://www.amazon.co.uk") ].

(** [create_affiliate_url] *)
Definition create_affiliate_url (asin partner_tag marketplace : string)
  : string :=
  let base_url := default "https://www.amazon.ca"
                    (assoc_get marketplace base_urls) in
  base_url +:+ "/dp/" +:+ asin +:+ "?tag=" +:+ partner_tag.

(** [l[lo:hi]] *)
Definition py_slice {A} (lo hi : Z) (l : list A) : list A :=
  let n := Z.of_nat (length l) in
  let clamp i := if i <? 0 then Z.max 0 (n + i) else Z.min n i in
  take (Z.to_nat (clamp hi - clamp lo)) (drop (Z.to_nat (clamp lo)) l).

(** [batch_items]: the batches that the generator yields, or the
    [ValueError] of [range] on a step of zero. *)
Definition batch_items {A} (items : list A) (batch_size : Z)
  : result (list (list A)) :=
  starts ← py_range 0 (Z.of_nat (length items)) batch_size;
  Ok ((fun i => py_slice i (i + batch_size) items) <$> (starts : list Z)).
End utils.

(** ** focused_scraper.py: the posts of a page *)

Module PostExtraction.
Section Extraction.
(** A page and its post containers, and what the selectors find in
    them. *)
Variable Soup : Type.
Variable Element : Type.
(** [soup.select(selector)] *)
Variable select : Soup -> string -> list Element.
(** [post_element.select_one(selector)], then [get_text(strip=True)];
    [None] when no element matches. *)
Variable select_one_text : Element -> string -> option string.
(** [post_element.select_one('a[href]')], then [get('href')]. *)
Variable first_href : Element -> option string.
(** The [href] of each element of [post_element.select(...)] for links
    to Amazon (line 166). *)
Variable amazon_hrefs : Element -> list string.
Variable urljoin : string -> string -> string.
(** [utils.extract_asin_from_url] *)
Variable extract_asin_from_url : string -> option string.
(** [hash(s)] *)
Variable hash : string -> Z.
Variable HttpUrl : string -> option string.
(** [datetime.utcnow()] as read while a container is processed. *)
Variable clock_at : Element -> Clock.

(** The text under the first selector that matches. *)
Fixpoint first_text (post_element : Element) (selectors : list string)
  : option string :=
  match selectors with
  | [] => None
  | selector :: rest =>
    match select_one_text post_element selector with
    | Some text => Some text
    | None => first_text post_element rest
    end
  end.

(** The test of line 170. *)
Definition is_amazon_link (href : string) : bool :=
  negb (String.eqb href "")
  && (py_contains "amzn.to" href || py_contains "amazon.ca" href
      || py_contains "amazon.com" href).

(** One pass of the loop of lines 175-178. *)
Definition asin_of_link (link : string) : option string :=
  match extract_asin_from_url link with
  | Some asin => if String.eqb asin "" then None else Some asin
  | None => None
  end.

(** [_extract_single_post]; [SavingsGuruPost(...)] validates [post_url],
    and its error is caught with every other. *)
Definition _extract_single_post (post_element : Element) (base_url : string)
  : option SavingsGuruPost.t :=
  let title :=
    default "" (first_text post_element
                  ["h1"; "h2"; "h3"; ".title"; ".post-title"]) in
  if String.eqb title "" then None
  else
    let post_url :=
      match first_href post_element with
      | Some href => if String.eqb href "" then "" else urljoin base_url href
      | None => ""
      end in
    let amazon_links := List.filter is_amazon_link (amazon_hrefs post_element) in
    let extracted_asins := dict_fromkeys (omap asin_of_link amazon_links) in
    match extracted_asins with
    | [] => None
    | _ =>
      let description :=
        match first_text post_element
                [".content"; ".post-content"; ".entry-content"; "p"] with
        | Some text => String.substring 0 500 text
        | None => ""
        end in
      let post_id :=
        "sg_" +:+ pretty (hash post_url) +:+ "_"
        +:+ strftime_Ymd (clock_at post_element) in
      let category := _categorize_post title in
      match HttpUrl post_url with
      | Some post_url =>
        Some (SavingsGuruPost.mk post_id title post_url amazon_links
                extracted_asins category (Some description))
      | None => None
      end
    end.

(** [post_selectors] *)
Definition post_selectors : list string :=
  [".post"; ".deal-post"; "article"; ".entry"; ".deal-item"].

(** The containers under the first selector that finds any. *)
Fixpoint post_elements (soup : Soup) (selectors : list string)
  : list Element :=
  match selectors with
  | [] => []
  | selector :: rest =>
    match select soup selector with
    | [] => post_elements soup rest
    | elements => elements
    end
  end.

(** [_extract_posts_from_page] *)
Definition _extract_posts_from_page (soup : Soup) (base_url : string)
  : list SavingsGuruPost.t :=
  omap (fun post_element => _extract_single_post post_element base_url)
    (post_elements soup post_selectors).
End Extraction.
End PostExtraction.

(** A page with two containers under [article]: a post that links to the
    product of the fixtures twice, and a post without a link to Amazon. *)
Definition fixture_select (soup : unit) (selector : string) : list bool :=
  if String.eqb selector "article" then [true; false] else [].

Definition fixture_select_one_text (post_element : bool) (selector : string)
  : option string :=
  if String.eqb selector "h2"
  then Some (if post_element then "Great Deal on Test Product" else "About us")
  else if String.eqb selector "p" then Some "This is a test deal description"
  else None.

Definition fixture_amazon_hrefs (post_element : bool) : list string :=
  if post_element
  then ["https://amzn.to/test123"; "https://www.amazon.ca/dp/B08N5WRWNW"]
  else [].

Definition fixture_extract_asin (url : string) : option string :=
  if py_contains "amzn.to" url || py_contains "/dp/B08N5WRWNW" url
  then Some "B08N5WRWNW" else None.

Definition fixture_extract_posts (soup : unit) (base_url : string)
  : list SavingsGuruPost.t :=
  PostExtraction._extract_posts_from_page unit bool fixture_select
    fixture_select_one_text (fun _ => Some "/test-post") fixture_amazon_hrefs
    (fun base href => base +:+ href) fixture_extract_asin (fun _ => 42)
    accept_all_urls (fun _ => fixture_clock) soup base_url.

(** * Properties *)

(** ** Rational comparisons *)

Lemma Qltb_lt a b : Qltb a b = true <-> (a < b)%Q.
Proof.
  unfold Qltb. rewrite negb_true_iff. split.
  - intros H. apply Qnot_le_lt. intros Hle.
    apply Qle_bool_iff in Hle. congruence.
  - intros H. destruct (Qle_bool b a) eqn:E; [|reflexivity].
    apply Qle_bool_iff in E. exfalso. exact (Qlt_not_le _ _ H E).
Qed.

Lemma Qle_bool_false a b : Qle_bool a b = false <-> (b < a)%Q.
Proof.
  split.
  - intros H. apply Qnot_le_lt. intros Hle.
    apply Qle_bool_iff in Hle. congruence.
  - intros H. destruct (Qle_bool a b) eqn:E; [|reflexivity].
    apply Qle_bool_iff in E. exfalso. exact (Qlt_not_le _ _ H E).
Qed.


Lemma pos_Qeq_bool_false (c : Q) : (0 < c)%Q -> Qeq_bool c 0 = false.
Proof.
  intros Hpos. destruct (Qeq_bool c 0) eqn:E; [|reflexivity].
  apply Qeq_bool_iff in E. rewrite E in Hpos.
  exfalso. exact (Qlt_irrefl _ Hpos).
Qed.

(** ** Decimal and float arithmetic *)

Lemma py_round_nearest (x : Q) : nearest_integer x (py_round x).
Proof.
  unfold nearest_integer, py_round.
  pose proof (Qfloor_le x) as Hlo. pose proof (Qlt_floor x) as Hhi.
  rewrite inject_Z_plus in Hhi. change (inject_Z 1) with 1%Q in Hhi.
  destruct (Qcompare_spec (x - inject_Z (Qfloor x)) (1 # 2)) as [He|Hl|Hg].
  - destruct (Z.even (Qfloor x)).
    + split; lra.
    + rewrite inject_Z_plus. change (inject_Z 1) with 1%Q. split; lra.
  - split; lra.
  - rewrite inject_Z_plus. change (inject_Z 1) with 1%Q. split; lra.
Qed.

(** ** Powers and exponents *)

Lemma Qpow_Qpower (b e : Z) : 0 < b -> Qpow b e == inject_Z b ^ e.
Proof.
  intros Hb. unfold Qpow. destruct (Z.leb_spec 0 e) as [He|He].
  - now apply Zpower_Qpower.
  - assert (Hpos : 0 < b ^ (- e)) by (apply Z.pow_pos_nonneg; lia).
    replace e with (- (- e)) at 2 by lia. rewrite Qpower_opp.
    rewrite <- Zpower_Qpower by lia.
    destruct (b ^ (- e)) as [|p|p] eqn:Hp; try lia. reflexivity.
Qed.

Lemma Qpow_pos (b e : Z) : 0 < b -> (0 < Qpow b e)%Q.
Proof.
  intros Hb. rewrite Qpow_Qpower by exact Hb. apply Qpower_0_lt.
  change 0%Q with (inject_Z 0). rewrite <- Zlt_Qlt. exact Hb.
Qed.

Lemma inject_Z_one_lt (b : Z) : 1 < b -> (1 < inject_Z b)%Q.
Proof. intros H. change 1%Q with (inject_Z 1). now rewrite <- Zlt_Qlt. Qed.

Lemma Qpow_le (b e1 e2 : Z) :
  1 < b -> e1 <= e2 -> (Qpow b e1 <= Qpow b e2)%Q.
Proof.
  intros Hb He. rewrite !Qpow_Qpower by lia.
  apply Qpower_le_compat_l; [exact He|].
  apply Qlt_le_weak. now apply inject_Z_one_lt.
Qed.

Lemma Qpow_lt_inv (b e1 e2 : Z) :
  1 < b -> (Qpow b e1 < Qpow b e2)%Q -> e1 < e2.
Proof.
  intros Hb. rewrite !Qpow_Qpower by lia. intros H.
  apply (Qpower_lt_compat_l_inv (inject_Z b)); [exact H|].
  now apply inject_Z_one_lt.
Qed.

Lemma Qpow_plus (b e1 e2 : Z) :
  0 < b -> Qpow b (e1 + e2) == Qpow b e1 * Qpow b e2.
Proof.
  intros Hb. rewrite !Qpow_Qpower by exact Hb. apply Qpower_plus.
  intros H. unfold Qeq in H. cbn in H. lia.
Qed.

Lemma Zlog2_is_log : is_log 2 Z.log2.
Proof.
  intros n Hn. split; [apply Z.log2_nonneg|].
  pose proof (Z.log2_spec n Hn) as H.
  rewrite <- Z.add_1_r in H. exact H.
Qed.

Lemma Zlog10_loop_spec (fuel : nat) (n acc : Z) :
  0 < n -> (Z.log2 n < Z.of_nat fuel) -> 0 <= acc ->
  let e := Zlog10_loop fuel n acc in
  acc <= e /\ 10 ^ (e - acc) <= n < 10 ^ (e - acc + 1).
Proof.
  revert n acc. induction fuel as [|fuel IH]; intros n acc Hn Hfuel Hacc.
  - pose proof (Z.log2_nonneg n). lia.
  - cbn [Zlog10_loop]. destruct (Z.ltb_spec n 10) as [Hlt|Hge].
    + cbn zeta. rewrite Z.sub_diag. cbn. lia.
    + assert (Hdiv : 0 < n / 10) by (apply Z.div_str_pos; lia).
      assert (Hlog : Z.log2 (n / 10) < Z.of_nat fuel).
      { assert (Z.log2 (n / 10) < Z.log2 n); [|lia].
        apply Z.log2_lt_pow2; [exact Hdiv|].
        pose proof (Z.log2_spec n Hn) as [Hlo _].
        assert (n / 10 < n / 2).
        { apply Z.div_lt_upper_bound; [lia|].
          pose proof (Z.mul_div_le n 2 ltac:(lia)).
          pose proof (Z.mod_pos_bound n 2 ltac:(lia)).
          pose proof (Z.div_mod n 2 ltac:(lia)). lia. }
        assert (n / 2 < 2 ^ Z.log2 n); [|lia].
        apply Z.div_lt_upper_bound; [lia|].
        pose proof (Z.log2_spec n Hn) as [_ Hhi].
        rewrite Z.pow_succ_r in Hhi by apply Z.log2_nonneg. lia. }
      specialize (IH (n / 10) (acc + 1) Hdiv Hlog ltac:(lia)).
      cbn zeta in IH |- *.
      set (e := Zlog10_loop fuel (n / 10) (acc + 1)) in *.
      destruct IH as (He & Hlo & Hhi).
      split; [lia|].
      replace (e - acc) with (Z.succ (e - (acc + 1))) by lia.
      replace (Z.succ (e - (acc + 1)) + 1) with (Z.succ (e - (acc + 1) + 1)) by lia.
      rewrite !Z.pow_succ_r by lia.
      pose proof (Z.mul_div_le n 10 ltac:(lia)).
      pose proof (Z.mod_pos_bound n 10 ltac:(lia)).
      pose proof (Z.div_mod n 10 ltac:(lia)). lia.
Qed.

Lemma Zlog10_is_log : is_log 10 Zlog10.
Proof.
  intros n Hn. unfold Zlog10.
  pose proof (Zlog10_loop_spec (S (Z.to_nat (Z.log2 n))) n 0 Hn) as H.
  cbn zeta in H. rewrite Z.sub_0_r in H. apply H; [|lia].
  pose proof (Z.log2_nonneg n). lia.
Qed.

Lemma Qpow_frac (b a c : Z) :
  0 < b -> 0 <= a -> 0 <= c -> Qpow b (a - c) == (b ^ a # Z.to_pos (b ^ c)).
Proof.
  intros Hb Ha Hc. rewrite Qpow_Qpower by exact Hb.
  rewrite Qpower_minus by (intros H; unfold Qeq in H; cbn in H; lia).
  rewrite <- !Zpower_Qpower by assumption.
  rewrite (Qmake_Qdiv (b ^ a)).
  rewrite Z2Pos.id by (apply Z.pow_pos_nonneg; lia). reflexivity.
Qed.

Lemma Qexponent_spec (log : Z -> Z) (b : Z) (x : Q) :
  1 < b -> is_log b log -> ~ x == 0 ->
  (Qpow b (Qexponent log b x) <= Qabs x)%Q
  /\ (Qabs x < Qpow b (Qexponent log b x + 1))%Q.
Proof.
  intros Hb Hlog Hx. unfold Qexponent.
  destruct x as [n d].
  assert (Hn : 0 < Z.abs n).
  { assert (n <> 0); [|lia]. intros ->. apply Hx. reflexivity. }
  cbn [Qnum Qden].
  destruct (Hlog (Z.abs n) Hn) as (Ha & Hlo & Hhi).
  destruct (Hlog (Zpos d) eq_refl) as (Hc & Hlo' & Hhi').
  set (a := log (Z.abs n)) in *. set (c := log (Zpos d)) in *.
  assert (Hpa : 0 < b ^ a) by (apply Z.pow_pos_nonneg; lia).
  assert (Hpc : 0 < b ^ c) by (apply Z.pow_pos_nonneg; lia).
  rewrite Z.pow_add_r in Hhi, Hhi' by lia. rewrite Z.pow_1_r in Hhi, Hhi'.
  change (Qabs (n # d)) with (Z.abs n # d).
  destruct (Qle_bool (Qpow b (a - c)) (Z.abs n # d)) eqn:Htest.
  - apply Qle_bool_iff in Htest. split; [exact Htest|].
    replace (a - c + 1) with ((a + 1) - c) by lia.
    rewrite Qpow_frac by lia.
    unfold Qlt. cbn [Qnum Qden]. rewrite Z2Pos.id by exact Hpc.
    rewrite Z.pow_add_r, Z.pow_1_r by lia. nia.
  - assert (Hlt : (Z.abs n # d < Qpow b (a - c))%Q).
    { apply Qnot_le_lt. intros H. apply Qle_bool_iff in H. congruence. }
    replace (a - c - 1 + 1) with (a - c) by lia. split; [|exact Hlt].
    replace (a - c - 1) with (a - (c + 1)) by lia.
    rewrite Qpow_frac by lia.
    assert (Hpc' : 0 < b ^ (c + 1)) by (apply Z.pow_pos_nonneg; lia).
    unfold Qle. cbn [Qnum Qden]. rewrite Z2Pos.id by exact Hpc'.
    rewrite Z.pow_add_r, Z.pow_1_r by lia. nia.
Qed.

(** Bounds on [x] bound its exponent. *)
Lemma Qexponent_ge (log : Z -> Z) (b : Z) (x : Q) (lo : Z) :
  1 < b -> is_log b log -> ~ x == 0 ->
  (Qpow b lo <= Qabs x)%Q -> lo <= Qexponent log b x.
Proof.
  intros Hb Hlog Hx Hlo.
  destruct (Qexponent_spec log b x Hb Hlog Hx) as [_ Hhi].
  assert (lo < Qexponent log b x + 1); [|lia].
  apply (Qpow_lt_inv b); [exact Hb|].
  eapply Qle_lt_trans; eassumption.
Qed.

Lemma Qexponent_lt (log : Z -> Z) (b : Z) (x : Q) (hi : Z) :
  1 < b -> is_log b log -> ~ x == 0 ->
  (Qabs x < Qpow b hi)%Q -> Qexponent log b x < hi.
Proof.
  intros Hb Hlog Hx Hhi.
  destruct (Qexponent_spec log b x Hb Hlog Hx) as [Hlo _].
  apply (Qpow_lt_inv b); [exact Hb|].
  eapply Qle_lt_trans; eassumption.
Qed.

(** ** Rounding *)

Lemma round_half_even_error (b q : Z) (x : Q) :
  0 < b ->
  (Qabs (round_half_even b q x - x) <= Qpow b q * (1 # 2))%Q.
Proof.
  intros Hb. unfold round_half_even. rewrite Qred_correct.
  pose proof (Qpow_pos b q Hb) as Hp.
  destruct (py_round_nearest (x / Qpow b q)) as [H1 H2].
  assert (Hx : x == (x / Qpow b q) * Qpow b q).
  { field. intros H. rewrite H in Hp. now apply Qlt_irrefl in Hp. }
  set (y := (x / Qpow b q)%Q) in *.
  set (n := inject_Z (py_round y)) in *.
  set (p := Qpow b q) in *.
  clearbody n. clearbody y. clearbody p.
  rewrite Hx. apply Qabs_Qle_condition.
  assert (L : (- (1 # 2) * p <= (n - y) * p)%Q)
    by (apply Qmult_le_compat_r; lra).
  assert (U : ((n - y) * p <= (1 # 2) * p)%Q)
    by (apply Qmult_le_compat_r; lra).
  split; nra.
Qed.

Lemma Qnot_eq_pos (x : Q) : (0 < x)%Q -> ~ x == 0.
Proof. intros H E. rewrite E in H. now apply Qlt_irrefl in H. Qed.

(** A positive number rounded at the position of its exponent, to [p + 1]
    digits of the base. *)
Lemma round_at_exponent (log : Z -> Z) (b p : Z) (x : Q) :
  1 < b -> is_log b log -> (0 < x)%Q ->
  let v := round_half_even b (Qexponent log b x - p) x in
  (x - x * Qpow b (- p) * (1 # 2) <= v)%Q
  /\ (v <= x + x * Qpow b (- p) * (1 # 2))%Q.
Proof.
  intros Hb Hlog Hx. cbn zeta.
  destruct (Qexponent_spec log b x Hb Hlog (Qnot_eq_pos x Hx)) as [Hlo _].
  rewrite Qabs_pos in Hlo by lra.
  pose proof (round_half_even_error b (Qexponent log b x - p) x ltac:(lia))
    as Herr.
  replace (Qexponent log b x - p) with (Qexponent log b x + - p) in * by lia.
  rewrite Qpow_plus in Herr by lia.
  pose proof (Qpow_pos b (- p) ltac:(lia)) as Hp.
  set (e := Qexponent log b x) in *.
  set (v := round_half_even b (e + - p) x) in *.
  set (u := Qpow b (- p)) in *. set (t := Qpow b e) in *.
  clearbody v u t.
  apply Qabs_Qle_condition in Herr as [H1 H2].
  assert (Ht : (t * u <= x * u)%Q) by (apply Qmult_le_compat_r; lra).
  split; nra.
Qed.

(** Evaluates the power [Qpow b e] wherever it occurs. *)
Ltac eval_Qpow b e :=
  let c := eval vm_compute in (Qpow b e) in
  change (Qpow b e) with c in *.

(** [decimal] arithmetic on a positive value between 10^-30 and 10^30:
    the result is within half a unit of the 28th digit. *)
Lemma decimal_context_bounds (x : Q) :
  (Qpow 10 (-30) <= x)%Q -> (x <= Qpow 10 30)%Q ->
  exists v, decimal_context x = Ok v
            /\ (x - x * Qpow 10 (-27) <= v)%Q
            /\ (v <= x + x * Qpow 10 (-27))%Q.
Proof.
  intros Hlo Hhi.
  assert (Hx : (0 < x)%Q).
  { eapply Qlt_le_trans; [|exact Hlo]. now apply Qpow_pos. }
  unfold decimal_context. rewrite (pos_Qeq_bool_false x Hx).
  assert (He : -30 <= Qexponent Zlog10 10 x).
  { apply Qexponent_ge; [lia|apply Zlog10_is_log|now apply Qnot_eq_pos|].
    rewrite Qabs_pos by lra. exact Hlo. }
  rewrite Z.max_l by lia.
  destruct (round_at_exponent Zlog10 10 27 x ltac:(lia) Zlog10_is_log Hx)
    as [H1 H2].
  set (v := round_half_even 10 (Qexponent Zlog10 10 x - 27) x) in *.
  change (Qpow 10 (- (27))) with (Qpow 10 (-27)) in H1, H2.
  assert (Hv : (0 < v)%Q /\ (v < Qpow 10 31)%Q
               /\ (x - x * Qpow 10 (-27) <= v)%Q
               /\ (v <= x + x * Qpow 10 (-27))%Q).
  { clearbody v. eval_Qpow 10 (-27). eval_Qpow 10 30. eval_Qpow 10 31.
    repeat split; lra. }
  destruct Hv as (Hv & Hv' & H1' & H2').
  rewrite (pos_Qeq_bool_false v Hv).
  assert (Hev : Qexponent Zlog10 10 v < 31).
  { apply Qexponent_lt; [lia|apply Zlog10_is_log|now apply Qnot_eq_pos|].
    rewrite Qabs_pos by lra. exact Hv'. }
  destruct (Z.ltb_spec 999999 (Qexponent Zlog10 10 v)); [lia|].
  exists v. auto.
Qed.

(** The conversion to [float] of a positive value between 2^-30 and 2^10:
    the result is finite and within half a unit of the 53rd bit. *)
Lemma binary64_bounds (x : Q) :
  (Qpow 2 (-30) <= x)%Q -> (x <= Qpow 2 10)%Q ->
  exists v, binary64 x = Finite v
            /\ (x - x * Qpow 2 (-52) <= v)%Q
            /\ (v <= x + x * Qpow 2 (-52))%Q.
Proof.
  intros Hlo Hhi.
  assert (Hx : (0 < x)%Q).
  { eapply Qlt_le_trans; [|exact Hlo]. now apply Qpow_pos. }
  unfold binary64. rewrite (pos_Qeq_bool_false x Hx).
  assert (He : -30 <= Qexponent Z.log2 2 x).
  { apply Qexponent_ge; [lia|apply Zlog2_is_log|now apply Qnot_eq_pos|].
    rewrite Qabs_pos by lra. exact Hlo. }
  rewrite Z.max_l by lia.
  destruct (round_at_exponent Z.log2 2 52 x ltac:(lia) Zlog2_is_log Hx)
    as [H1 H2].
  set (v := round_half_even 2 (Qexponent Z.log2 2 x - 52) x) in *.
  change (Qpow 2 (- (52))) with (Qpow 2 (-52)) in H1, H2.
  assert (Hbig : (Qpow 2 11 <= Qpow 2 1024)%Q) by (apply Qpow_le; lia).
  assert (Hv : (0 < v)%Q /\ (v < Qpow 2 11)%Q
               /\ (x - x * Qpow 2 (-52) <= v)%Q
               /\ (v <= x + x * Qpow 2 (-52))%Q).
  { clearbody v. eval_Qpow 2 (-52). eval_Qpow 2 10. eval_Qpow 2 11.
    repeat split; lra. }
  destruct Hv as (Hv & Hv' & H1' & H2').
  rewrite (proj2 (Qle_bool_false _ _)).
  - exists v. auto.
  - rewrite Qabs_pos by lra. lra.
Qed.

(** [float] keeps a positive value positive from the least positive
    double on. *)
Lemma binary64_positive (x : Q) :
  (Qpow 2 (-1074) <= x)%Q -> float_gt_int (binary64 x) 0 = true.
Proof.
  intros Hlo.
  assert (Hx : (0 < x)%Q).
  { eapply Qlt_le_trans; [|exact Hlo]. now apply Qpow_pos. }
  unfold binary64. rewrite (pos_Qeq_bool_false x Hx).
  set (e := Qexponent Z.log2 2 x).
  set (q := Z.max e (-1022) - 52).
  assert (Hq : (Qpow 2 q <= x)%Q).
  { destruct (Z.le_gt_cases e (-1022)) as [He|He].
    - replace q with (-1074) by lia. exact Hlo.
    - destruct (Qexponent_spec Z.log2 2 x ltac:(lia) Zlog2_is_log
                  (Qnot_eq_pos x Hx)) as [Hle _].
      rewrite Qabs_pos in Hle by lra. fold e in Hle.
      eapply Qle_trans; [|exact Hle]. apply Qpow_le; lia. }
  pose proof (round_half_even_error 2 q x ltac:(lia)) as Herr.
  pose proof (Qpow_pos 2 q ltac:(lia)) as Hp.
  set (v := round_half_even 2 q x) in *.
  apply Qabs_Qle_condition in Herr as [H1 _].
  assert (Hv : (0 < v)%Q).
  { clearbody v. set (p := Qpow 2 q) in *. clearbody p. lra. }
  destruct (Qle_bool (Qpow 2 1024) (Qabs v)); cbn.
  - now rewrite (proj2 (Qle_bool_false x 0) Hx).
  - now apply Qltb_lt.
Qed.

(** An approximation of [x] that is closer to [x] than [x] is to any
    half-integer other than itself rounds to an integer nearest to
    [x]. *)
Lemma nearest_from_approximation (x y eps : Q) :
  (Qabs (y - x) <= eps)%Q ->
  (forall k : Z, x == inject_Z k + (1 # 2)
                 \/ (eps < Qabs (x - (inject_Z k + (1 # 2))))%Q) ->
  nearest_integer x (py_round y).
Proof.
  intros Hy Hgap.
  destruct (py_round_nearest y) as [H1 H2].
  apply Qabs_Qle_condition in Hy as [Hy1 Hy2].
  set (d := py_round y) in *. clearbody d.
  unfold nearest_integer. split.
  - destruct (Qlt_le_dec (inject_Z d) (x - (1 # 2))) as [Hlt|]; [|assumption].
    exfalso. destruct (Hgap d) as [He|Hg]; [lra|].
    rewrite Qabs_pos in Hg by lra. lra.
  - destruct (Qlt_le_dec (x + (1 # 2)) (inject_Z d)) as [Hlt|]; [|assumption].
    exfalso.
    assert (Hd : inject_Z (d - 1) == inject_Z d - 1).
    { unfold Z.sub. rewrite inject_Z_plus, inject_Z_opp. reflexivity. }
    destruct (Hgap (d - 1)) as [He|Hg].
    + rewrite Hd in He. lra.
    + rewrite Hd in Hg. rewrite Qabs_neg in Hg by lra. lra.
Qed.

(** Between two prices in whole cents, the exact percentage off is either
    a half-integer or further than 10^-10 from every half-integer. *)
Lemma whole_cents_gap (c l : Q) (a b k : Z) :
  (c * 100 == inject_Z a)%Q -> (l * 100 == inject_Z b)%Q ->
  (0 < l)%Q -> (l <= 10000000)%Q ->
  let x := ((l - c) / l * 100)%Q in
  x == inject_Z k + (1 # 2)
  \/ ((1 # 10000000000) < Qabs (x - (inject_Z k + (1 # 2))))%Q.
Proof.
  intros Ha Hb Hl Hhi x.
  set (n := 200 * (b - a) - (2 * k + 1) * b).
  assert (Hn : (x - (inject_Z k + (1 # 2))) * (2 * inject_Z b)
               == inject_Z n).
  { unfold n, x, Z.sub.
    repeat first [rewrite inject_Z_plus | rewrite inject_Z_opp
                 | rewrite inject_Z_mult].
    change (inject_Z 200) with 200%Q. change (inject_Z 2) with 2%Q.
    change (inject_Z 1) with 1%Q.
    setoid_rewrite <- Ha. setoid_rewrite <- Hb. field. lra. }
  assert (HB : (0 < inject_Z b)%Q) by lra.
  assert (HB' : (inject_Z b <= 1000000000)%Q) by lra.
  set (g := (x - (inject_Z k + (1 # 2)))%Q) in *.
  assert (Hgx : g == x - (inject_Z k + (1 # 2))) by reflexivity.
  set (B := inject_Z b) in *. clearbody g B.
  destruct (Z.lt_trichotomy n 0) as [Hlt|[Heq|Hgt]].
  - right. assert (Hz : (inject_Z n <= -1)%Q).
    { change (-1)%Q with (inject_Z (-1)). rewrite <- Zle_Qle. lia. }
    set (N := inject_Z n) in *. clearbody N.
    assert (Hg : (g < 0)%Q).
    { destruct (Qlt_le_dec g 0) as [|Hge]; [assumption|]. exfalso.
      assert (0 <= g * (2 * B))%Q by (apply Qmult_le_0_compat; lra). lra. }
    rewrite Qabs_neg by lra.
    destruct (Qlt_le_dec (1 # 10000000000) (- g)) as [|Hle]; [assumption|].
    exfalso.
    assert ((- g) * (2 * B) <= (1 # 10000000000) * (2 * B))%Q
      by (apply Qmult_le_compat_r; lra).
    lra.
  - left. subst n. rewrite Heq in Hn. change (inject_Z 0) with 0%Q in Hn.
    assert (Hg : g == 0).
    { apply Qmult_integral in Hn as [|Hn]; [assumption|]. lra. }
    lra.
  - right. assert (Hz : (1 <= inject_Z n)%Q).
    { change 1%Q with (inject_Z 1). rewrite <- Zle_Qle. lia. }
    set (N := inject_Z n) in *. clearbody N.
    assert (Hg : (0 < g)%Q).
    { destruct (Qlt_le_dec 0 g) as [|Hge]; [assumption|]. exfalso.
      assert (0 <= (- g) * (2 * B))%Q by (apply Qmult_le_0_compat; lra). lra. }
    rewrite Qabs_pos by lra.
    destruct (Qlt_le_dec (1 # 10000000000) g) as [|Hle]; [assumption|].
    exfalso.
    assert (g * (2 * B) <= (1 # 10000000000) * (2 * B))%Q
      by (apply Qmult_le_compat_r; lra).
    lra.
Qed.

(** The float that [derive_discount] rounds, for two prices in whole
    cents up to ten million: it is within 10^-12 of the exact percentage
    off. *)
Lemma discount_float_whole_cents (c l : Q) (a b : Z) :
  (c * 100 == inject_Z a)%Q -> (l * 100 == inject_Z b)%Q ->
  (0 < c)%Q -> (c < l)%Q -> (l <= 10000000)%Q ->
  exists f, discount_float c l = Ok (Finite f)
            /\ (Qabs (f - (l - c) / l * 100) <= 1 # 1000000000000)%Q.
Proof.
  intros Ha Hb Hc Hlt Hhi.
  assert (Hab : (1 <= inject_Z b - inject_Z a)%Q).
  { assert (a < b)%Z by (rewrite Zlt_Qlt; lra).
    unfold Qminus. rewrite <- inject_Z_opp, <- inject_Z_plus.
    change 1%Q with (inject_Z 1). rewrite <- Zle_Qle. lia. }
  set (r := ((l - c) / l)%Q).
  assert (Hrl : r * l == l - c) by (unfold r; field; lra).
  assert (Hr1 : (r <= 1)%Q) by nra.
  assert (Hr0 : ((1 # 1000000000) <= r)%Q) by nra.
  unfold discount_float.
  destruct (decimal_context_bounds (l - c)) as (d1 & -> & Hd1lo & Hd1hi).
  { eval_Qpow 10 (-30). lra. }
  { eval_Qpow 10 30. lra. }
  cbn [mbind result_bind rbind].
  eval_Qpow 10 (-27).
  assert (Hq : d1 / l * l == d1) by (field; lra).
  set (y := (d1 / l)%Q) in *.
  assert (Hy : (r - r * (1 # 1000000000000000000000000000) <= y
                /\ y <= r + r * (1 # 1000000000000000000000000000))%Q).
  { clearbody y r. split; nra. }
  destruct Hy as [Hylo Hyhi].
  destruct (decimal_context_bounds y) as (q1 & -> & Hq1lo & Hq1hi).
  { eval_Qpow 10 (-30). clearbody y r. lra. }
  { eval_Qpow 10 30. clearbody y r. lra. }
  cbn [mbind result_bind rbind].
  eval_Qpow 10 (-27).
  destruct (decimal_context_bounds (q1 * 100)) as (p1 & -> & Hp1lo & Hp1hi).
  { eval_Qpow 10 (-30). clearbody y r. lra. }
  { eval_Qpow 10 30. clearbody y r. lra. }
  cbn [mbind result_bind rbind].
  eval_Qpow 10 (-27).
  unfold float_of_decimal.
  destruct (binary64_bounds p1) as (f & -> & Hflo & Hfhi).
  { eval_Qpow 2 (-30). clearbody y r. lra. }
  { eval_Qpow 2 10. clearbody y r. lra. }
  eval_Qpow 2 (-52).
  exists f. split; [reflexivity|].
  apply Qabs_Qle_condition. clearbody y r. split; lra.
Qed.

(** For two prices in whole cents up to ten million, the current price
    below the list price, [derive_discount] returns an integer nearest to
    the exact percentage off. *)
Lemma derive_discount_whole_cents (c l : Q) (a b : Z) :
  (c * 100 == inject_Z a)%Q -> (l * 100 == inject_Z b)%Q ->
  (0 < c)%Q -> (c < l)%Q -> (l <= 10000000)%Q ->
  exists d, derive_discount (Some c) (Some l) = Ok (Some d)
            /\ nearest_integer ((l - c) / l * 100) d.
Proof.
  intros Ha Hb Hc Hlt Hhi.
  destruct (discount_float_whole_cents c l a b Ha Hb Hc Hlt Hhi)
    as (f & Hf & Herr).
  exists (py_round f). split.
  - unfold derive_discount.
    rewrite (pos_Qeq_bool_false c Hc), (pos_Qeq_bool_false l) by lra.
    assert (Hltb : Qltb c l = true) by now apply Qltb_lt.
    rewrite Hltb. cbn [negb andb]. rewrite Hf. reflexivity.
  - apply (nearest_from_approximation _ f (1 # 1000000000000)); [exact Herr|].
    intros k.
    destruct (whole_cents_gap c l a b k Ha Hb) as [He|Hg]; [lra|lra| |].
    + now left.
    + right. cbn zeta in Hg. lra.
Qed.


(** ** The deal factory *)

Section DealFactoryFacts.
Variable HttpUrl : string -> option string.

(** What a successful [Deal(...)] returns and what it checked. *)
Lemma Deal_new_inv clock k d :
  Deal_new HttpUrl clock k = Ok d ->
  exists image_url affiliate_url,
    Deal.k_image_url k = Some image_url
    /\ HttpUrl (Deal.k_affiliate_url k) = Some affiliate_url
    /\ d = Deal.mk (generate_id clock (Deal.k_id k)) (Deal.k_title k)
             image_url (Deal.k_price k) (Deal.k_original_price k)
             (Deal.k_discount_percent k) (Deal.k_category k)
             (Deal.k_description k) affiliate_url
             (Deal.k_featured k) (Deal.k_date_added k)
             (Deal.k_data_source k) (Deal.k_asin k)
    /\ float_ge_int (Deal.k_price k) 0 = true
    /\ opt_all (fun x => float_ge_int x 0) (Deal.k_original_price k) = true
    /\ opt_all (fun p => (0 <=? p) && (p <=? 100))
         (Deal.k_discount_percent k) = true.
Proof.
  unfold Deal_new.
  destruct (Deal.k_image_url k) as [image_url|]; [|discriminate].
  destruct (HttpUrl _) as [affiliate_url|]; [|discriminate].
  destruct (float_ge_int (Deal.k_price k) 0); cbn [andb]; [|discriminate].
  destruct (opt_all _ (Deal.k_original_price k)); cbn [andb]; [|discriminate].
  destruct (opt_all _ (Deal.k_discount_percent k)); [|discriminate].
  intros [= <-]. exists image_url, affiliate_url. auto 10.
Qed.


End DealFactoryFacts.

Example from_amazon_product_fixture :
  from_amazon_product accept_all_urls fixture_clock
    fixture_product "test-tag-20" (Some fixture_post)
  = Ok (Some (Deal.mk "deal_B08N5WRWNW_20240115" "Test Product"
                "https://example.com/image.jpg" (float_of_decimal (2999 # 100))
                (Some (float_of_decimal (4999 # 100))) (Some 40) "Electronics"
                "This is a test deal description"
                "https://www.amazon.ca/dp/B08N5WRWNW?tag=test-tag-20"
                true "2024-01-15T10:30:00" PAAPI "B08N5WRWNW")).
Proof. vm_compute. reflexivity. Qed.

(** The price of that deal is the double nearest to 29.99. *)
Example float_of_decimal_2999 :
  float_of_decimal (2999 # 100) = Finite (8441434551552573 # 281474976710656).
Proof. vm_compute. reflexivity. Qed.

Example from_amazon_product_no_price :
  from_amazon_product accept_all_urls fixture_clock
    (AmazonProduct.mk "B08N5WRWNW" "Test Product" None None None None
       "Unknown" false None [] PAAPI)
    "test-tag-20" None
  = Ok None.
Proof. reflexivity. Qed.

Example from_amazon_product_no_image :
  from_amazon_product accept_all_urls fixture_clock
    (AmazonProduct.mk "B08N5WRWNW" "Test Product" (Some (2999 # 100)%Q)
       None None None "Unknown" false None [] PAAPI)
    "test-tag-20" (Some fixture_post)
  = Ok None.
Proof. reflexivity. Qed.


(** ** The resolution orchestrator *)

Lemma is_priced_spec (product : option AmazonProduct.t) :
  is_priced product = true <->
  exists p c, product = Some p
              /\ AmazonProduct.current_price p = Some c /\ (0 < c)%Q.
Proof.
  unfold is_priced. split.
  - destruct product as [p|]; [|discriminate].
    destruct (AmazonProduct.current_price p) as [c|] eqn:Hc; [|discriminate].
    intros H. apply andb_true_iff in H as [_ H]. apply Qltb_lt in H.
    exists p, c. auto.
  - intros (p & c & -> & -> & Hpos).
    apply andb_true_iff. split; [|now apply Qltb_lt].
    apply negb_true_iff. destruct (Qeq_bool c 0) eqn:E; [|reflexivity].
    apply Qeq_bool_iff in E. rewrite E in Hpos.
    exfalso. exact (Qlt_irrefl _ Hpos).
Qed.

Section FocusedScraperFacts.
Variable World : Type.
Variable paapi_get_product_info :
  string -> World -> result (option AmazonProduct.t) * World.
Variable scrape_product :
  string -> World -> result (option AmazonProduct.t) * World.
Variable utcnow_isoformat : World -> string.

Let step := resolve_asin World paapi_get_product_info scrape_product
              utcnow_isoformat.

(** One iteration: the PAAPI client is called once; the scraping client
    is called after it exactly when PAAPI did not yield a priced
    product. *)
Lemma resolve_asin_calls (res : results) (self : Scraper World) (asin : string) :
  let r := (paapi_get_product_info asin (world World self)).1 in
  let s2 := (step (res, self) asin).2 in
  calls World s2
  = calls World self
    ++ CallPaapi asin :: (if yields_priced r then [] else [CallScraper asin]).
Proof.
  unfold step, resolve_asin, _try_paapi, _try_web_scraping, count_attempt.
  cbn.
  destruct (paapi_get_product_info asin (world World self)) as [r w]. cbn.
  destruct r as [product|e]; cbn.
  - destruct (is_priced product) eqn:Hp.
    + destruct product as [p|]; [|discriminate]. reflexivity.
    + cbn.
      destruct (scrape_product asin w) as [r' w']. cbn.
      destruct r' as [product'|e']; [destruct (is_priced product') eqn:Hp';
        [destruct product' as [p'|]; [|discriminate]|]|];
        cbn; now rewrite <- app_assoc.
  - destruct (scrape_product asin w) as [r' w']. cbn.
    destruct r' as [product'|e']; [destruct (is_priced product') eqn:Hp';
      [destruct product' as [p'|]; [|discriminate]|]|];
      cbn; now rewrite <- app_assoc.
Qed.

(** One iteration that PAAPI answers with a priced product: the product
    is recorded, a PAAPI success is counted, and the counters of the
    scraping client do not move. *)
Lemma resolve_asin_paapi_success (res : results) (self : Scraper World)
    (asin : string) (p : AmazonProduct.t) :
  (paapi_get_product_info asin (world World self)).1 = Ok (Some p) ->
  is_priced (Some p) = true ->
  let out := step (res, self) asin in
  out.1 = dict_set asin (Some p) res
  /\ world World out.2 = (paapi_get_product_info asin (world World self)).2
  /\ paapi_success (stats World out.2) = paapi_success (stats World self) + 1
  /\ scraping_success (stats World out.2) = scraping_success (stats World self)
  /\ total_scraping_calls (session World out.2)
     = total_scraping_calls (session World self)
  /\ total_products_successful (session World out.2)
     = total_products_successful (session World self) + 1.
Proof.
  intros Hr Hp.
  unfold step, resolve_asin, _try_paapi, count_attempt. cbn -[is_priced].
  destruct (paapi_get_product_info asin (world World self)) as [r w].
  cbn -[is_priced] in *. subst r. rewrite Hp. cbn. repeat split.
Qed.

(** C2. For every identifier that [get_real_product_data] processes:
    the scraping client is called for it exactly when the PAAPI client
    did not yield a product with a present current price > 0; when PAAPI
    yields such a product, no scraping call is made for the identifier,
    the product is recorded and a PAAPI success is counted. *)
Theorem get_real_product_data_short_circuit
    (self : Scraper World) (before : list string) (asin : string)
    (after : list string) :
  let s1 := fold_left step before ([], self) in
  let s2 := step s1 asin in
  let r := (paapi_get_product_info asin (world World s1.2)).1 in
  get_real_product_data World paapi_get_product_info scrape_product
    utcnow_isoformat self (before ++ asin :: after)
  = fold_left step after s2
  /\ calls World s2.2
     = calls World s1.2
       ++ CallPaapi asin :: (if yields_priced r then [] else [CallScraper asin])
  /\ (yields_priced r = true <->
      exists p c, r = Ok (Some p)
                  /\ AmazonProduct.current_price p = Some c /\ (0 < c)%Q)
  /\ (forall p, r = Ok (Some p) -> is_priced (Some p) = true ->
      s2.1 = dict_set asin (Some p) s1.1
      /\ paapi_success (stats World s2.2)
         = paapi_success (stats World s1.2) + 1
      /\ scraping_success (stats World s2.2)
         = scraping_success (stats World s1.2)
      /\ total_scraping_calls (session World s2.2)
         = total_scraping_calls (session World s1.2)).
Proof.
  cbn zeta. split; [|split; [|split]].
  - unfold get_real_product_data. now rewrite fold_left_app.
  - destruct (fold_left step before ([], self)) as [res1 self1].
    apply resolve_asin_calls.
  - split.
    + destruct (paapi_get_product_info asin _).1 as [product|e];
        cbn -[is_priced]; [|discriminate].
      intros H. apply is_priced_spec in H as (p & c & -> & H).
      exists p, c. auto.
    + intros (p & c & -> & H). apply (is_priced_spec (Some p)). eauto.
  - intros p Hr Hp.
    destruct (fold_left step before ([], self)) as [res1 self1].
    destruct (resolve_asin_paapi_success res1 self1 asin p Hr Hp)
      as (H1 & _ & H2 & H3 & H4 & _).
    auto.
Qed.
End FocusedScraperFacts.

(** The end-to-end scenario of the specification: of two identifiers the
    first resolves through PAAPI and the second through neither client.
    One call goes to PAAPI for the first; PAAPI and then the scraping
    client are called for the second. *)
Example get_real_product_data_scenario :
  get_real_product_data unit fixture_paapi fixture_scraper
    (fun _ => "2024-01-15T10:30:00") fixture_scraper_state
    ["B08N5WRWNW"; "B07QR73T66"]
  = ([("B08N5WRWNW", Some fixture_product); ("B07QR73T66", None)],
     mkScraper unit
       (mkSession 2 1 2 1
          ["2024-01-15T10:30:00: No real data available for ASIN B07QR73T66"])
       (mkStats 2 1 0 1) tt
       [CallPaapi "B08N5WRWNW"; CallPaapi "B07QR73T66";
        CallScraper "B07QR73T66"]).
Proof. reflexivity. Qed.

(** ** Deduplication *)

Lemma deduplicate_acc (l u : list Deal.t) (E : gset string) :
  fold_left deduplicate_step l (u, E)
  = (u ++ (fold_left deduplicate_step l ([], E)).1,
     (fold_left deduplicate_step l ([], E)).2).
Proof.
  revert u E. induction l as [|d l IH]; intros u E; cbn.
  - now rewrite app_nil_r.
  - unfold deduplicate_step at 2 4 6. cbn.
    destruct (bool_decide (Deal.asin d ∈ E)); cbn.
    + apply IH.
    + rewrite (IH (u ++ [d])), (IH [d]). cbn. now rewrite <- app_assoc.
Qed.

Lemma deduplicate_cons (E : gset string) (d : Deal.t) (l : list Deal.t) :
  deduplicate_deals E (d :: l)
  = if bool_decide (Deal.asin d ∈ E) then deduplicate_deals E l
    else (d :: (deduplicate_deals (E ∪ {[Deal.asin d]}) l).1,
          (deduplicate_deals (E ∪ {[Deal.asin d]}) l).2).
Proof.
  unfold deduplicate_deals. cbn. unfold deduplicate_step at 2. cbn.
  destruct (bool_decide (Deal.asin d ∈ E)); [reflexivity|].
  now rewrite deduplicate_acc.
Qed.

Lemma deduplicate_app (E : gset string) (l1 l2 : list Deal.t) :
  deduplicate_deals E (l1 ++ l2)
  = ((deduplicate_deals E l1).1
       ++ (deduplicate_deals (deduplicate_deals E l1).2 l2).1,
     (deduplicate_deals (deduplicate_deals E l1).2 l2).2).
Proof.
  unfold deduplicate_deals. rewrite fold_left_app.
  destruct (fold_left deduplicate_step l1 ([], E)) as [u1 E1]. cbn.
  apply deduplicate_acc.
Qed.

(** The identifier set after a batch: the existing identifiers and every
    identifier of the batch. *)
Lemma deduplicate_seen (E : gset string) (l : list Deal.t) :
  (deduplicate_deals E l).2 = E ∪ list_to_set (Deal.asin <$> l).
Proof.
  revert E. induction l as [|d l IH]; intros E.
  - cbn. set_solver.
  - rewrite deduplicate_cons. case_bool_decide; cbn; rewrite IH; set_solver.
Qed.

(** The same set, read as the spec does: existing identifiers and the
    identifiers of the entries accepted so far. *)
Lemma deduplicate_retained (E : gset string) (l : list Deal.t) :
  (deduplicate_deals E l).2
  = E ∪ list_to_set (Deal.asin <$> (deduplicate_deals E l).1).
Proof.
  revert E. induction l as [|d l IH]; intros E.
  - cbn. set_solver.
  - rewrite deduplicate_cons. case_bool_decide; cbn; [apply IH|].
    rewrite IH. set_solver.
Qed.

Lemma deduplicate_fresh (E : gset string) (l : list Deal.t) (d : Deal.t) :
  d ∈ (deduplicate_deals E l).1 -> Deal.asin d ∉ E.
Proof.
  revert E. induction l as [|x l IH]; intros E.
  - cbn. intros H. inversion H.
  - rewrite deduplicate_cons. case_bool_decide as Hx; cbn.
    + apply IH.
    + intros [->|Hin]%elem_of_cons; [exact Hx|].
      apply IH in Hin. set_solver.
Qed.

Lemma deduplicate_NoDup (E : gset string) (l : list Deal.t) :
  NoDup (Deal.asin <$> (deduplicate_deals E l).1).
Proof.
  revert E. induction l as [|x l IH]; intros E.
  - cbn. constructor.
  - rewrite deduplicate_cons. case_bool_decide as Hx; cbn; [apply IH|].
    constructor; [|apply IH].
    intros (d & Heq & Hin)%list_elem_of_fmap.
    apply deduplicate_fresh in Hin. set_solver.
Qed.

(** C3. [deduplicate_deals] accepts an entry of the batch exactly when its
    identifier is not in the retained set at that point, the existing
    identifiers together with the identifiers of the entries accepted
    earlier in the batch; so the first occurrence of a new identifier is
    kept and later ones are dropped. With existing identifiers [{A, B}] and
    the batch [A, C, C] only the first [C] entry is accepted. *)
Theorem deduplicate_deals_first_occurrence
    (E : gset string) (before : list Deal.t) (deal : Deal.t)
    (after : list Deal.t) :
  let accepted := (deduplicate_deals E before).1 in
  let retained := (deduplicate_deals E before).2 in
  retained = E ∪ list_to_set (Deal.asin <$> accepted)
  /\ (deduplicate_deals E (before ++ deal :: after)).1
     = accepted
       ++ (if bool_decide (Deal.asin deal ∈ retained) then [] else [deal])
       ++ (deduplicate_deals (retained ∪ {[Deal.asin deal]}) after).1
  /\ (Deal.asin deal ∈ retained <->
      Deal.asin deal ∈ E \/ exists d, d ∈ before /\ Deal.asin d = Deal.asin deal)
  /\ NoDup (Deal.asin <$> (deduplicate_deals E (before ++ deal :: after)).1)
  /\ (forall a b c : Deal.t,
         Deal.asin a = "A" -> Deal.asin b = "C" -> Deal.asin c = "C" ->
         (deduplicate_deals {["A"; "B"]} [a; b; c]).1 = [b]).
Proof.
  cbn zeta. split; [|split; [|split; [|split]]].
  - apply deduplicate_retained.
  - rewrite deduplicate_app. cbn [fst]. f_equal.
    rewrite deduplicate_cons.
    case_bool_decide as Hin; cbn.
    + f_equal. f_equal. set_solver.
    + reflexivity.
  - rewrite deduplicate_seen. rewrite elem_of_union, elem_of_list_to_set.
    rewrite list_elem_of_fmap. split.
    + intros [H|(d & Heq & Hin)]; [now left|right; eauto].
    + intros [H|(d & Hin & Heq)]; [now left|right; eauto].
  - apply deduplicate_NoDup.
  - intros a b c Ha Hb Hc.
    rewrite !deduplicate_cons. rewrite Ha, Hb, Hc.
    rewrite bool_decide_eq_true_2 by set_solver.
    rewrite bool_decide_eq_false_2 by set_solver.
    cbn [fst]. rewrite bool_decide_eq_true_2 by set_solver.
    reflexivity.
Qed.

(** ** The lifecycle manager and the attribute names it reads *)

(** [models.Deal] declares [date_added] and [discount_percent]; the names
    [dateAdded] and [discountPercent] that [deal_manager.py] reads are not
    attributes of a deal. *)
Lemma Deal_getattr_dateAdded (deal : Deal.t) :
  Deal_getattr deal "dateAdded" = Raise AttributeError.
Proof. reflexivity. Qed.

Lemma Deal_getattr_discountPercent (deal : Deal.t) :
  Deal_getattr deal "discountPercent" = Raise AttributeError.
Proof. reflexivity. Qed.

Lemma Deal_getattr_date_added (deal : Deal.t) :
  Deal_getattr deal "date_added" = Ok (VStr (Deal.date_added deal)).
Proof. reflexivity. Qed.

Lemma Deal_getattr_discount_percent (deal : Deal.t) :
  Deal_getattr deal "discount_percent"
  = Ok (opt_val VInt (Deal.discount_percent deal)).
Proof. reflexivity. Qed.

Section DealManagerFacts.
Variable fromisoformat : string -> result Z.

Lemma deal_is_fresh_raises (cutoff_time : Z) (deal : Deal.t) :
  deal_is_fresh fromisoformat cutoff_time deal = Raise AttributeError.
Proof. reflexivity. Qed.

Lemma filter_fresh_loop (cutoff_time : Z) (deals acc : list Deal.t) :
  fold_left
    (fun fresh_deals deal =>
       match deal_is_fresh fromisoformat cutoff_time deal with
       | Ok true => fresh_deals ++ [deal]
       | Ok false => fresh_deals
       | Raise _ => fresh_deals ++ [deal]
       end)
    deals acc
  = acc ++ deals.
Proof.
  revert acc. induction deals as [|d deals IH]; intros acc; cbn.
  - now rewrite app_nil_r.
  - rewrite IH. now rewrite <- app_assoc.
Qed.

Lemma datetime_sub_hours_cases (now h : Z) :
  let t := now - timedelta_hours h in
  (0 <= t <= datetime_max /\ datetime_sub_hours now h = Ok t)
  \/ (~ 0 <= t <= datetime_max /\ datetime_sub_hours now h = Raise OverflowError).
Proof.
  cbn zeta. unfold datetime_sub_hours.
  destruct (0 <=? now - timedelta_hours h) eqn:H0;
    destruct (now - timedelta_hours h <=? datetime_max) eqn:H1; cbn [andb];
    [left|right..]; (split; [lia|reflexivity]).
Qed.

(** C4 (what the code does). Whenever the cutoff
    [utcnow - timedelta(hours=deal_freshness_hours)] is a [datetime],
    [filter_fresh_deals] returns its input unchanged, whatever the
    timestamps and the window: each read of [deal.dateAdded] raises
    [AttributeError], and the handler keeps the deal. An entry added 48
    hours ago is retained under a 24-hour window. When the cutoff leaves
    the range of [datetime], line 62 raises [OverflowError], outside the
    [try]. *)
Theorem filter_fresh_deals_keeps_every_deal
    (settings : Settings) (utcnow : Z) (deals : list Deal.t) :
  let cutoff := utcnow - timedelta_hours (deal_freshness_hours settings) in
  (0 <= cutoff <= datetime_max ->
   filter_fresh_deals fromisoformat settings utcnow deals = Ok deals)
  /\ (~ 0 <= cutoff <= datetime_max ->
      filter_fresh_deals fromisoformat settings utcnow deals
      = Raise OverflowError).
Proof.
  cbn zeta. unfold filter_fresh_deals.
  destruct (datetime_sub_hours_cases utcnow (deal_freshness_hours settings))
    as [[Hin ->]|[Hout ->]]; cbn [mbind result_bind rbind];
    split; intros H; try contradiction.
  - now rewrite filter_fresh_loop.
  - reflexivity.
Qed.

Lemma is_quality_deal_raises (settings : Settings) (deal : Deal.t) :
  is_quality_deal settings deal = Raise AttributeError.
Proof. reflexivity. Qed.

(** C5 (what the code does). [filter_quality_deals] raises
    [AttributeError] on its first entry, at the read of
    [deal.discountPercent]; only the empty list passes. *)
Theorem filter_quality_deals_raises
    (settings : Settings) (deal : Deal.t) (rest : list Deal.t) :
  filter_quality_deals settings (deal :: rest) = Raise AttributeError
  /\ filter_quality_deals settings [] = Ok [].
Proof. split; reflexivity. Qed.

Lemma deal_priority_raises (deal : Deal.t) :
  deal_priority deal = Raise AttributeError.
Proof. reflexivity. Qed.

(** C6 (what the code does). A list of at most [target_deal_count]
    entries is returned unchanged; a longer, non-empty list makes
    [manage_deal_count] raise [AttributeError] while it computes the
    first sort key, so nothing is sorted or truncated. *)
Theorem manage_deal_count_over_target_raises
    (settings : Settings) (all_deals : list Deal.t) :
  (Z.of_nat (length all_deals) <= target_deal_count settings ->
   manage_deal_count settings all_deals = Ok all_deals)
  /\ (target_deal_count settings < Z.of_nat (length all_deals) ->
      all_deals <> [] ->
      manage_deal_count settings all_deals = Raise AttributeError).
Proof.
  unfold manage_deal_count. split.
  - intros H. apply Z.leb_le in H. now rewrite H.
  - intros H Hne. apply Z.leb_gt in H. rewrite H.
    destruct all_deals as [|d l]; [contradiction|]. reflexivity.
Qed.

End DealManagerFacts.

(** The entry of C4: added at 2024-01-13T10:30:00, filtered 48 hours
    later with the default window of 24 hours. *)
Example filter_fresh_deals_stale_entry_kept :
  filter_fresh_deals fixture_fromisoformat fixture_settings fixture_utcnow
    [fixture_deal "B08N5WRWNW" (Some 40) "2024-01-13T10:30:00"]
  = Ok [fixture_deal "B08N5WRWNW" (Some 40) "2024-01-13T10:30:00"].
Proof. reflexivity. Qed.

(** A window that reaches before the year 1: the cutoff is no [datetime]. *)
Example filter_fresh_deals_overflow :
  filter_fresh_deals fixture_fromisoformat
    (mkSettings "test_access_key" "test_secret_key" "test-tag-20" "CA"
       1 1 3 3 30 120 20 100000000 10 "testing" "INFO" false)
    fixture_utcnow
    [fixture_deal "B08N5WRWNW" (Some 40) "2024-01-13T10:30:00"]
  = Raise OverflowError.
Proof. reflexivity. Qed.

(** The entries of C5: discount 5 under a minimum of 10, and no
    discount. *)
Example filter_quality_deals_low_discount_raises :
  filter_quality_deals fixture_settings
    [fixture_deal "B08N5WRWNW" (Some 5) "2024-01-15T09:30:00"]
  = Raise AttributeError
  /\ filter_quality_deals fixture_settings
       [fixture_deal "B08N5WRWNW" None "2024-01-15T09:30:00"]
     = Raise AttributeError.
Proof. split; reflexivity. Qed.

Lemma manage_deal_count_over_target_raises_witness :
  manage_deal_count fixture_settings
    (repeat (fixture_deal "B08N5WRWNW" (Some 40) "2024-01-15T09:30:00") 130)
  = Raise AttributeError.
Proof.
  apply (manage_deal_count_over_target_raises fixture_settings
           (repeat (fixture_deal "B08N5WRWNW" (Some 40) "2024-01-15T09:30:00") 130)).
  - cbn. lia.
  - discriminate.
Defined.

(** ** Identifiers *)

Lemma ascii_upper_isalnum (c : ascii) :
  ascii_isalnum (ascii_upper c) = ascii_isalnum c.
Proof. destruct c as [[] [] [] [] [] [] [] []]; reflexivity. Qed.

Lemma ascii_lower_upper (c : ascii) : ascii_lower (ascii_upper c) = ascii_lower c.
Proof. destruct c as [[] [] [] [] [] [] [] []]; reflexivity. Qed.

Lemma string_map_length (f : ascii -> ascii) (s : string) :
  String.length (string_map f s) = String.length s.
Proof. induction s as [|c s IH]; cbn; [reflexivity|now rewrite IH]. Qed.

Lemma string_map_map (f g : ascii -> ascii) (s : string) :
  string_map f (string_map g s) = string_map (fun c => f (g c)) s.
Proof. induction s as [|c s IH]; cbn; [reflexivity|now rewrite IH]. Qed.

Lemma string_map_ext (f g : ascii -> ascii) (s : string) :
  (forall c, f c = g c) -> string_map f s = string_map g s.
Proof.
  intros H. induction s as [|c s IH]; cbn; [reflexivity|].
  now rewrite H, IH.
Qed.

Lemma py_lower_upper (s : string) : py_lower (py_upper s) = py_lower s.
Proof.
  unfold py_lower, py_upper. rewrite string_map_map.
  apply string_map_ext, ascii_lower_upper.
Qed.

Lemma py_upper_isalnum (s : string) : py_isalnum (py_upper s) = py_isalnum s.
Proof.
  unfold py_isalnum, py_upper. f_equal.
  - now destruct s.
  - induction s as [|c s IH]; cbn; [reflexivity|].
    now rewrite ascii_upper_isalnum, IH.
Qed.

Lemma validate_asin_ok (v v' : string) :
  validate_asin v = Ok v' ->
  v' = py_upper v /\ String.length v = 10%nat /\ py_isalnum v = true.
Proof.
  unfold validate_asin.
  destruct (String.length v =? 10)%nat eqn:Hlen; cbn [negb]; [|discriminate].
  destruct (py_isalnum v) eqn:Hal; cbn [negb]; [|discriminate].
  intros [= <-]. apply Nat.eqb_eq in Hlen. auto.
Qed.

Lemma py_upper_isascii (s : string) : py_isascii (py_upper s) = py_isascii s.
Proof.
  unfold py_isascii, py_upper.
  induction s as [|c s IH]; cbn [string_map string_forallb]; [reflexivity|].
  rewrite IH. f_equal.
  destruct c as [[] [] [] [] [] [] [] []]; reflexivity.
Qed.

(** ** Discount derivation *)

(** What [derive_discount] returns when it returns. *)
Lemma derive_discount_inv (cur lst : option Q) (r : option Z) :
  derive_discount cur lst = Ok r ->
  match r with
  | Some d =>
    exists c l x, cur = Some c /\ lst = Some l /\ discount_applies c l
                  /\ discount_float c l = Ok (Finite x) /\ d = py_round x
  | None =>
    ~ exists c l, cur = Some c /\ lst = Some l /\ discount_applies c l
  end.
Proof.
  unfold derive_discount, discount_applies.
  destruct cur as [c|]; [|intros [= <-]; intros (c & l & [=] & _)].
  destruct lst as [l|]; [|intros [= <-]; intros (c' & l & _ & [=] & _)].
  destruct (Qeq_bool c 0) eqn:Hc; cbn [negb andb].
  { intros [= <-]. intros (c' & l' & [= <-] & _ & Hc' & _). congruence. }
  destruct (Qeq_bool l 0) eqn:Hl; cbn [negb andb].
  { intros [= <-]. intros (c' & l' & _ & [= <-] & _ & Hl' & _). congruence. }
  destruct (Qltb c l) eqn:Hlt.
  - apply Qltb_lt in Hlt.
    destruct (discount_float c l) as [[x|negative]|e] eqn:Hx; cbn;
      try discriminate.
    intros [= <-]. exists c, l, x. auto 10.
  - intros [= <-]. intros (c' & l' & [= <-] & [= <-] & _ & _ & Hlt').
    apply Qltb_lt in Hlt'. congruence.
Qed.

(** The validator leaves a discount that was derived by the same rule as
    it is. *)
Lemma calculate_derived (cur lst : option Q) (r : option Z) :
  derive_discount cur lst = Ok r ->
  calculate_discount_percent r cur lst = Ok r.
Proof.
  intros H. unfold calculate_discount_percent. now destruct r.
Qed.

Lemma opt_all_spec {A} (P : A -> bool) (o : option A) :
  opt_all P o = true <-> forall a, o = Some a -> P a = true.
Proof.
  destruct o as [a|]; cbn; split; auto.
  - now intros H a' [= <-].
  - discriminate.
Qed.

Lemma validated_price_ok (v : option Q) :
  opt_all (Qle_bool 0) v = true -> validated_price v = v.
Proof. unfold validated_price. now intros ->. Qed.

Section AmazonAPIFacts.
Variable HttpUrl : string -> option string.
Variable parse_decimal : string -> option Q.

(** What a successful [AmazonProduct(...)] returns and what it checked. *)
Lemma AmazonProduct_init_inv (passed : bool) (k p : AmazonProduct.t) :
  AmazonProduct_init HttpUrl passed k = Ok p ->
  p = AmazonProduct.mk (py_upper (AmazonProduct.asin k)) (AmazonProduct.title k)
        (AmazonProduct.current_price k) (AmazonProduct.list_price k)
        (AmazonProduct.discount_percent p) (AmazonProduct.image_url p)
        (AmazonProduct.availability k)
        (AmazonProduct.prime_eligible k) (AmazonProduct.brand k)
        (AmazonProduct.features k) (AmazonProduct.data_source k)
  /\ String.length (AmazonProduct.asin k) = 10%nat
  /\ py_isalnum (AmazonProduct.asin k) = true
  /\ opt_all (Qle_bool 0) (AmazonProduct.current_price k) = true
  /\ opt_all (Qle_bool 0) (AmazonProduct.list_price k) = true
  /\ (if passed
      then opt_all (fun d => (0 <=? d) && (d <=? 100))
             (AmazonProduct.discount_percent k) = true
           /\ calculate_discount_percent (AmazonProduct.discount_percent k)
                (AmazonProduct.current_price k) (AmazonProduct.list_price k)
              = Ok (AmazonProduct.discount_percent p)
      else AmazonProduct.discount_percent p = None)
  /\ match AmazonProduct.image_url k with
     | Some url => exists stored, HttpUrl url = Some stored
                                  /\ AmazonProduct.image_url p = Some stored
     | None => AmazonProduct.image_url p = None
     end.
Proof.
  unfold AmazonProduct_init, validate_discount_percent.
  destruct (validate_asin (AmazonProduct.asin k)) as [a|e] eqn:Ha.
  2:{ destruct passed; cbn [negb]; [|discriminate].
      destruct (opt_all _ (AmazonProduct.discount_percent k)); [|discriminate].
      destruct (calculate_discount_percent _ _ _); discriminate. }
  apply validate_asin_ok in Ha as (-> & Hlen & Hal).
  assert (Himg : forall image_url,
             validate_image_url HttpUrl (AmazonProduct.image_url k)
             = Some image_url ->
             match AmazonProduct.image_url k with
             | Some url => exists stored, HttpUrl url = Some stored
                                          /\ image_url = Some stored
             | None => image_url = None
             end).
  { unfold validate_image_url. intros image_url.
    destruct (AmazonProduct.image_url k) as [url|]; [|now intros [= <-]].
    destruct (HttpUrl url) as [stored|]; cbn; [|discriminate].
    intros [= <-]. now exists stored. }
  destruct (opt_all (Qle_bool 0) (AmazonProduct.current_price k)) eqn:Hc.
  2:{ destruct passed; cbn [negb].
      - destruct (opt_all _ (AmazonProduct.discount_percent k));
          [|cbn; discriminate].
        destruct (calculate_discount_percent _ _ _); cbn; [|discriminate].
        destruct (validate_image_url _ _); discriminate.
      - cbn. destruct (validate_image_url _ _); discriminate. }
  destruct (opt_all (Qle_bool 0) (AmazonProduct.list_price k)) eqn:Hl.
  2:{ destruct passed; cbn [negb].
      - destruct (opt_all _ (AmazonProduct.discount_percent k));
          [|cbn; discriminate].
        destruct (calculate_discount_percent _ _ _); cbn; [|discriminate].
        destruct (validate_image_url _ _); discriminate.
      - cbn. destruct (validate_image_url _ _); discriminate. }
  rewrite !validated_price_ok by assumption.
  destruct passed; cbn [negb].
  - destruct (opt_all _ (AmazonProduct.discount_percent k)) eqn:Hd;
      [|cbn; discriminate].
    destruct (calculate_discount_percent _ _ _) as [d|e] eqn:Hcalc; cbn;
      [|discriminate].
    destruct (validate_image_url _ _) as [image_url|] eqn:Hu; [|discriminate].
    intros [= <-]. cbn. specialize (Himg _ eq_refl). auto 10.
  - cbn. destruct (validate_image_url _ _) as [image_url|] eqn:Hu;
      [|discriminate].
    intros [= <-]. cbn. specialize (Himg _ eq_refl). auto 10.
Qed.

Lemma discount_consistent_derived (p : AmazonProduct.t) :
  opt_all (Qle_bool 0) (AmazonProduct.current_price p) = true ->
  derive_discount (AmazonProduct.current_price p) (AmazonProduct.list_price p)
  = Ok (AmazonProduct.discount_percent p) ->
  discount_consistent p.
Proof.
  intros Hge Hder. apply derive_discount_inv in Hder.
  unfold discount_consistent.
  destruct (AmazonProduct.discount_percent p) as [d|].
  - destruct Hder as (c & l & x & Hc & Hl & (_ & _ & Hlt) & Hx & ->).
    exists c, l, x. repeat split; auto; apply py_round_nearest.
  - intros (c & l & Hc & Hl & Hpos & Hlt). apply Hder. exists c, l.
    repeat split; auto.
    + now apply pos_Qeq_bool_false.
    + apply pos_Qeq_bool_false. lra.
Qed.

(** C7 (as the code has it). Every product that the PAAPI parser or the
    model constructor resolves with a derived discount percentage carries
    [round] of the float of (list - current) / list * 100, where the
    difference, the quotient and the product are computed by [decimal] at
    28 digits: an integer nearest to that float. It is derived only when
    both prices are present and the list price is above the current
    price, and absent otherwise; for 29.99 against 49.99 the value is 40.
    The second part covers the constructor as both clients call it: with
    no discount, or with the discount they computed by the same rule.
    For two prices in whole cents, the list price at most ten million,
    the derived value is an integer nearest to the exact percentage
    (list - current) / list * 100. *)
Theorem discount_percent_derivation :
  (forall item asin p,
      _parse_paapi_item HttpUrl parse_decimal item asin = Some p ->
      discount_consistent p)
  /\ (forall k p,
         AmazonProduct.discount_percent k = None
         \/ derive_discount (AmazonProduct.current_price k)
              (AmazonProduct.list_price k)
            = Ok (AmazonProduct.discount_percent k) ->
         AmazonProduct_new HttpUrl k = Ok p ->
         discount_consistent p)
  /\ derive_discount (Some (2999 # 100)%Q) (Some (4999 # 100)%Q) = Ok (Some 40)
  /\ (forall (c l : Q) (a b : Z),
         (c * 100 == inject_Z a)%Q -> (l * 100 == inject_Z b)%Q ->
         (0 < c)%Q -> (c < l)%Q -> (l <= 10000000)%Q ->
         exists d, derive_discount (Some c) (Some l) = Ok (Some d)
                   /\ nearest_integer ((l - c) / l * 100) d).
Proof.
  assert (Hnew : forall k p,
             AmazonProduct.discount_percent k = None
             \/ derive_discount (AmazonProduct.current_price k)
                  (AmazonProduct.list_price k)
                = Ok (AmazonProduct.discount_percent k) ->
             AmazonProduct_new HttpUrl k = Ok p ->
             discount_consistent p).
  { intros k p Hk Hp. unfold AmazonProduct_new in Hp.
    apply AmazonProduct_init_inv in Hp
      as (Hp & _ & _ & Hc & _ & (_ & Hd) & _).
    apply discount_consistent_derived; rewrite Hp; cbn; [exact Hc|].
    destruct Hk as [Hk|Hk].
    - rewrite Hk in Hd. exact Hd.
    - rewrite (calculate_derived _ _ _ Hk) in Hd. injection Hd as <-.
      exact Hk. }
  split; [|split; [exact Hnew|split; [vm_compute; reflexivity|]]];
    [|exact derive_discount_whole_cents].
  intros item asin p. unfold _parse_paapi_item.
  destruct (ItemInfo_Title item) as [title|]; [|discriminate].
  destruct (String.eqb title ""); [discriminate|].
  set (cur := _extract_price_from_offers parse_decimal (Offers_Listings item)).
  match goal with
  | |- context [derive_discount cur ?l] => set (lst := l)
  end.
  destruct (derive_discount cur lst) as [d|e] eqn:Hder;
    cbn [mbind result_bind rbind try_except]; [|discriminate].
  destruct (AmazonProduct_new _ _) as [p'|e] eqn:Hp;
    cbn [mbind result_bind rbind try_except]; [|discriminate].
  intros [= ->]. refine (Hnew _ _ _ Hp). right. exact Hder.
Qed.
End AmazonAPIFacts.

Lemma discount_percent_derivation_witness :
  _parse_paapi_item accept_all_urls fixture_parse_decimal fixture_item
    "B08N5WRWNW" = Some fixture_product_parsed
  /\ discount_consistent fixture_product_parsed.
Proof.
  assert (H : _parse_paapi_item accept_all_urls fixture_parse_decimal
                fixture_item "B08N5WRWNW" = Some fixture_product_parsed)
    by (vm_compute; reflexivity).
  split; [exact H|].
  exact (proj1 (discount_percent_derivation accept_all_urls
                  fixture_parse_decimal)
           fixture_item "B08N5WRWNW" fixture_product_parsed H).
Defined.

(** For 87.49999999999999999 against 100 the quotient is exactly
    12.50000000000000001 percent, which the conversion to [float] rounds
    to 12.5, and [round] takes the tie to the even 12: the integer
    nearest to the quotient is 13. *)
Lemma derive_discount_float_rounding :
  derive_discount (Some (8749999999999999999 # 100000000000000000)%Q)
    (Some 100%Q)
  = Ok (Some 12)
  /\ discount_float (8749999999999999999 # 100000000000000000) 100
     = Ok (Finite (25 # 2))
  /\ ~ nearest_integer
         ((100 - (8749999999999999999 # 100000000000000000)) / 100 * 100)%Q 12.
Proof.
  split; [vm_compute; reflexivity|]. split; [vm_compute; reflexivity|].
  unfold nearest_integer. intros [H _]. revert H. vm_compute. intros H.
  now apply H.
Qed.

(** ** Identifier validation in the PAAPI client *)

Section GetProductInfoFacts.
Variable HttpUrl : string -> option string.
Variable parse_decimal : string -> option Q.
Variable get_items_resources : result unit.
Variable get_items : ApiClient -> string -> result Response.

Lemma _parse_paapi_item_not_alnum (item : Item) (asin : string) :
  py_isalnum asin = false ->
  _parse_paapi_item HttpUrl parse_decimal item asin = None.
Proof.
  intros Hal. unfold _parse_paapi_item.
  destruct (ItemInfo_Title item) as [title|]; [|reflexivity].
  destruct (String.eqb title ""); [reflexivity|].
  destruct (derive_discount _ _) as [d|e];
    cbn [mbind result_bind rbind try_except]; [|reflexivity].
  destruct (AmazonProduct_new _ _) as [p|e] eqn:Hnew; [|reflexivity].
  apply AmazonProduct_init_inv in Hnew as (_ & _ & H & _).
  cbn in H. congruence.
Qed.

Lemma throttle_request_stamp (settings : Settings) (self : ApiClient) :
  let self' := _throttle_request settings self in
  _last_request_time self' = time_now self'
  /\ requests_sent self' = requests_sent self
  /\ sleeps self'
     = if Qltb (time_now self - _last_request_time self)
            (api_rate_limit_delay settings)
       then sleeps self
            ++ [(api_rate_limit_delay settings
                 - (time_now self - _last_request_time self))%Q]
       else sleeps self.
Proof.
  cbn zeta. unfold _throttle_request.
  destruct (Qltb _ _); cbn; auto.
Qed.

(** C8 (as the code has it). An identifier that is not exactly ten
    characters long is rejected at once: [get_product_info] returns
    [None] and the client is untouched, with no throttle and no request.
    Every identifier that is not ten alphanumeric characters yields
    [None]; but a ten-character identifier, alphanumeric or not, goes
    through the throttle first: the client sleeps out what is left of the
    rate-limit delay and records the time. The request for it is sent
    only when the SDK import of lines 135-144 succeeds. *)
Theorem get_product_info_rejects_bad_length
    (settings : Settings) (self : ApiClient) (asin : string) :
  let run :=
    get_product_info HttpUrl parse_decimal get_items_resources get_items
      settings self asin in
  (String.length asin <> 10%nat -> run = (None, self))
  /\ (well_formed_asin asin = false -> run.1 = None)
  /\ (String.length asin = 10%nat ->
      _last_request_time run.2 = time_now run.2
      /\ sleeps run.2 = sleeps (_throttle_request settings self)
      /\ (Qltb (time_now self - _last_request_time self)
            (api_rate_limit_delay settings) = true ->
          sleeps run.2
          = sleeps self
            ++ [(api_rate_limit_delay settings
                 - (time_now self - _last_request_time self))%Q])
      /\ requests_sent run.2
         = match get_items_resources with
           | Ok _ => requests_sent self ++ [asin]
           | Raise _ => requests_sent self
           end).
Proof.
  cbn zeta. unfold get_product_info. split; [|split].
  - intros Hlen. apply Nat.eqb_neq in Hlen. rewrite Hlen.
    now rewrite orb_true_r.
  - unfold well_formed_asin. intros Hwf.
    destruct (String.eqb asin ""); [reflexivity|]. cbn [orb].
    destruct (String.length asin =? 10)%nat; [|reflexivity].
    cbn in Hwf. cbn [negb].
    destruct get_items_resources as [[]|e]; [|reflexivity].
    destruct (get_items _ asin) as [[|[|item items]]|e]; try reflexivity.
    cbn [fst]. now apply _parse_paapi_item_not_alnum.
  - intros Hlen.
    assert (Hne : String.eqb asin "" = false).
    { destruct asin; [discriminate|reflexivity]. }
    rewrite Hne. apply Nat.eqb_eq in Hlen. rewrite Hlen. cbn [orb negb].
    destruct (throttle_request_stamp settings self) as (Hstamp & Hreq & Hsl).
    assert (Hsl' : Qltb (time_now self - _last_request_time self)
                     (api_rate_limit_delay settings) = true ->
                   sleeps (_throttle_request settings self)
                   = sleeps self
                     ++ [(api_rate_limit_delay settings
                          - (time_now self - _last_request_time self))%Q]).
    { intros H. now rewrite H in Hsl. }
    destruct get_items_resources as [[]|e]; cbn [snd].
    + destruct (get_items _ asin) as [[|[|item items]]|e]; cbn [snd];
        cbn [_last_request_time time_now sleeps requests_sent];
        rewrite Hreq; auto.
    + rewrite Hreq. auto.
Qed.
End GetProductInfoFacts.

Lemma get_product_info_rejects_bad_length_witness :
  get_product_info accept_all_urls fixture_parse_decimal fixture_resources
    fixture_get_items fixture_settings fixture_client "INVALID"
  = (None, fixture_client).
Proof.
  apply (get_product_info_rejects_bad_length accept_all_urls
           fixture_parse_decimal fixture_resources fixture_get_items
           fixture_settings fixture_client "INVALID").
  cbn. lia.
Defined.

(** The identifier [B00-123456] has ten characters and is not
    alphanumeric. The client sleeps out the rest of the rate-limit delay
    (half a second) and records the time, whether the SDK import then
    raises, so that nothing is sent, or succeeds. *)
Lemma get_product_info_non_alnum_consumes_delay :
  well_formed_asin "B00-123456" = false
  /\ get_product_info accept_all_urls fixture_parse_decimal
       (Raise AttributeError) fixture_get_items
       fixture_settings fixture_client "B00-123456"
     = (None, mkApiClient (404 # 4)%Q (404 # 4)%Q [] [(1 # 2)%Q])
  /\ get_product_info accept_all_urls fixture_parse_decimal fixture_resources
       fixture_get_items fixture_settings fixture_client "B00-123456"
     = (None, mkApiClient (404 # 4)%Q (404 # 4)%Q ["B00-123456"] [(1 # 2)%Q])
  /\ fixture_client = mkApiClient 100%Q (201 # 2)%Q [] [].
Proof.
  split; [reflexivity|]. split; [reflexivity|]. split; reflexivity.
Qed.

(** ** Credentials *)

Lemma validate_amazon_credentials_ok (v v' : string) :
  validate_amazon_credentials v = Ok v' ->
  v' = v /\ v <> "" /\ py_strip v <> "".
Proof.
  unfold validate_amazon_credentials.
  destruct (String.eqb v "") eqn:He; cbn [orb]; [discriminate|].
  destruct (String.eqb (py_strip v) "") eqn:Hs; [discriminate|].
  intros [= <-]. apply String.eqb_neq in He, Hs. auto.
Qed.




Section SettingsFacts.
Variable parse_float : string -> option Q.
Variable parse_int : string -> option Z.
Variable parse_bool : string -> option bool.
Variable field_input : environ -> string -> option string.
Variable extra_inputs : environ -> bool.







End SettingsFacts.



(** The sources compare names without regard to case: credentials set
    under lower-case names are found. *)
Example settings_lower_case_names :
  Settings_new fixture_parse_float fixture_parse_int fixture_parse_bool
    fixture_field_input fixture_extra_inputs
    {[ "amz_access_key" := "test_access_key";
       "amz_secret_key" := "test_secret_key";
       "amz_partner_tag" := "test-tag-20"; "app_env" := "testing" ]}
  = Ok (mkSettings "test_access_key" "test_secret_key" "test-tag-20" "CA"
          1%Q 1%Q 3%Q 3 30%Q 120 20 24 10 "testing" "INFO" false).
Proof. vm_compute. reflexivity. Qed.

(** ** Sorting *)

Section SortedFacts.
Context {A : Type}.
Variable lt : A -> A -> bool.

Lemma insert_sorted_perm (x : A) (l : list A) :
  insert_sorted lt x l ≡ₚ x :: l.
Proof.
  induction l as [|y l IH]; cbn; [reflexivity|].
  destruct (lt y x); [|reflexivity].
  rewrite IH. apply Permutation_swap.
Qed.

Lemma py_sorted_perm (l : list A) : py_sorted lt l ≡ₚ l.
Proof.
  induction l as [|x l IH]; cbn; [reflexivity|].
  rewrite insert_sorted_perm. now rewrite IH.
Qed.

(** [a] does not sort after [b]. *)
Let before (a b : A) : Prop := lt b a = false.

Hypothesis lt_asym : forall a b, lt a b = true -> lt b a = false.
Hypothesis before_trans : forall a b c, before a b -> before b c -> before a c.

Lemma insert_sorted_sorted (x : A) (l : list A) :
  StronglySorted before l -> StronglySorted before (insert_sorted lt x l).
Proof.
  induction l as [|y l IH]; cbn; intros Hs.
  - repeat constructor.
  - apply StronglySorted_inv in Hs as [Hs Hy].
    destruct (lt y x) eqn:Hyx.
    + constructor; [now apply IH|].
      rewrite insert_sorted_perm. constructor; [|exact Hy].
      now apply lt_asym.
    + constructor; [now constructor|].
      constructor; [exact Hyx|].
      eapply Forall_impl; [exact Hy|].
      intros z Hz. now apply (before_trans x y z).
Qed.

Lemma py_sorted_sorted (l : list A) : StronglySorted before (py_sorted lt l).
Proof.
  induction l as [|x l IH]; cbn; [constructor|].
  now apply insert_sorted_sorted.
Qed.
End SortedFacts.

(** [py_sorted] is stable: the entries picked out by [P], no two of which
    sort before one another (entries of equal key), keep their order. *)
Section SortedStable.
Context {A : Type}.
Variable lt : A -> A -> bool.
Variable P : A -> bool.
Hypothesis P_unordered :
  forall a b, P a = true -> P b = true -> lt a b = false.

Lemma insert_sorted_filter_in (x : A) (l : list A) :
  P x = true ->
  List.filter P (insert_sorted lt x l) = x :: List.filter P l.
Proof.
  intros Hx. induction l as [|y l IH]; cbn; [now rewrite Hx|].
  destruct (lt y x) eqn:Hyx; cbn.
  - destruct (P y) eqn:Hy.
    + rewrite (P_unordered y x Hy Hx) in Hyx. discriminate.
    + exact IH.
  - now rewrite Hx.
Qed.

Lemma insert_sorted_filter_out (x : A) (l : list A) :
  P x = false ->
  List.filter P (insert_sorted lt x l) = List.filter P l.
Proof.
  intros Hx. induction l as [|y l IH]; cbn; [now rewrite Hx|].
  destruct (lt y x); cbn.
  - now rewrite IH.
  - now rewrite Hx.
Qed.

Lemma py_sorted_stable (l : list A) :
  List.filter P (py_sorted lt l) = List.filter P l.
Proof.
  induction l as [|x l IH]; [reflexivity|].
  change (py_sorted lt (x :: l)) with (insert_sorted lt x (py_sorted lt l)).
  cbn [List.filter]. destruct (P x) eqn:Hx.
  - rewrite insert_sorted_filter_in by exact Hx. now rewrite IH.
  - rewrite insert_sorted_filter_out by exact Hx. exact IH.
Qed.
End SortedStable.

(** Deals of equal discount leave [_sort_deals_by_discount] in the order
    they came in. *)
Lemma sort_deals_by_discount_stable (k : Z) (deals : list Deal.t) :
  List.filter (fun d => discount_or_0 d =? k) (_sort_deals_by_discount deals)
  = List.filter (fun d => discount_or_0 d =? k) deals.
Proof.
  unfold _sort_deals_by_discount. apply py_sorted_stable.
  intros a b Ha Hb. apply Z.eqb_eq in Ha, Hb. apply Z.ltb_ge. lia.
Qed.

(** ** Featured entries *)

Lemma meets_threshold_set_featured (thr : Z) (b : bool) (d : Deal.t) :
  meets_threshold thr (set_featured b d) = meets_threshold thr d.
Proof. reflexivity. Qed.

Lemma meets_threshold_spec (thr : Z) (d : Deal.t) :
  meets_threshold thr d = true ->
  exists p, Deal.discount_percent d = Some p /\ thr <= p.
Proof.
  unfold meets_threshold. destruct (Deal.discount_percent d) as [p|];
    [|discriminate].
  intros [_ H]%andb_true_iff. apply Z.leb_le in H. eauto.
Qed.

(** The loop changes nothing but the flag. *)
Lemma mark_loop_unflagged (thr n : Z) (l : list Deal.t) :
  set_featured false <$> mark_loop thr n l = set_featured false <$> l.
Proof.
  revert n. induction l as [|d l IH]; intros n; cbn; [reflexivity|].
  destruct (meets_threshold thr d && (n <? 20)); cbn; now rewrite IH.
Qed.

(** The flag of the entry at position [i]: it meets the threshold, and
    fewer than 20 entries before it do. *)
Lemma mark_loop_flag (thr n : Z) (l : list Deal.t) (i : nat) (d : Deal.t) :
  mark_loop thr n l !! i = Some d ->
  Deal.featured d
  = meets_threshold thr d
    && (n + Z.of_nat (length (List.filter (meets_threshold thr)
                                (take i (mark_loop thr n l)))) <? 20).
Proof.
  revert n i. induction l as [|x l IH]; intros n i; [discriminate|].
  cbn [mark_loop].
  destruct (meets_threshold thr x) eqn:Hx; cbn [andb].
  - destruct (n <? 20) eqn:Hn.
    + destruct i as [|i].
      * intros [= <-]. rewrite meets_threshold_set_featured, Hx.
        cbn. symmetry. apply Z.ltb_lt. apply Z.ltb_lt in Hn. lia.
      * intros H. change ((?a :: ?t) !! S i) with (t !! i) in H.
        rewrite (IH _ _ H).
        cbn [take List.filter]. rewrite meets_threshold_set_featured, Hx.
        cbn [length]. f_equal. f_equal. lia.
    + destruct i as [|i].
      * intros [= <-]. rewrite meets_threshold_set_featured, Hx.
        cbn. symmetry. apply Z.ltb_ge. apply Z.ltb_ge in Hn. lia.
      * intros H. change ((?a :: ?t) !! S i) with (t !! i) in H.
        rewrite (IH _ _ H).
        cbn [take List.filter]. rewrite meets_threshold_set_featured, Hx.
        cbn [length]. apply Z.ltb_ge in Hn.
        rewrite (proj2 (Z.ltb_ge _ 20)) by lia.
        rewrite (proj2 (Z.ltb_ge _ 20)) by lia.
        reflexivity.
  - destruct i as [|i].
    + intros [= <-]. now rewrite meets_threshold_set_featured, Hx.
    + intros H. change ((?a :: ?t) !! S i) with (t !! i) in H.
      rewrite (IH _ _ H).
      cbn [take List.filter]. now rewrite meets_threshold_set_featured, Hx.
Qed.

Lemma mark_loop_count (thr n : Z) (l : list Deal.t) :
  Z.of_nat (length (List.filter Deal.featured (mark_loop thr n l)))
  <= Z.max 0 (20 - n).
Proof.
  revert n. induction l as [|d l IH]; intros n; cbn; [lia|].
  destruct (meets_threshold thr d && (n <? 20)) eqn:Hc; cbn.
  - apply andb_true_iff in Hc as [_ Hn]. apply Z.ltb_lt in Hn.
    specialize (IH (n + 1)). lia.
  - apply IH.
Qed.

Section FeaturedFacts.
Variable HttpUrl : string -> option string.

Lemma from_amazon_product_featured clock p partner_tag ctx d :
  from_amazon_product HttpUrl clock p partner_tag ctx
  = Ok (Some d) ->
  Deal.discount_percent d = AmazonProduct.discount_percent p
  /\ Deal.featured d
     = match AmazonProduct.discount_percent p with
       | Some q => 40 <=? q
       | None => false
       end.
Proof.
  unfold from_amazon_product.
  destruct (AmazonProduct.current_price p) as [c|]; [|discriminate].
  destruct (Qeq_bool c 0 || Qle_bool c 0); [discriminate|].
  destruct (post_description p ctx) as [description|]; [|discriminate].
  cbn [mbind result_bind rbind].
  destruct (Deal_new _ _ _) as [d'|e] eqn:Hnew;
    cbn [mbind result_bind rbind try_except]; [|discriminate].
  intros [= <-]. apply Deal_new_inv in Hnew as (i & a & _ & _ & -> & _).
  cbn. auto.
Qed.

(** C10. In the list that [_mark_featured_deals] returns, an entry is
    featured only if its discount percentage is present and at least the
    threshold, at most 20 entries are featured, and every other entry is
    not featured: the flag of an entry says that it meets the threshold
    and that fewer than 20 entries before it do. The entries are those
    of the input, up to the flag. A deal that the factory builds is
    featured exactly when its discount percentage is present and at
    least 40. *)
Theorem mark_featured_deals_bounded (deals : list Deal.t) (threshold : Z) :
  let out := _mark_featured_deals deals threshold in
  (forall d, d ∈ out -> Deal.featured d = true ->
             exists p, Deal.discount_percent d = Some p /\ threshold <= p)
  /\ (length (List.filter Deal.featured out) <= 20)%nat
  /\ (forall i d, out !! i = Some d ->
        Deal.featured d
        = meets_threshold threshold d
          && (length (List.filter (meets_threshold threshold) (take i out))
              <? 20)%nat)
  /\ set_featured false <$> out ≡ₚ set_featured false <$> deals
  /\ (forall clock p partner_tag ctx d,
        from_amazon_product HttpUrl clock p
          partner_tag ctx = Ok (Some d) ->
        (Deal.featured d = true <->
         exists q, Deal.discount_percent d = Some q /\ 40 <= q)).
Proof.
  cbn zeta. unfold _mark_featured_deals.
  assert (Hflag : forall i d,
    mark_loop threshold 0 (_sort_deals_by_discount deals) !! i = Some d ->
    Deal.featured d
    = meets_threshold threshold d
      && (length (List.filter (meets_threshold threshold)
                    (take i (mark_loop threshold 0
                               (_sort_deals_by_discount deals)))) <? 20)%nat).
  { intros i d H. rewrite (mark_loop_flag _ _ _ _ _ H). f_equal.
    rewrite Z.add_0_l.
    destruct (Nat.ltb_spec
                (length (List.filter (meets_threshold threshold)
                   (take i (mark_loop threshold 0
                              (_sort_deals_by_discount deals))))) 20);
      [apply Z.ltb_lt|apply Z.ltb_ge]; lia. }
  split; [|split; [|split; [|split]]].
  - intros d [i Hi]%list_elem_of_lookup Hf.
    rewrite (Hflag i d Hi) in Hf. apply andb_true_iff in Hf as [Hm _].
    now apply meets_threshold_spec.
  - pose proof (mark_loop_count threshold 0
                  (_sort_deals_by_discount deals)). lia.
  - exact Hflag.
  - rewrite mark_loop_unflagged. unfold _sort_deals_by_discount.
    now rewrite py_sorted_perm.
  - intros clock p partner_tag ctx d H.
    apply from_amazon_product_featured in H as [Hd Hf].
    rewrite Hf, Hd. destruct (AmazonProduct.discount_percent p) as [q|].
    + rewrite Z.leb_le. split.
      * intros Hq. eauto.
      * intros (q' & [= <-] & Hq). exact Hq.
    + split; [discriminate|]. intros (q & [=] & _).
Qed.
End FeaturedFacts.

Lemma StronglySorted_weaken {A} (R R' : A -> A -> Prop) (l : list A) :
  (forall a b, R a b -> R' a b) -> StronglySorted R l -> StronglySorted R' l.
Proof.
  intros HR. induction 1 as [|a l Hs IH Ha]; constructor; [exact IH|].
  eapply Forall_impl; [exact Ha|]. intros b. apply HR.
Qed.

(** The featured pass returns the deals by falling discount. *)
Lemma mark_featured_deals_sorted (deals : list Deal.t) (threshold : Z) :
  StronglySorted (fun a b => discount_or_0 b <= discount_or_0 a)
    (_mark_featured_deals deals threshold).
Proof.
  unfold _mark_featured_deals.
  assert (Hs : StronglySorted (fun a b => discount_or_0 b <= discount_or_0 a)
                 (_sort_deals_by_discount deals)).
  { unfold _sort_deals_by_discount.
    eapply StronglySorted_weaken;
      [|apply (py_sorted_sorted (fun a b => discount_or_0 b <? discount_or_0 a))].
    - intros a b H. cbn in H. apply Z.ltb_ge in H. exact H.
    - intros a b H. apply Z.ltb_lt in H. apply Z.ltb_ge. lia.
    - intros a b c H1 H2. apply Z.ltb_ge in H1, H2. apply Z.ltb_ge. lia. }
  revert Hs. generalize 0. generalize (_sort_deals_by_discount deals).
  induction l as [|d l IH]; intros n Hs; cbn; [constructor|].
  apply StronglySorted_inv in Hs as [Hs Hd].
  assert (Hall : forall b k, Forall (fun x => discount_or_0 x <= discount_or_0 (set_featured b d))
                         (mark_loop threshold k l)).
  { intros b k. apply Forall_forall. intros x Hx.
    assert (Hx' : set_featured false x ∈ set_featured false <$> mark_loop threshold k l)
      by now apply list_elem_of_fmap_2.
    rewrite mark_loop_unflagged in Hx'.
    apply list_elem_of_fmap in Hx' as (y & Hy & Hin).
    rewrite Forall_forall in Hd. specialize (Hd y Hin).
    change (discount_or_0 x) with (discount_or_0 (set_featured false x)).
    rewrite Hy. exact Hd. }
  destruct (meets_threshold threshold d && (n <? 20)); constructor; auto.
Qed.

(** The sort key of [manage_deal_count] puts the older of two timestamps
    first when the other components agree. *)
Example priority_lt_older_first :
  priority_lt (true, -40, "2024-01-13T10:30:00") (true, -40, "2024-01-15T10:30:00")
  = true.
Proof. reflexivity. Qed.

(** The 25 deals of [test_mark_featured_deals], with discounts 60, 58, ...,
    12: the eleven of 40 and more are featured. *)
Example mark_featured_deals_test_deals :
  length (List.filter Deal.featured
            (_mark_featured_deals
               (map (fun i => fixture_deal "B08N5WRWNW"
                                (Some (60 - 2 * Z.of_nat i))
                                "2024-01-01T00:00:00Z")
                  (seq 0 25))
               40))
  = 11%nat.
Proof. reflexivity. Qed.

(** Thirty deals at 50: the first twenty are featured. *)
Example mark_featured_deals_cap :
  Deal.featured <$>
    _mark_featured_deals
      (repeat (fixture_deal "B08N5WRWNW" (Some 50) "2024-01-01T00:00:00Z") 30) 40
  = repeat true 20 ++ repeat false 10.
Proof. reflexivity. Qed.

(** * More of the code *)

(** ** Rate limiting *)

(** X1. [_throttle_request] leaves the clock at least
    [api_rate_limit_delay] after the previous request time, stamps the new
    request time with the clock, never moves the clock back and sends
    nothing; so the request times of two calls of [get_product_info] with
    ten-character identifiers are at least the delay apart. *)
Theorem throttle_request_spacing
    (HttpUrl : string -> option string) (parse_decimal : string -> option Q)
    (get_items_resources : result unit)
    (get_items : ApiClient -> string -> result Response)
    (settings : Settings) (self : ApiClient) :
  let self' := _throttle_request settings self in
  (_last_request_time self + api_rate_limit_delay settings <= time_now self')%Q
  /\ _last_request_time self' = time_now self'
  /\ (time_now self <= time_now self')%Q
  /\ requests_sent self' = requests_sent self
  /\ (forall asin, String.length asin = 10%nat ->
        let after := (get_product_info HttpUrl parse_decimal
                        get_items_resources get_items settings self asin).2 in
        (_last_request_time self + api_rate_limit_delay settings
         <= _last_request_time after)%Q).
Proof.
  cbn zeta.
  assert (H1 : (_last_request_time self + api_rate_limit_delay settings
                <= time_now (_throttle_request settings self))%Q).
  { unfold _throttle_request.
    destruct (Qltb _ _) eqn:Hlt; cbn.
    - lra.
    - assert (~ (time_now self - _last_request_time self
                 < api_rate_limit_delay settings)%Q).
      { intros H. apply Qltb_lt in H. congruence. }
      lra. }
  split; [exact H1|]. split; [reflexivity|]. split; [|split].
  - unfold _throttle_request. destruct (Qltb _ _) eqn:Hlt; cbn.
    + apply Qltb_lt in Hlt. lra.
    + lra.
  - unfold _throttle_request. now destruct (Qltb _ _).
  - intros asin Hlen. unfold get_product_info.
    assert (Hne : String.eqb asin "" = false)
      by (destruct asin; [discriminate|reflexivity]).
    rewrite Hne. apply Nat.eqb_eq in Hlen. rewrite Hlen. cbn [orb negb].
    destruct get_items_resources as [[]|e]; cbn [snd]; [|exact H1].
    destruct (get_items _ asin) as [[|[|item items]]|e]; cbn [snd];
      exact H1.
Qed.

Lemma throttle_request_spacing_witness :
  (_last_request_time fixture_client + api_rate_limit_delay fixture_settings
   <= _last_request_time
        (get_product_info accept_all_urls fixture_parse_decimal
           fixture_resources fixture_get_items fixture_settings
           fixture_client "B08N5WRWNW").2)%Q.
Proof.
  apply (throttle_request_spacing accept_all_urls fixture_parse_decimal
           fixture_resources fixture_get_items fixture_settings
           fixture_client).
  reflexivity.
Defined.

(** ** Dictionaries as association lists *)

Lemma dict_set_keys {V} (k : string) (v : V) (d : list (string * V)) :
  (dict_set k v d).*1 = if bool_decide (k ∈ d.*1) then d.*1 else d.*1 ++ [k].
Proof.
  induction d as [|[k' v'] d IH]; cbn; [reflexivity|].
  destruct (String.eqb_spec k' k) as [->|Hne]; cbn.
  - rewrite bool_decide_eq_true_2 by (apply elem_of_cons; now left).
    reflexivity.
  - rewrite IH. destruct (bool_decide (k ∈ d.*1)) eqn:Hk.
    + apply bool_decide_eq_true_1 in Hk.
      rewrite bool_decide_eq_true_2 by (apply elem_of_cons; now right).
      reflexivity.
    + apply bool_decide_eq_false_1 in Hk.
      rewrite bool_decide_eq_false_2; [reflexivity|].
      intros [->|Hin]%elem_of_cons; [now apply Hne|now apply Hk].
Qed.

Lemma dict_set_elem_of_keys {V} (k : string) (v : V) (d : list (string * V))
    (a : string) :
  a ∈ (dict_set k v d).*1 <-> a = k \/ a ∈ d.*1.
Proof.
  rewrite dict_set_keys. case_bool_decide as Hk.
  - split; [now right|]. intros [->|H]; [exact Hk|exact H].
  - rewrite elem_of_app, list_elem_of_singleton. tauto.
Qed.

Lemma dict_set_NoDup {V} (k : string) (v : V) (d : list (string * V)) :
  NoDup d.*1 -> NoDup (dict_set k v d).*1.
Proof.
  intros Hd. rewrite dict_set_keys. case_bool_decide as Hk; [exact Hd|].
  apply NoDup_app. split; [exact Hd|]. split.
  - intros x Hx [->|Hin]%elem_of_cons; [now apply Hk|inversion Hin].
  - apply NoDup_singleton.
Qed.

Lemma assoc_get_dict_set {V} (k a : string) (v : V) (d : list (string * V)) :
  assoc_get a (dict_set k v d) = if String.eqb k a then Some v else assoc_get a d.
Proof.
  induction d as [|[k' v'] d IH]; cbn.
  - reflexivity.
  - destruct (String.eqb_spec k' k) as [->|Hne]; cbn.
    + now destruct (String.eqb k a).
    + rewrite IH. destruct (String.eqb_spec k' a) as [->|Hne'].
      * destruct (String.eqb_spec k a) as [->|]; [now contradict Hne|reflexivity].
      * reflexivity.
Qed.

Lemma dict_set_elem_of {V} (k : string) (v : V) (d : list (string * V))
    (x : string * V) :
  x ∈ dict_set k v d -> x = (k, v) \/ x ∈ d.
Proof.
  induction d as [|[k' v'] d IH]; cbn.
  - intros [->|H]%elem_of_cons; [now left|inversion H].
  - destruct (String.eqb k' k).
    + intros [->|H]%elem_of_cons; [now left|].
      right. apply elem_of_cons. now right.
    + intros [->|H]%elem_of_cons.
      * right. apply elem_of_cons. now left.
      * destruct (IH H) as [->|H']; [now left|].
        right. apply elem_of_cons. now right.
Qed.

(** ** Batches of PAAPI requests *)

Section GetMultipleProductsFacts.
Variable HttpUrl : string -> option string.
Variable parse_decimal : string -> option Q.
Variable get_items_resources : result unit.
Variable get_items : ApiClient -> string -> result Response.

Let info := get_product_info HttpUrl parse_decimal get_items_resources
              get_items.
Let step := get_multiple_step HttpUrl parse_decimal get_items_resources
              get_items.
Let sent := sends_request get_items_resources.

(** The requests of one call: the identifier, when it has ten characters
    and the SDK import succeeds. *)
Lemma get_product_info_requests (settings : Settings) (self : ApiClient)
    (asin : string) :
  requests_sent (info settings self asin).2
  = requests_sent self ++ (if sent asin then [asin] else [])
  /\ (sent asin = false -> (info settings self asin).1 = None).
Proof.
  unfold info, get_product_info, sent, sends_request.
  destruct (String.length asin =? 10)%nat eqn:Hlen.
  - assert (Hne : String.eqb asin "" = false).
    { destruct asin; [discriminate|reflexivity]. }
    rewrite Hne. cbn [orb negb andb].
    assert (Hreq : requests_sent (_throttle_request settings self)
                   = requests_sent self).
    { unfold _throttle_request. now destruct (Qltb _ _). }
    destruct get_items_resources as [[]|e]; cbn [snd fst].
    + split; [|discriminate].
      destruct (get_items _ asin) as [[|[|item items]]|e]; cbn [snd];
        cbn [requests_sent]; now rewrite Hreq.
    + rewrite Hreq. split; [now rewrite app_nil_r|reflexivity].
  - rewrite orb_true_r. cbn. split; [now rewrite app_nil_r|reflexivity].
Qed.

Lemma api_sleep_requests (d : Q) (self : ApiClient) :
  requests_sent (api_sleep d self) = requests_sent self.
Proof. reflexivity. Qed.

Lemma get_multiple_step_facts (settings : Settings)
    (results : list (string * option AmazonProduct.t)) (self : ApiClient)
    (asin : string) :
  let out := step settings (results, self) asin in
  (exists product, out.1 = dict_set asin product results
                   /\ (sent asin = false -> product = None))
  /\ requests_sent out.2
     = requests_sent self ++ (if sent asin then [asin] else []).
Proof.
  unfold step, get_multiple_step. cbn zeta.
  set (self1 := if (0 <? length results)%nat then api_sleep (1 # 2) self else self).
  assert (Hreq : requests_sent self1 = requests_sent self).
  { unfold self1. now destruct (0 <? length results)%nat. }
  pose proof (get_product_info_requests settings self1 asin) as [H1 H2].
  fold info.
  destruct (info settings self1 asin) as [product self2]. cbn in *.
  split.
  - exists product. auto.
  - now rewrite H1, Hreq.
Qed.

Lemma get_multiple_fold (settings : Settings) (asins : list string)
    (results : list (string * option AmazonProduct.t)) (self : ApiClient) :
  let out := fold_left (step settings) asins (results, self) in
  (NoDup results.*1 -> NoDup out.1.*1)
  /\ (forall a, a ∈ out.1.*1 <-> a ∈ results.*1 \/ a ∈ asins)
  /\ requests_sent out.2 = requests_sent self ++ List.filter sent asins
  /\ (forall a, sent a = false ->
        (a ∈ asins -> assoc_get a out.1 = Some None)
        /\ (assoc_get a results = Some None -> assoc_get a out.1 = Some None)).
Proof.
  revert results self. induction asins as [|asin asins IH]; intros results self.
  - cbn. split; [auto|]. split; [|split].
    + intros a. split; [now left|]. intros [H|H]; [exact H|inversion H].
    + now rewrite app_nil_r.
    + intros a Ha. split; [intros H; inversion H|auto].
  - cbn [fold_left].
    pose proof (get_multiple_step_facts settings results self asin)
      as [(product & Hres & Hnone) Hreq].
    destruct (step settings (results, self) asin) as [results1 self1].
    cbn [fst snd] in Hres, Hreq.
    specialize (IH results1 self1). cbn zeta in IH.
    destruct IH as (IH1 & IH2 & IH3 & IH4). cbn zeta.
    split; [|split; [|split]].
    + intros Hnd. apply IH1. rewrite Hres. now apply dict_set_NoDup.
    + intros a. rewrite IH2, Hres, dict_set_elem_of_keys, elem_of_cons. tauto.
    + rewrite IH3, Hreq. cbn [List.filter].
      destruct (sent asin); cbn; now rewrite <- app_assoc.
    + intros a Ha. destruct (IH4 a Ha) as [IHin IHkeep].
      assert (Hstep : a = asin \/ assoc_get a results = Some None ->
                      assoc_get a results1 = Some None).
      { rewrite Hres, assoc_get_dict_set.
        intros [->|Hold].
        - rewrite String.eqb_refl. now rewrite (Hnone Ha).
        - destruct (String.eqb_spec asin a) as [->|Hne]; [|exact Hold].
          now rewrite (Hnone Ha). }
      split.
      * intros [->|Hin]%elem_of_cons; [apply IHkeep, Hstep; now left|].
        now apply IHin.
      * intros Hold. apply IHkeep, Hstep. now right.
Qed.

(** X2. [get_multiple_products] returns one entry per distinct identifier
    of its input and no other. When the SDK import of lines 135-144
    succeeds it sends to the API exactly the identifiers of ten
    characters, in input order; when the import raises it sends nothing
    and maps every identifier to [None]. An identifier of another length
    is mapped to [None] in both cases. *)
Theorem get_multiple_products_results
    (settings : Settings) (self : ApiClient) (asins : list string) :
  let out := get_multiple_products HttpUrl parse_decimal get_items_resources
               get_items settings self asins in
  NoDup out.1.*1
  /\ (forall a, a ∈ out.1.*1 <-> a ∈ asins)
  /\ requests_sent out.2
     = requests_sent self
       ++ match get_items_resources with
          | Ok _ => List.filter (fun a => (String.length a =? 10)%nat) asins
          | Raise _ => []
          end
  /\ (forall a, a ∈ asins -> String.length a <> 10%nat ->
        assoc_get a out.1 = Some None)
  /\ (forall a e, a ∈ asins -> get_items_resources = Raise e ->
        assoc_get a out.1 = Some None).
Proof.
  cbn zeta. unfold get_multiple_products.
  pose proof (get_multiple_fold settings asins [] self) as (H1 & H2 & H3 & H4).
  cbn zeta in *. fold step. split; [|split; [|split; [|split]]].
  - apply H1. constructor.
  - intros a. rewrite H2. split; [|now right].
    intros [H|H]; [inversion H|exact H].
  - rewrite H3. f_equal. unfold sent, sends_request.
    destruct get_items_resources as [[]|e].
    + apply List.filter_ext. intros a. now rewrite andb_true_r.
    + clear. induction asins as [|a l IH]; [reflexivity|].
      cbn [List.filter]. now rewrite andb_false_r.
  - intros a Hin Hlen. apply Nat.eqb_neq in Hlen.
    assert (Hs : sent a = false)
      by (unfold sent, sends_request; now rewrite Hlen).
    destruct (H4 a Hs) as [H _]. exact (H Hin).
  - intros a e Hin He.
    assert (Hs : sent a = false)
      by (unfold sent, sends_request; rewrite He; apply andb_false_r).
    destruct (H4 a Hs) as [H _]. exact (H Hin).
Qed.
End GetMultipleProductsFacts.

(** The identifiers of [test_get_multiple_products_mixed_results], the
    second of which has a repeated entry here. *)
Example get_multiple_products_mixed :
  let out := get_multiple_products accept_all_urls fixture_parse_decimal fixture_resources
               fixture_get_items fixture_settings fixture_client
               ["B08N5WRWNW"; "INVALID"; "B08N5WRWNW"] in
  out.1 = [("B08N5WRWNW", None); ("INVALID", None)]
  /\ requests_sent out.2 = ["B08N5WRWNW"; "B08N5WRWNW"].
Proof. split; reflexivity. Qed.

(** ** Validated products *)

Section AmazonProductFacts.
Variable HttpUrl : string -> option string.
Variable parse_decimal : string -> option Q.

(** X3. [AmazonProduct(...)] accepts only an identifier of ten
    alphanumeric characters and prices that are not negative, and keeps
    the prices. An ASCII identifier is stored in upper case and is then
    still ten ASCII alphanumeric characters. The image URL is stored as
    [HttpUrl] normalises it. A discount that is passed is kept and lies
    between 0 and 100; when [None] is passed the validator derives the
    discount from the prices; when the keyword is left out the discount
    is [None] whatever the prices. *)
Theorem AmazonProduct_new_invariant (passed : bool) (k p : AmazonProduct.t) :
  AmazonProduct_init HttpUrl passed k = Ok p ->
  String.length (AmazonProduct.asin k) = 10%nat
  /\ py_isalnum (AmazonProduct.asin k) = true
  /\ (py_isascii (AmazonProduct.asin k) = true ->
      AmazonProduct.asin p = py_upper (AmazonProduct.asin k)
      /\ String.length (AmazonProduct.asin p) = 10%nat
      /\ py_isalnum (AmazonProduct.asin p) = true
      /\ py_isascii (AmazonProduct.asin p) = true)
  /\ AmazonProduct.current_price p = AmazonProduct.current_price k
  /\ AmazonProduct.list_price p = AmazonProduct.list_price k
  /\ (forall c, AmazonProduct.current_price p = Some c -> (0 <= c)%Q)
  /\ (forall l, AmazonProduct.list_price p = Some l -> (0 <= l)%Q)
  /\ AmazonProduct.image_url p = AmazonProduct.image_url k ≫= HttpUrl
  /\ (forall url, AmazonProduct.image_url k = Some url -> HttpUrl url <> None)
  /\ (forall d, passed = true -> AmazonProduct.discount_percent k = Some d ->
        AmazonProduct.discount_percent p = Some d /\ 0 <= d <= 100)
  /\ (passed = true -> AmazonProduct.discount_percent k = None ->
      derive_discount (AmazonProduct.current_price k)
        (AmazonProduct.list_price k)
      = Ok (AmazonProduct.discount_percent p))
  /\ (passed = false -> AmazonProduct.discount_percent p = None).
Proof.
  intros Hnew.
  apply AmazonProduct_init_inv in Hnew
    as (Hp & Hlen & Hal & Hc & Hl & Hd & Hu).
  split; [exact Hlen|]. split; [exact Hal|].
  split.
  { intros Hascii. rewrite Hp.
    cbn [AmazonProduct.asin]. split; [reflexivity|].
    split; [unfold py_upper; now rewrite string_map_length|].
    split; [now rewrite py_upper_isalnum|now rewrite py_upper_isascii]. }
  split; [now rewrite Hp|]. split; [now rewrite Hp|].
  split.
  { intros c Hc'. rewrite Hp in Hc'. cbn in Hc'. apply Qle_bool_iff.
    exact (proj1 (opt_all_spec _ _) Hc c Hc'). }
  split.
  { intros l Hl'. rewrite Hp in Hl'. cbn in Hl'. apply Qle_bool_iff.
    exact (proj1 (opt_all_spec _ _) Hl l Hl'). }
  split.
  { destruct (AmazonProduct.image_url k) as [url|]; cbn; [|exact Hu].
    destruct Hu as (stored & Hs & ->). now rewrite Hs. }
  split.
  { intros url Hurl. rewrite Hurl in Hu. destruct Hu as (stored & -> & _).
    discriminate. }
  split.
  { intros d -> Hk. destruct Hd as [Hrange Hcalc].
    rewrite Hk in Hrange, Hcalc. cbn in Hrange, Hcalc.
    injection Hcalc as <-. split; [reflexivity|].
    apply andb_true_iff in Hrange as [H0 H100]. split; now apply Z.leb_le. }
  split.
  { intros -> Hk. destruct Hd as [_ Hcalc]. now rewrite Hk in Hcalc. }
  intros ->. exact Hd.
Qed.

End AmazonProductFacts.

Lemma AmazonProduct_new_invariant_witness :
  AmazonProduct_init accept_all_urls true fixture_product = Ok fixture_product
  /\ String.length (AmazonProduct.asin fixture_product) = 10%nat.
Proof.
  assert (H : AmazonProduct_init accept_all_urls true fixture_product
              = Ok fixture_product) by reflexivity.
  split; [exact H|].
  exact (proj1 (AmazonProduct_new_invariant accept_all_urls true
                  fixture_product fixture_product H)).
Defined.

(** Without the keyword [discount_percent] the constructor leaves the
    discount out, where the clients' calls derive 40. *)
Example AmazonProduct_init_discount_not_passed :
  (p ← AmazonProduct_init accept_all_urls false
         (AmazonProduct.mk "b08n5wrwnw" "Test Product" (Some (2999 # 100)%Q)
            (Some (4999 # 100)%Q) None None "Unknown" false None [] UNKNOWN);
   Ok (AmazonProduct.asin p, AmazonProduct.discount_percent p))
  = Ok ("B08N5WRWNW", None)
  /\ (p ← AmazonProduct_init accept_all_urls true
            (AmazonProduct.mk "b08n5wrwnw" "Test Product"
               (Some (2999 # 100)%Q) (Some (4999 # 100)%Q) None None
               "Unknown" false None [] UNKNOWN);
      Ok (AmazonProduct.asin p, AmazonProduct.discount_percent p))
     = Ok ("B08N5WRWNW", Some 40).
Proof. split; vm_compute; reflexivity. Qed.


(** ** Settings read from the environment *)

Lemma mbind_ok {A B} (r : result A) (k : A -> result B) (b : B) :
  mbind k r = Ok b -> exists a, r = Ok a /\ k a = Ok b.
Proof. destruct r as [a|e]; cbn; [eauto|discriminate]. Qed.

Lemma as_validation_ok {A} (r : result A) (a : A) :
  as_validation r = Ok a -> r = Ok a.
Proof. destruct r; cbn; congruence. Qed.

Lemma validate_marketplace_ok (v v' : string) :
  validate_marketplace v = Ok v' -> v' = v /\ v ∈ valid_marketplaces.
Proof.
  unfold validate_marketplace.
  destruct (existsb (String.eqb v) valid_marketplaces) eqn:He; [|discriminate].
  intros [= <-]. split; [reflexivity|].
  apply existsb_exists in He as (x & Hin & Heq).
  apply String.eqb_eq in Heq as ->. now apply list_elem_of_In.
Qed.


Section SettingsReadFacts.
Variable parse_float : string -> option Q.
Variable parse_int : string -> option Z.
Variable parse_bool : string -> option bool.
Variable field_input : environ -> string -> option string.
Variable extra_inputs : environ -> bool.

Lemma required_ok (env : environ) (name v : string) :
  required field_input env name = Ok v -> field_input env name = Some v.
Proof. unfold required. destruct (field_input env name); congruence. Qed.

Lemma with_default_ok {A} (env : environ) (name : string)
    (parse : string -> option A) (d a : A) :
  with_default field_input env name parse d = Ok a ->
  match field_input env name with
  | None => a = d
  | Some v => parse v = Some a
  end.
Proof.
  unfold with_default. destruct (field_input env name) as [v|]; [|congruence].
  destruct (parse v); congruence.
Qed.

Lemma no_extra_inputs_ok (env : environ) (u : unit) :
  (if extra_inputs env then Raise ValidationError else Ok tt) = Ok u ->
  extra_inputs env = false.
Proof. now destruct (extra_inputs env). Qed.

(** X5. Settings that [Settings()] returns carry the three credentials
    exactly as the settings sources hold them (a variable of the
    environment found without regard to the case of its name, or an entry
    of the file [.env]), none of them empty or blank, and one of the ten
    known marketplace codes, [CA] when the sources hold none; the
    deal-management fields for which the sources hold nothing have the
    defaults 120 (target), 24 (freshness hours) and 10 (minimum
    discount); and the file [.env] has no entry that belongs to no
    field. *)
Theorem settings_read_from_environment (env : environ) (s : Settings) :
  Settings_new parse_float parse_int parse_bool field_input extra_inputs env
  = Ok s ->
  field_input env "AMZ_ACCESS_KEY" = Some (amz_access_key s)
  /\ field_input env "AMZ_SECRET_KEY" = Some (amz_secret_key s)
  /\ field_input env "AMZ_PARTNER_TAG" = Some (amz_partner_tag s)
  /\ py_strip (amz_access_key s) <> ""
  /\ py_strip (amz_secret_key s) <> ""
  /\ py_strip (amz_partner_tag s) <> ""
  /\ amz_marketplace s ∈ valid_marketplaces
  /\ amz_marketplace s = default "CA" (field_input env "amz_marketplace")
  /\ (field_input env "target_deal_count" = None -> target_deal_count s = 120)
  /\ (field_input env "deal_freshness_hours" = None ->
      deal_freshness_hours s = 24)
  /\ (field_input env "min_deal_discount" = None -> min_deal_discount s = 10)
  /\ extra_inputs env = false.
Proof.
  unfold Settings_new. intros H.
  apply mbind_ok in H as (u & Hu & H). apply no_extra_inputs_ok in Hu.
  apply mbind_ok in H as (a0 & Ha0 & H). apply required_ok in Ha0.
  apply mbind_ok in H as (a & Ha & H).
  apply as_validation_ok, validate_amazon_credentials_ok in Ha as (-> & _ & Ha).
  apply mbind_ok in H as (b0 & Hb0 & H). apply required_ok in Hb0.
  apply mbind_ok in H as (b & Hb & H).
  apply as_validation_ok, validate_amazon_credentials_ok in Hb as (-> & _ & Hb).
  apply mbind_ok in H as (c0 & Hc0 & H). apply required_ok in Hc0.
  apply mbind_ok in H as (c & Hc & H).
  apply as_validation_ok, validate_amazon_credentials_ok in Hc as (-> & _ & Hc).
  apply mbind_ok in H as (m0 & Hm0 & H). apply with_default_ok in Hm0.
  apply mbind_ok in H as (m & Hm & H).
  apply as_validation_ok, validate_marketplace_ok in Hm as (-> & Hm).
  apply mbind_ok in H as (rate & _ & H).
  apply mbind_ok in H as (dmin & _ & H).
  apply mbind_ok in H as (dmax & _ & H).
  apply mbind_ok in H as (retries & _ & H).
  apply mbind_ok in H as (timeout & _ & H).
  apply mbind_ok in H as (target & Htarget & H).
  apply with_default_ok in Htarget.
  apply mbind_ok in H as (pages & _ & H).
  apply mbind_ok in H as (fresh & Hfresh & H).
  apply with_default_ok in Hfresh.
  apply mbind_ok in H as (mindisc & Hmin & H).
  apply with_default_ok in Hmin.
  apply mbind_ok in H as (appenv & _ & H).
  apply mbind_ok in H as (loglevel & _ & H).
  apply mbind_ok in H as (dbg & _ & H).
  injection H as <-. cbn.
  repeat match goal with |- _ /\ _ => split end; try assumption.
  - destruct (field_input env "amz_marketplace"); cbn; congruence.
  - intros Hn. now rewrite Hn in Htarget.
  - intros Hn. now rewrite Hn in Hfresh.
  - intros Hn. now rewrite Hn in Hmin.
Qed.

(** X6. A client built on settings that [Settings()] returned reports
    healthy. *)
Theorem validated_settings_are_healthy (env : environ) (s : Settings) :
  Settings_new parse_float parse_int parse_bool field_input extra_inputs env
  = Ok s ->
  is_healthy s = true.
Proof.
  intros H. unfold Settings_new in H.
  apply mbind_ok in H as (u & _ & H).
  apply mbind_ok in H as (a0 & Ha0 & H). apply required_ok in Ha0.
  apply mbind_ok in H as (a & Ha & H).
  apply as_validation_ok, validate_amazon_credentials_ok in Ha as (-> & Ha & _).
  apply mbind_ok in H as (b0 & Hb0 & H). apply required_ok in Hb0.
  apply mbind_ok in H as (b & Hb & H).
  apply as_validation_ok, validate_amazon_credentials_ok in Hb as (-> & Hb & _).
  apply mbind_ok in H as (c0 & Hc0 & H). apply required_ok in Hc0.
  apply mbind_ok in H as (c & Hc' & H).
  apply as_validation_ok, validate_amazon_credentials_ok in Hc' as (-> & Hc' & _).
  repeat (apply mbind_ok in H as (? & _ & H)).
  injection H as <-. unfold is_healthy. cbn.
  apply String.eqb_neq in Ha, Hb, Hc'. now rewrite Ha, Hb, Hc'.
Qed.

End SettingsReadFacts.

Lemma settings_read_from_environment_witness :
  target_deal_count
    (mkSettings "your_access_key_here" "your_secret_key_here"
       "your_partner_tag_here" "CA" 1%Q 1%Q 3%Q 3 30%Q 120 20 24 10
       "production" "INFO" false) = 120.
Proof.
  refine (proj1 (proj2 (proj2 (proj2 (proj2 (proj2 (proj2 (proj2 (proj2
            (settings_read_from_environment fixture_parse_float
               fixture_parse_int fixture_parse_bool fixture_field_input
               fixture_extra_inputs
               {[ "AMZ_ACCESS_KEY" := "your_access_key_here";
                  "AMZ_SECRET_KEY" := "your_secret_key_here";
                  "AMZ_PARTNER_TAG" := "your_partner_tag_here";
                  "APP_ENV" := "production" ]}
               _ _))))))))) _).
  - vm_compute. reflexivity.
  - vm_compute. reflexivity.
Defined.

Lemma validated_settings_are_healthy_witness :
  is_healthy
    (mkSettings "your_access_key_here" "your_secret_key_here"
       "your_partner_tag_here" "CA" 1%Q 1%Q 3%Q 3 30%Q 120 20 24 10
       "production" "INFO" false) = true.
Proof.
  apply (validated_settings_are_healthy fixture_parse_float fixture_parse_int
           fixture_parse_bool fixture_field_input fixture_extra_inputs
           {[ "AMZ_ACCESS_KEY" := "your_access_key_here";
              "AMZ_SECRET_KEY" := "your_secret_key_here";
              "AMZ_PARTNER_TAG" := "your_partner_tag_here";
              "APP_ENV" := "production" ]}).
  vm_compute. reflexivity.
Defined.

(** ** The success rate of a session *)

Lemma success_rate_bounds (ss : ScrapingSession) :
  0 <= total_products_successful ss <= total_products_attempted ss ->
  (0 <= success_rate ss)%Q /\ (success_rate ss <= 100)%Q.
Proof.
  intros [H0 H1]. unfold success_rate.
  destruct (Z.eqb_spec (total_products_attempted ss) 0) as [Hz|Hnz].
  - split; [apply Qle_refl|discriminate].
  - assert (Ha : (0 < inject_Z (total_products_attempted ss))%Q).
    { change 0%Q with (inject_Z 0). rewrite <- Zlt_Qlt. lia. }
    assert (Hs : (0 <= inject_Z (total_products_successful ss))%Q).
    { change 0%Q with (inject_Z 0). now rewrite <- Zle_Qle. }
    assert (Hsa : (inject_Z (total_products_successful ss)
                   <= inject_Z (total_products_attempted ss))%Q)
      by now rewrite <- Zle_Qle.
    assert (Hlo : (0 <= inject_Z (total_products_successful ss)
                        / inject_Z (total_products_attempted ss))%Q)
      by (apply Qle_shift_div_l; [exact Ha|lra]).
    assert (Hhi : (inject_Z (total_products_successful ss)
                   / inject_Z (total_products_attempted ss) <= 1)%Q)
      by (apply Qle_shift_div_r; [exact Ha|lra]).
    split; lra.
Qed.

(** ** Counters and results of the resolution loop *)

Section ResolutionLoopFacts.
Variable World : Type.
Variable paapi_get_product_info :
  string -> World -> result (option AmazonProduct.t) * World.
Variable scrape_product :
  string -> World -> result (option AmazonProduct.t) * World.
Variable utcnow_isoformat : World -> string.

Let step := resolve_asin World paapi_get_product_info scrape_product
              utcnow_isoformat.

Let advance (n : Z) (before after : Scraper World) : Prop :=
  counters_advance n (session World before) (session World after)
    (stats World before) (stats World after)
    (length (calls World before)) (length (calls World after)).

Lemma resolve_asin_counters (res : results) (self : Scraper World)
    (asin : string) :
  advance 1 self (step (res, self) asin).2.
Proof.
  unfold advance, counters_advance, step, resolve_asin, _try_paapi,
    _try_web_scraping, count_attempt.
  cbn -[is_priced].
  destruct (paapi_get_product_info asin (world World self)) as [r w].
  destruct r as [product|e];
    [destruct (is_priced product) eqn:Hp;
       [destruct product as [p|]; [|discriminate]|]|];
    cbn -[is_priced].
  - rewrite length_app. cbn [length]. repeat split; lia.
  - destruct (scrape_product asin w) as [r' w'].
    destruct r' as [product'|e'];
      [destruct (is_priced product') eqn:Hp';
         [destruct product' as [p'|]; [|discriminate]|]|];
      cbn -[is_priced]; rewrite ?length_app; cbn [length];
      repeat split; lia.
  - destruct (scrape_product asin w) as [r' w'].
    destruct r' as [product'|e'];
      [destruct (is_priced product') eqn:Hp';
         [destruct product' as [p'|]; [|discriminate]|]|];
      cbn -[is_priced]; rewrite ?length_app; cbn [length];
      repeat split; lia.
Qed.

Lemma counters_advance_trans (n m : Z) (a b c : Scraper World) :
  advance n a b -> advance m b c -> advance (n + m) a c.
Proof.
  unfold advance, counters_advance. intros H1 H2.
  destruct H1 as (A1 & A2 & A3 & A4 & A5 & A6 & A7 & A8 & A9 & A10 & A11).
  destruct H2 as (B1 & B2 & B3 & B4 & B5 & B6 & B7 & B8 & B9 & B10 & B11).
  repeat split; lia.
Qed.

Lemma fold_resolve_counters (asins : list string) (res : results)
    (self : Scraper World) :
  advance (Z.of_nat (length asins)) self (fold_left step asins (res, self)).2.
Proof.
  revert res self. induction asins as [|asin asins IH]; intros res self.
  - cbn. unfold advance, counters_advance. repeat split; lia.
  - cbn [fold_left].
    pose proof (resolve_asin_counters res self asin) as H1.
    destruct (step (res, self) asin) as [res1 self1].
    replace (Z.of_nat (length (asin :: asins)))
      with (1 + Z.of_nat (length asins)) by (cbn [length]; lia).
    eapply counters_advance_trans; [exact H1|apply IH].
Qed.

(** X8. After [get_real_product_data] has processed [n] identifiers, the
    attempt, API-call and found counters have each grown by [n]; every
    identifier was counted once as a PAAPI success, a scraping success or
    a skip; the session's success count grew by the two success counts,
    the scraping calls by the identifiers that PAAPI did not resolve, and
    the error log by one line per skip. *)
Theorem get_real_product_data_counters (self : Scraper World)
    (asins : list string) :
  let after := (get_real_product_data World paapi_get_product_info
                  scrape_product utcnow_isoformat self asins).2 in
  counters_advance (Z.of_nat (length asins))
    (session World self) (session World after)
    (stats World self) (stats World after)
    (length (calls World self)) (length (calls World after)).
Proof. cbn zeta. unfold get_real_product_data. apply fold_resolve_counters. Qed.

(** What one iteration stores: a priced product or [None], under the
    identifier. *)
Lemma resolve_asin_result (res : results) (self : Scraper World)
    (asin : string) :
  exists v, (step (res, self) asin).1 = dict_set asin v res
            /\ (v = None \/ is_priced v = true).
Proof.
  unfold step, resolve_asin, _try_paapi, _try_web_scraping, count_attempt.
  cbn -[is_priced].
  destruct (paapi_get_product_info asin (world World self)) as [r w].
  destruct r as [product|e];
    [destruct (is_priced product) eqn:Hp;
       [destruct product as [p|]; [|discriminate]|]|];
    cbn -[is_priced].
  - exists (Some p). auto.
  - destruct (scrape_product asin w) as [r' w'].
    destruct r' as [product'|e'];
      [destruct (is_priced product') eqn:Hp';
         [destruct product' as [p'|]; [|discriminate]|]|];
      cbn -[is_priced]; eauto.
  - destruct (scrape_product asin w) as [r' w'].
    destruct r' as [product'|e'];
      [destruct (is_priced product') eqn:Hp';
         [destruct product' as [p'|]; [|discriminate]|]|];
      cbn -[is_priced]; eauto.
Qed.

Lemma fold_resolve_results (asins : list string) (res : results)
    (self : Scraper World) :
  let out := (fold_left step asins (res, self)).1 in
  (NoDup res.*1 -> NoDup out.*1)
  /\ (forall a, a ∈ out.*1 <-> a ∈ res.*1 \/ a ∈ asins)
  /\ ((forall a p, (a, Some p) ∈ res -> is_priced (Some p) = true) ->
      forall a p, (a, Some p) ∈ out -> is_priced (Some p) = true).
Proof.
  revert res self. induction asins as [|asin asins IH]; intros res self.
  - cbn. split; [auto|]. split; [|auto].
    intros a. split; [now left|]. intros [H|H]; [exact H|inversion H].
  - cbn [fold_left].
    destruct (resolve_asin_result res self asin) as (v & Hres & Hv).
    destruct (step (res, self) asin) as [res1 self1]. cbn [fst] in Hres.
    specialize (IH res1 self1). cbn zeta in IH |- *.
    destruct IH as (IH1 & IH2 & IH3). split; [|split].
    + intros Hnd. apply IH1. rewrite Hres. now apply dict_set_NoDup.
    + intros a. rewrite IH2, Hres, dict_set_elem_of_keys, elem_of_cons. tauto.
    + intros Hall. apply IH3. intros a p Hin. rewrite Hres in Hin.
      apply dict_set_elem_of in Hin as [[= -> <-]|Hin]; [|now apply (Hall a)].
      destruct Hv as [Hv|Hv]; [discriminate|exact Hv].
Qed.

(** X9. The dictionary that [get_real_product_data] returns has exactly
    one entry for every distinct identifier it was given, and each entry
    holds either [None] or a product with a present current price > 0:
    no entry is made up. *)
Theorem get_real_product_data_results (self : Scraper World)
    (asins : list string) :
  let res := (get_real_product_data World paapi_get_product_info
                scrape_product utcnow_isoformat self asins).1 in
  NoDup res.*1
  /\ (forall a, a ∈ res.*1 <-> a ∈ asins)
  /\ (forall a p, (a, Some p) ∈ res ->
        exists c, AmazonProduct.current_price p = Some c /\ (0 < c)%Q).
Proof.
  cbn zeta. unfold get_real_product_data.
  pose proof (fold_resolve_results asins [] self) as (H1 & H2 & H3).
  cbn zeta in *. fold step. split; [|split].
  - apply H1. constructor.
  - intros a. rewrite H2. split; [|now right].
    intros [H|H]; [inversion H|exact H].
  - intros a p Hin.
    assert (Hp : is_priced (Some p) = true).
    { apply (H3 (fun a' p' Hin' =>
                   match proj1 (elem_of_nil _) Hin' with end) a p Hin). }
    apply is_priced_spec in Hp as (p' & c & [= <-] & Hc & Hpos). eauto.
Qed.

(** X10. A session whose success count does not exceed its attempt count
    keeps that through [get_real_product_data], and its success rate then
    lies between 0 and 100; it is 0 when nothing was attempted. *)
Theorem get_real_product_data_success_rate (self : Scraper World)
    (asins : list string) :
  0 <= total_products_successful (session World self)
       <= total_products_attempted (session World self) ->
  let after := session World
                 (get_real_product_data World paapi_get_product_info
                    scrape_product utcnow_isoformat self asins).2 in
  0 <= total_products_successful after <= total_products_attempted after
  /\ (0 <= success_rate after)%Q /\ (success_rate after <= 100)%Q
  /\ (total_products_attempted after = 0 -> success_rate after = 0%Q).
Proof.
  intros Hself. cbn zeta.
  pose proof (fold_resolve_counters asins [] self
              : advance _ self
                  (get_real_product_data World paapi_get_product_info
                     scrape_product utcnow_isoformat self asins).2) as Hadv.
  unfold advance, counters_advance in Hadv. cbn zeta in Hadv.
  destruct Hadv as (A1 & _ & _ & A4 & A5 & A6 & A7 & A8 & _).
  match goal with
  | |- 0 <= total_products_successful ?after <= _ /\ _ =>
    assert (Hafter : 0 <= total_products_successful after
                          <= total_products_attempted after) by lia
  end.
  split; [exact Hafter|].
  pose proof (success_rate_bounds _ Hafter) as [H0 H100].
  split; [exact H0|]. split; [exact H100|].
  intros Hz. unfold success_rate. now rewrite Hz.
Qed.
End ResolutionLoopFacts.

Lemma get_real_product_data_success_rate_witness :
  (success_rate
     (session unit
        (get_real_product_data unit fixture_paapi fixture_scraper
           (fun _ => "2024-01-15T10:30:00") fixture_scraper_state
           ["B08N5WRWNW"; "B07QR73T66"]).2) <= 100)%Q.
Proof.
  apply (get_real_product_data_success_rate unit fixture_paapi fixture_scraper
           (fun _ => "2024-01-15T10:30:00") fixture_scraper_state
           ["B08N5WRWNW"; "B07QR73T66"]).
  cbn. lia.
Defined.

(** ** Categories *)

Example categorize_post_test_titles :
  map _categorize_post
    ["Apple iPhone 13"; "Kitchen Knife Set"; "Nike Running Shoes";
     "Harry Potter Book"; "LEGO Building Set"; "Skincare Moisturizer";
     "Yoga Mat"; "Random Deal"]
  = ["Electronics"; "Home & Garden"; "Clothing"; "Books"; "General";
     "Health & Beauty"; "General"; "General"].
Proof. reflexivity. Qed.

Lemma find_first {A} (f : A -> bool) (l1 : list A) (x : A) (l2 : list A) :
  (forall y, y ∈ l1 -> f y = false) -> f x = true ->
  List.find f (l1 ++ x :: l2) = Some x.
Proof.
  intros Hl1 Hx. induction l1 as [|y l1 IH]; cbn.
  - now rewrite Hx.
  - rewrite (Hl1 y) by (apply elem_of_cons; now left).
    apply IH. intros z Hz. apply Hl1. apply elem_of_cons. now right.
Qed.

(** X11. [_categorize_post] answers with one of the seven category names
    or [General]. It answers with the first category, in the order of the
    dictionary, one of whose keywords occurs in the lower-cased title, and
    with [General] when no keyword of any category occurs. For an ASCII
    title the answer does not depend on the case of the title. *)
Theorem categorize_post_spec (title : string) :
  (_categorize_post title ∈ "General" :: categories.*1)
  /\ (forall earlier category keywords later keyword,
        categories = earlier ++ (category, keywords) :: later ->
        keyword ∈ keywords ->
        py_contains keyword (py_lower title) = true ->
        (forall entry, entry ∈ earlier ->
                       any_keyword (py_lower title) entry.2 = false) ->
        _categorize_post title = category)
  /\ ((forall category keywords keyword,
          (category, keywords) ∈ categories -> keyword ∈ keywords ->
          py_contains keyword (py_lower title) = false) ->
      _categorize_post title = "General")
  /\ (py_isascii title = true ->
      _categorize_post (py_upper title) = _categorize_post title).
Proof.
  unfold _categorize_post. cbn zeta. split; [|split; [|split]].
  - destruct (List.find _ categories) as [[category keywords]|] eqn:Hf.
    + apply find_some in Hf as [Hin _]. apply elem_of_cons. right.
      apply list_elem_of_fmap. exists (category, keywords). split; [reflexivity|].
      now apply list_elem_of_In.
    + apply elem_of_cons. now left.
  - intros earlier category keywords later keyword Hcat Hin Hc Hearlier.
    rewrite Hcat.
    rewrite (find_first _ earlier (category, keywords) later);
      [reflexivity|exact Hearlier|].
    cbn. unfold any_keyword. apply existsb_exists.
    exists keyword. split; [now apply list_elem_of_In|exact Hc].
  - intros Hnone.
    destruct (List.find _ categories) as [[category keywords]|] eqn:Hf;
      [|reflexivity].
    apply find_some in Hf as [Hin Hany]. cbn in Hany. unfold any_keyword in Hany.
    apply existsb_exists in Hany as (keyword & Hk & Hc).
    rewrite (Hnone category keywords keyword) in Hc; [discriminate| |].
    + now apply list_elem_of_In.
    + now apply list_elem_of_In.
  - intros _. now rewrite py_lower_upper.
Qed.

(** ** What the factory puts into a deal *)

Section FactoryFieldFacts.
Variable HttpUrl : string -> option string.

(** The deal that [from_amazon_product] returns, field by field. *)
Lemma from_amazon_product_inv (clock : Clock) (p : AmazonProduct.t)
    (partner_tag : string) (ctx : option SavingsGuruPost.t) (d : Deal.t) :
  from_amazon_product HttpUrl clock p partner_tag ctx
  = Ok (Some d) ->
  exists post c img affiliate description,
    ctx = Some post
    /\ AmazonProduct.current_price p = Some c /\ (0 < c)%Q
    /\ AmazonProduct.image_url p = Some img
    /\ HttpUrl (AmazonProduct.to_affiliate_url p partner_tag) = Some affiliate
    /\ post_description p ctx = Ok description
    /\ d = Deal.mk
             ("deal_" +:+ AmazonProduct.asin p +:+ "_" +:+ strftime_Ymd clock)
             (AmazonProduct.title p) img (float_of_decimal c)
             (if decimal_truthy (AmazonProduct.list_price p)
              then option_map float_of_decimal (AmazonProduct.list_price p)
              else None)
             (AmazonProduct.discount_percent p)
             (SavingsGuruPost.category post) description affiliate
             (match AmazonProduct.discount_percent p with
              | Some q => 40 <=? q
              | None => false
              end)
             (isoformat clock) (AmazonProduct.data_source p)
             (AmazonProduct.asin p)
    /\ float_ge_int (Deal.price d) 0 = true.
Proof.
  unfold from_amazon_product.
  destruct (AmazonProduct.current_price p) as [c|] eqn:Hc; [|discriminate].
  destruct (Qeq_bool c 0 || Qle_bool c 0) eqn:Hg; [discriminate|].
  apply orb_false_iff in Hg as [_ Hle]. apply Qle_bool_false in Hle.
  destruct ctx as [post|]; [|discriminate].
  destruct (post_description p (Some post)) as [description|] eqn:Hdesc;
    [|discriminate].
  cbn [mbind result_bind rbind].
  destruct (Deal_new _ _ _) as [d'|e] eqn:Hnew;
    cbn [mbind result_bind rbind try_except]; [|discriminate].
  intros [= <-].
  apply Deal_new_inv in Hnew as (img & affiliate & Himg & Haff & -> & Hge & _).
  cbn in Himg, Haff, Hge.
  exists post, c, img, affiliate, description.
  unfold generate_id. cbn. auto 10.
Qed.

(** X12. A deal comes out of [Deal.from_amazon_product] only when a post
    was passed, and then takes its category from the post and its
    description from the post or, when the post has none, from the title;
    its id is [deal_<asin>_<date>], its referral URL is the URL that
    [HttpUrl] stores for the text
    [https://www.amazon.ca/dp/<asin>?tag=<partner tag>], and its
    identifier, title, image, discount and source are those of the
    product. *)
Theorem from_amazon_product_fields (clock : Clock) (p : AmazonProduct.t)
    (partner_tag : string) (ctx : option SavingsGuruPost.t) (d : Deal.t) :
  from_amazon_product HttpUrl clock p partner_tag ctx
  = Ok (Some d) ->
  exists post,
    ctx = Some post
    /\ Deal.category d = SavingsGuruPost.category post
    /\ Deal.description d
       = match SavingsGuruPost.description post with
         | Some s => if String.eqb s "" then "Great deal on " +:+ AmazonProduct.title p
                     else s
         | None => "Great deal on " +:+ AmazonProduct.title p
         end
    /\ Deal.id d = "deal_" +:+ AmazonProduct.asin p +:+ "_" +:+ strftime_Ymd clock
    /\ HttpUrl ("https://www.amazon.ca/dp/" +:+ AmazonProduct.asin p
                +:+ "?tag=" +:+ partner_tag)
       = Some (Deal.affiliate_url d)
    /\ Deal.asin d = AmazonProduct.asin p
    /\ Deal.title d = AmazonProduct.title p
    /\ AmazonProduct.image_url p = Some (Deal.image_url d)
    /\ Deal.discount_percent d = AmazonProduct.discount_percent p
    /\ Deal.data_source d = AmazonProduct.data_source p
    /\ Deal.date_added d = isoformat clock.
Proof.
  intros H.
  apply from_amazon_product_inv in H
    as (post & c & img & affiliate & description & -> & Hc & Hpos & Himg
        & Haff & Hdesc & -> & _).
  exists post. cbn. split; [reflexivity|]. split; [reflexivity|].
  split.
  { unfold post_description, default_description in Hdesc.
    destruct (SavingsGuruPost.description post) as [s|];
      [destruct (String.eqb s "")|]; congruence. }
  auto 10.
Qed.
End FactoryFieldFacts.

Lemma from_amazon_product_fields_witness :
  exists post,
    Some fixture_post = Some post
    /\ Deal.category fixture_factory_deal = SavingsGuruPost.category post.
Proof.
  assert (H : from_amazon_product accept_all_urls fixture_clock fixture_product
                "test-tag-20" (Some fixture_post)
              = Ok (Some fixture_factory_deal)) by (vm_compute; reflexivity).
  destruct (from_amazon_product_fields accept_all_urls
              fixture_clock fixture_product "test-tag-20" (Some fixture_post)
              _ H) as (post & H1 & H2 & _).
  exists post. split; [exact H1|exact H2].
Defined.

(** A partner tag with a space: the text built for the referral URL is
    not the URL stored when [HttpUrl] percent-encodes. *)
Example deal_affiliate_url_encoded :
  AmazonProduct.to_affiliate_url fixture_product "my tag"
  = "https://www.amazon.ca/dp/B08N5WRWNW?tag=my tag"
  /\ match from_amazon_product fixture_encoding_urls fixture_clock
             fixture_product "my tag" (Some fixture_post) with
     | Ok (Some d) => Deal.affiliate_url d
     | _ => ""
     end
     = "https://www.amazon.ca/dp/B08N5WRWNW?tag=my%20tag".
Proof. split; vm_compute; reflexivity. Qed.

(** ** Creating deals from resolved products *)

Lemma fold_dict_set_get {V} (a : string) (v : V) (keys : list string)
    (d : list (string * V)) :
  assoc_get a (fold_left (fun d k => dict_set k v d) keys d)
  = if bool_decide (a ∈ keys) then Some v else assoc_get a d.
Proof.
  revert d. induction keys as [|k keys IH]; intros d; cbn [fold_left].
  - rewrite bool_decide_eq_false_2; [reflexivity|]. intros H. inversion H.
  - rewrite IH. case_bool_decide as Hin.
    + rewrite bool_decide_eq_true_2; [reflexivity|].
      apply elem_of_cons. now right.
    + rewrite assoc_get_dict_set.
      destruct (String.eqb_spec k a) as [->|Hne].
      * rewrite bool_decide_eq_true_2; [reflexivity|].
        apply elem_of_cons. now left.
      * rewrite bool_decide_eq_false_2; [reflexivity|].
        intros [->|H]%elem_of_cons; [now apply Hne|now apply Hin].
Qed.

(** The post that [post_lookup] holds for an identifier lists it; an
    identifier has a post exactly when some post lists it. *)
Lemma post_lookup_spec (posts : list SavingsGuruPost.t) (a : string) :
  (forall post, assoc_get a (post_lookup posts) = Some post ->
                post ∈ posts /\ a ∈ SavingsGuruPost.extracted_asins post)
  /\ (assoc_get a (post_lookup posts) = None <->
      forall post, post ∈ posts -> a ∉ SavingsGuruPost.extracted_asins post).
Proof.
  unfold post_lookup.
  assert (H : forall d,
    let out := fold_left
                 (fun d post =>
                    fold_left (fun d asin => dict_set asin post d)
                      (SavingsGuruPost.extracted_asins post) d) posts d in
    (forall post, assoc_get a out = Some post ->
                  assoc_get a d = Some post
                  \/ post ∈ posts /\ a ∈ SavingsGuruPost.extracted_asins post)
    /\ (assoc_get a out = None <->
        assoc_get a d = None
        /\ forall post, post ∈ posts ->
                        a ∉ SavingsGuruPost.extracted_asins post)).
  { induction posts as [|x posts IH]; intros d; cbn [fold_left].
    - cbn zeta. split; [auto|]. split; [|tauto].
      intros Hn. split; [exact Hn|]. intros post Hin. inversion Hin.
    - specialize (IH (fold_left (fun d asin => dict_set asin x d)
                        (SavingsGuruPost.extracted_asins x) d)).
      cbn zeta in IH |- *. destruct IH as [IH1 IH2].
      rewrite fold_dict_set_get in IH1, IH2. split.
      + intros post Hp. destruct (IH1 post Hp) as [Hold|[Hin Ha]].
        * case_bool_decide as Hx.
          -- injection Hold as <-. right. split; [|exact Hx].
             apply elem_of_cons. now left.
          -- now left.
        * right. split; [|exact Ha]. apply elem_of_cons. now right.
      + rewrite IH2. case_bool_decide as Hx.
        * split; [intros [[=] _]|].
          intros [_ Hall]. exfalso. apply (Hall x); [|exact Hx].
          apply elem_of_cons. now left.
        * split.
          -- intros [Hd Hall]. split; [exact Hd|].
             intros post [->|Hin]%elem_of_cons; [exact Hx|now apply Hall].
          -- intros [Hd Hall]. split; [exact Hd|].
             intros post Hin. apply Hall. apply elem_of_cons. now right. }
  specialize (H []). cbn zeta in H. destruct H as [H1 H2]. split.
  - intros post Hp. destruct (H1 post Hp) as [Hnil|Hok]; [discriminate|exact Hok].
  - rewrite H2. cbn. tauto.
Qed.

Section CreateDealsFacts.
Variable HttpUrl : string -> option string.
Variable clock_at : string -> Clock.

Let factory := from_amazon_product HttpUrl.
Let loop := create_deals_loop HttpUrl clock_at.

(** The factory raises exactly for a priced product without a post. *)
Lemma from_amazon_product_raise_iff (clock : Clock) (p : AmazonProduct.t)
    (partner_tag : string) (ctx : option SavingsGuruPost.t) :
  (exists e, factory clock p partner_tag ctx = Raise e)
  <-> is_priced (Some p) = true /\ ctx = None.
Proof.
  unfold factory, from_amazon_product, is_priced, Qltb.
  destruct (AmazonProduct.current_price p) as [c|].
  - destruct (Qeq_bool c 0); cbn [orb negb andb].
    + split; [intros [e [=]]|intros [[=] _]].
    + destruct (Qle_bool c 0); cbn [negb].
      * split; [intros [e [=]]|intros [[=] _]].
      * destruct ctx as [post|]; cbn.
        -- split; [|intros [_ [=]]].
           destruct (SavingsGuruPost.description post) as [s|];
             [destruct (String.eqb s "")|]; cbn; intros [e [=]].
        -- split; [auto|]. intros _. now exists AttributeError.
  - split; [intros [e [=]]|intros [[=] _]].
Qed.

Lemma from_amazon_product_raise_kind (clock : Clock) (p : AmazonProduct.t)
    (partner_tag : string) (ctx : option SavingsGuruPost.t) (e : exn) :
  factory clock p partner_tag ctx = Raise e -> e = AttributeError.
Proof.
  unfold factory, from_amazon_product.
  destruct (AmazonProduct.current_price p) as [c|]; [|discriminate].
  destruct (Qeq_bool c 0 || Qle_bool c 0); [discriminate|].
  destruct ctx as [post|]; cbn; [|congruence].
  destruct (SavingsGuruPost.description post) as [s|];
    [destruct (String.eqb s "")|]; cbn; discriminate.
Qed.

Lemma create_deals_loop_raise (partner_tag : string)
    (lookup : list (string * SavingsGuruPost.t))
    (items : list (string * option AmazonProduct.t)) (deals : list Deal.t) :
  ((exists e, loop partner_tag lookup items deals = Raise e)
   <-> exists a p, (a, Some p) ∈ items /\ is_priced (Some p) = true
                   /\ assoc_get a lookup = None)
  /\ (forall e, loop partner_tag lookup items deals = Raise e ->
                e = AttributeError).
Proof.
  revert deals. induction items as [|[a [p|]] items IH]; intros deals;
    cbn [loop create_deals_loop].
  - split; [|discriminate]. split; [intros [e [=]]|].
    intros (a & p & Hin & _). inversion Hin.
  - fold loop. fold factory.
    destruct (factory (clock_at a) p partner_tag (assoc_get a lookup))
      as [deal|e] eqn:Hf; cbn.
    + assert (Hno : ~ (is_priced (Some p) = true /\ assoc_get a lookup = None)).
      { intros H.
        apply (from_amazon_product_raise_iff (clock_at a) p partner_tag
                 (assoc_get a lookup)) in H as [e He].
        unfold factory in Hf. unfold factory in He. congruence. }
      destruct (IH (match deal with Some d => deals ++ [d] | None => deals end))
        as [IH1 IH2].
      split; [|exact IH2]. rewrite IH1. split.
      * intros (a' & p' & Hin & Hp & Hl). exists a', p'.
        split; [apply elem_of_cons; now right|auto].
      * intros (a' & p' & [[= -> ->]|Hin]%elem_of_cons & Hp & Hl).
        -- exfalso. now apply Hno.
        -- eauto.
    + split.
      * split; [|intros _; now exists e].
        intros _. exists a, p. split; [apply elem_of_cons; now left|].
        apply (from_amazon_product_raise_iff (clock_at a) p partner_tag).
        now exists e.
      * intros e' [= <-]. now apply from_amazon_product_raise_kind in Hf.
  - fold loop. destruct (IH deals) as [IH1 IH2]. split; [|exact IH2].
    rewrite IH1. split.
    + intros (a' & p' & Hin & Hp & Hl). exists a', p'.
      split; [apply elem_of_cons; now right|auto].
    + intros (a' & p' & [[=]|Hin]%elem_of_cons & Hp & Hl). eauto.
Qed.

(** X13. [create_deals_from_products] raises, with [AttributeError],
    exactly when some identifier with a priced product appears in no
    post; when every identifier with a product is listed by a post, as in
    a run, it returns. *)
Theorem create_deals_from_products_raises (settings : Settings)
    (products : list (string * option AmazonProduct.t))
    (posts : list SavingsGuruPost.t) :
  let run := create_deals_from_products HttpUrl
               clock_at settings products posts in
  ((exists e, run = Raise e)
   <-> exists a p, (a, Some p) ∈ products /\ is_priced (Some p) = true
                   /\ forall post, post ∈ posts ->
                                   a ∉ SavingsGuruPost.extracted_asins post)
  /\ (forall e, run = Raise e -> e = AttributeError)
  /\ ((forall a p, (a, Some p) ∈ products ->
         exists post, post ∈ posts /\ a ∈ SavingsGuruPost.extracted_asins post) ->
      exists deals, run = Ok deals).
Proof.
  cbn zeta. unfold create_deals_from_products. fold loop.
  destruct (create_deals_loop_raise (amz_partner_tag settings)
              (post_lookup posts) products []) as [H1 H2].
  assert (Hiff : (exists e, loop (amz_partner_tag settings) (post_lookup posts)
                              products [] = Raise e)
                 <-> exists a p, (a, Some p) ∈ products
                     /\ is_priced (Some p) = true
                     /\ forall post, post ∈ posts ->
                          a ∉ SavingsGuruPost.extracted_asins post).
  { rewrite H1. split; intros (a & p & Hin & Hp & Hl); exists a, p;
      (split; [exact Hin|split; [exact Hp|]]);
      now apply (post_lookup_spec posts a). }
  split; [exact Hiff|]. split; [exact H2|].
  intros Hall.
  destruct (loop (amz_partner_tag settings) (post_lookup posts) products [])
    as [deals|e] eqn:Hrun; [now exists deals|].
  exfalso. destruct (proj1 Hiff (ex_intro _ e eq_refl)) as (a & p & Hin & _ & Hno).
  destruct (Hall a p Hin) as (post & Hpost & Ha). now apply (Hno post).
Qed.
End CreateDealsFacts.

(** A priced product under an identifier that no post lists. *)
Example create_deals_from_products_no_post :
  create_deals_from_products accept_all_urls (fun _ => fixture_clock)
    fixture_settings [("B08N5WRWNW", Some fixture_product)] []
  = Raise AttributeError.
Proof. reflexivity. Qed.

Example create_deals_from_products_fixture :
  create_deals_from_products accept_all_urls (fun _ => fixture_clock)
    fixture_settings [("B08N5WRWNW", Some fixture_product); ("B07QR73T66", None)]
    [fixture_post]
  = Ok [fixture_factory_deal].
Proof. vm_compute. reflexivity. Qed.

Section CreateDealsSound.
Variable HttpUrl : string -> option string.
Variable clock_at : string -> Clock.

Let loop := create_deals_loop HttpUrl clock_at.

(** A deal made for the entry [(a, Some p)] of [items], with the post
    that [lookup] holds for [a]. *)
Let made_from (lookup : list (string * SavingsGuruPost.t))
    (items : list (string * option AmazonProduct.t)) (d : Deal.t) : Prop :=
  float_ge_int (Deal.price d) 0 = true
  /\ exists a p post c,
       (a, Some p) ∈ items /\ assoc_get a lookup = Some post
       /\ AmazonProduct.current_price p = Some c /\ (0 < c)%Q
       /\ Deal.price d = float_of_decimal c
       /\ Deal.asin d = AmazonProduct.asin p
       /\ Deal.category d = SavingsGuruPost.category post
       /\ Deal.data_source d = AmazonProduct.data_source p.

Lemma create_deals_loop_sound (partner_tag : string)
    (lookup : list (string * SavingsGuruPost.t))
    (items : list (string * option AmazonProduct.t))
    (deals out : list Deal.t) :
  loop partner_tag lookup items deals = Ok out ->
  exists made, out = deals ++ made
               /\ (length made <= length items)%nat
               /\ Forall (made_from lookup items) made.
Proof.
  revert deals. induction items as [|[a [p|]] items IH]; intros deals;
    cbn [loop create_deals_loop].
  - intros [= <-]. exists []. rewrite app_nil_r. repeat split; auto.
  - fold loop.
    destruct (from_amazon_product HttpUrl (clock_at a) p
                partner_tag (assoc_get a lookup)) as [deal|e] eqn:Hf;
      cbn; [|discriminate].
    intros Hrest. apply IH in Hrest as (made & -> & Hlen & Hall).
    assert (Hweak : Forall (made_from lookup ((a, Some p) :: items)) made).
    { eapply Forall_impl; [exact Hall|].
      intros d (Hpos & a' & p' & post & c & Hin & Hrest).
      split; [exact Hpos|]. exists a', p', post, c.
      split; [apply elem_of_cons; now right|exact Hrest]. }
    destruct deal as [d|].
    + exists (d :: made). split; [now rewrite <- app_assoc|].
      split; [cbn; lia|]. constructor; [|exact Hweak].
      apply from_amazon_product_inv in Hf
        as (post & c & img & affiliate & description & Hctx & Hc & Hpos
            & _ & _ & _ & -> & Hge).
      split; [exact Hge|].
      exists a, p, post, c. cbn. split; [apply elem_of_cons; now left|auto 10].
    + exists made. split; [reflexivity|]. split; [cbn; lia|exact Hweak].
  - fold loop. intros Hrest. apply IH in Hrest as (made & -> & Hlen & Hall).
    exists made. split; [reflexivity|]. split; [cbn; lia|].
    eapply Forall_impl; [exact Hall|].
    intros d (Hpos & a' & p' & post & c & Hin & Hrest).
    split; [exact Hpos|]. exists a', p', post, c.
    split; [apply elem_of_cons; now right|exact Hrest].
Qed.

(** X14. The deals that [create_deals_from_products] returns are at most
    as many as the resolved entries; each was made from an entry that
    holds a product with a current price > 0, has the float of that price
    as its price, which is not negative, and has the identifier and
    source of that product and the category of a post that lists the
    entry's identifier. The price of the deal is positive when the
    current price is at least 2^-1074, the least positive [float]. *)
Theorem create_deals_from_products_sound (settings : Settings)
    (products : list (string * option AmazonProduct.t))
    (posts : list SavingsGuruPost.t) (deals : list Deal.t) :
  create_deals_from_products HttpUrl clock_at
    settings products posts = Ok deals ->
  (length deals <= length products)%nat
  /\ forall d, d ∈ deals ->
       float_ge_int (Deal.price d) 0 = true
       /\ exists a p post c,
            (a, Some p) ∈ products
            /\ post ∈ posts /\ a ∈ SavingsGuruPost.extracted_asins post
            /\ AmazonProduct.current_price p = Some c /\ (0 < c)%Q
            /\ Deal.price d = float_of_decimal c
            /\ Deal.asin d = AmazonProduct.asin p
            /\ Deal.category d = SavingsGuruPost.category post
            /\ Deal.data_source d = AmazonProduct.data_source p
            /\ ((Qpow 2 (-1074) <= c)%Q ->
                float_gt_int (Deal.price d) 0 = true).
Proof.
  unfold create_deals_from_products. fold loop. intros Hrun.
  apply create_deals_loop_sound in Hrun as (made & -> & Hlen & Hall).
  cbn [app]. split; [exact Hlen|].
  intros d Hd. rewrite Forall_forall in Hall.
  destruct (Hall d Hd) as (Hpos & a & p & post & c & Hin & Hlook & Hrest).
  split; [exact Hpos|]. exists a, p, post, c.
  destruct (proj1 (post_lookup_spec posts a) post Hlook) as [Hpost Ha].
  destruct Hrest as (Hc & Hc0 & Hprice & Hasin & Hcat & Hsrc).
  repeat (split; [assumption|]).
  intros Hlo. rewrite Hprice. now apply binary64_positive.
Qed.
End CreateDealsSound.

Lemma create_deals_from_products_sound_witness :
  (length [fixture_factory_deal]
   <= length [("B08N5WRWNW", Some fixture_product); ("B07QR73T66", None)])%nat.
Proof.
  assert (H : create_deals_from_products accept_all_urls
                (fun _ => fixture_clock) fixture_settings
                [("B08N5WRWNW", Some fixture_product); ("B07QR73T66", None)]
                [fixture_post]
              = Ok [fixture_factory_deal]) by (vm_compute; reflexivity).
  exact (proj1 (create_deals_from_products_sound accept_all_urls
                  (fun _ => fixture_clock) fixture_settings
                  [("B08N5WRWNW", Some fixture_product); ("B07QR73T66", None)]
                  [fixture_post] [fixture_factory_deal] H)).
Defined.

(** ** Sorting by discount, and the featured pass run again *)

Section SortedMore.
Context {A : Type}.
Variable lt : A -> A -> bool.

Lemma insert_sorted_fmap (f : A -> A) (x : A) (l : list A) :
  (forall a b, lt (f a) (f b) = lt a b) ->
  insert_sorted lt (f x) (f <$> l) = f <$> insert_sorted lt x l.
Proof.
  intros Hf. induction l as [|y l IH]; cbn; [reflexivity|].
  rewrite Hf. destruct (lt y x); cbn; [now rewrite IH|reflexivity].
Qed.

Lemma py_sorted_fmap (f : A -> A) (l : list A) :
  (forall a b, lt (f a) (f b) = lt a b) ->
  py_sorted lt (f <$> l) = f <$> py_sorted lt l.
Proof.
  intros Hf. induction l as [|x l IH]; [reflexivity|].
  change (py_sorted lt (f <$> x :: l))
    with (insert_sorted lt (f x) (py_sorted lt (f <$> l))).
  rewrite IH. now apply insert_sorted_fmap.
Qed.

(** A list that is already in order is returned as it is. *)
Lemma py_sorted_fixed (l : list A) :
  StronglySorted (fun a b => lt b a = false) l -> py_sorted lt l = l.
Proof.
  induction 1 as [|x l Hs IH Hx]; [reflexivity|].
  change (py_sorted lt (x :: l)) with (insert_sorted lt x (py_sorted lt l)).
  rewrite IH. destruct l as [|y l]; [reflexivity|]. cbn.
  apply Forall_inv in Hx. now rewrite Hx.
Qed.
End SortedMore.

Lemma sort_deals_by_discount_sorted (deals : list Deal.t) :
  StronglySorted (fun a b => (discount_or_0 a <? discount_or_0 b) = false)
    (_sort_deals_by_discount deals).
Proof.
  unfold _sort_deals_by_discount.
  apply (py_sorted_sorted (fun a b => discount_or_0 b <? discount_or_0 a)).
  - intros a b H. apply Z.ltb_lt in H. apply Z.ltb_ge. lia.
  - intros a b c H1 H2. apply Z.ltb_ge in H1, H2. apply Z.ltb_ge. lia.
Qed.

(** X15. [_sort_deals_by_discount] returns the same deals, by falling
    discount percentage (an absent one counting as 0), deals of equal
    discount in the order they came in; a list that is already in that
    order is returned as it is. *)
Theorem sort_deals_by_discount_spec (deals : list Deal.t) :
  _sort_deals_by_discount deals ≡ₚ deals
  /\ StronglySorted (fun a b => discount_or_0 b <= discount_or_0 a)
       (_sort_deals_by_discount deals)
  /\ (forall k,
        List.filter (fun d => discount_or_0 d =? k) (_sort_deals_by_discount deals)
        = List.filter (fun d => discount_or_0 d =? k) deals)
  /\ (StronglySorted (fun a b => discount_or_0 b <= discount_or_0 a) deals ->
      _sort_deals_by_discount deals = deals).
Proof.
  split; [apply py_sorted_perm|]. split; [|split].
  - eapply StronglySorted_weaken; [|apply sort_deals_by_discount_sorted].
    intros a b H. cbn in H. now apply Z.ltb_ge in H.
  - intros k. unfold _sort_deals_by_discount. apply py_sorted_stable.
    intros a b Ha Hb. apply Z.eqb_eq in Ha, Hb. apply Z.ltb_ge. lia.
  - intros Hs. unfold _sort_deals_by_discount. apply py_sorted_fixed.
    eapply StronglySorted_weaken; [|exact Hs].
    intros a b H. cbn. now apply Z.ltb_ge.
Qed.

Lemma set_featured_unflag_eq (d1 d2 : Deal.t) :
  set_featured false d1 = set_featured false d2 ->
  meets_threshold 0 d1 = meets_threshold 0 d2
  /\ Deal.discount_percent d1 = Deal.discount_percent d2
  /\ forall b, set_featured b d1 = set_featured b d2.
Proof.
  intros H.
  assert (Hset : forall b, set_featured b d1 = set_featured b d2).
  { intros b.
    change (set_featured b (set_featured false d1)
            = set_featured b (set_featured false d2)).
    now rewrite H. }
  assert (Hp : Deal.discount_percent d1 = Deal.discount_percent d2).
  { change (Deal.discount_percent (set_featured false d1)
            = Deal.discount_percent (set_featured false d2)).
    now rewrite H. }
  split; [|split]; [|exact Hp|exact Hset].
  unfold meets_threshold. now rewrite Hp.
Qed.

Lemma mark_loop_ext (thr n : Z) (l1 l2 : list Deal.t) :
  set_featured false <$> l1 = set_featured false <$> l2 ->
  mark_loop thr n l1 = mark_loop thr n l2.
Proof.
  revert n l2. induction l1 as [|d1 l1 IH]; intros n [|d2 l2] H;
    try discriminate H; [reflexivity|].
  rewrite !fmap_cons in H.
  apply (f_equal (fun l => (head l, tail l))) in H. cbn [head tail] in H.
  assert (Hd : set_featured false d1 = set_featured false d2) by congruence.
  assert (Hl : set_featured false <$> l1 = set_featured false <$> l2)
    by congruence.
  clear H.
  destruct (set_featured_unflag_eq d1 d2 Hd) as (_ & Hp & Hset).
  assert (Hm : meets_threshold thr d1 = meets_threshold thr d2).
  { unfold meets_threshold. now rewrite Hp. }
  cbn [mark_loop]. rewrite Hm, !Hset.
  destruct (meets_threshold thr d2 && (n <? 20)); f_equal; now apply IH.
Qed.

Lemma sort_deals_by_discount_unflag (deals : list Deal.t) :
  _sort_deals_by_discount (set_featured false <$> deals)
  = set_featured false <$> _sort_deals_by_discount deals.
Proof. unfold _sort_deals_by_discount. now apply py_sorted_fmap. Qed.

(** X16. [_mark_featured_deals] ignores the [featured] flags that come
    in: two lists that differ only in those flags give the same result;
    and running the pass on its own output changes nothing. *)
Theorem mark_featured_deals_idempotent (deals : list Deal.t) (threshold : Z) :
  (forall deals',
      set_featured false <$> deals' = set_featured false <$> deals ->
      _mark_featured_deals deals' threshold
      = _mark_featured_deals deals threshold)
  /\ _mark_featured_deals (_mark_featured_deals deals threshold) threshold
     = _mark_featured_deals deals threshold.
Proof.
  assert (Hflags : forall l1 l2,
             set_featured false <$> l1 = set_featured false <$> l2 ->
             _mark_featured_deals l1 threshold
             = _mark_featured_deals l2 threshold).
  { intros l1 l2 H. unfold _mark_featured_deals. apply mark_loop_ext.
    now rewrite <- !sort_deals_by_discount_unflag, H. }
  split; [intros deals'; apply Hflags|].
  rewrite (Hflags _ (_sort_deals_by_discount deals)).
  - unfold _mark_featured_deals. f_equal.
    apply (py_sorted_fixed (fun a b => discount_or_0 b <? discount_or_0 a)).
    apply sort_deals_by_discount_sorted.
  - unfold _mark_featured_deals. apply mark_loop_unflagged.
Qed.

Lemma mark_featured_deals_idempotent_witness :
  _mark_featured_deals
    [set_featured true (fixture_deal "B08N5WRWNW" (Some 5) "2024-01-15T09:30:00")]
    40
  = _mark_featured_deals
      [fixture_deal "B08N5WRWNW" (Some 5) "2024-01-15T09:30:00"] 40.
Proof.
  exact (proj1 (mark_featured_deals_idempotent
                  [fixture_deal "B08N5WRWNW" (Some 5) "2024-01-15T09:30:00"] 40)
           _ eq_refl).
Defined.

(** ** The pipeline of the deal manager *)

Lemma deduplicate_nil_iff (E : gset string) (l : list Deal.t) :
  (deduplicate_deals E l).1 = [] <-> forall d, d ∈ l -> Deal.asin d ∈ E.
Proof.
  revert E. induction l as [|x l IH]; intros E.
  - cbn. split; [intros _ d H; inversion H|auto].
  - rewrite deduplicate_cons. case_bool_decide as Hx; cbn.
    + rewrite IH. split.
      * intros H d [->|Hd]%elem_of_cons; auto.
      * intros H d Hd. apply H. apply elem_of_cons. now right.
    + split; [discriminate|]. intros H. exfalso. apply Hx, H.
      apply elem_of_cons. now left.
Qed.

Lemma deduplicate_sublist (E : gset string) (l : list Deal.t) :
  (deduplicate_deals E l).1 `sublist_of` l.
Proof.
  revert E. induction l as [|x l IH]; intros E.
  - cbn. constructor.
  - rewrite deduplicate_cons. case_bool_decide as Hx; cbn.
    + apply sublist_cons, IH.
    + apply sublist_skip, IH.
Qed.

Lemma deduplicate_all_new (E : gset string) (l : list Deal.t) :
  NoDup (Deal.asin <$> l) -> (forall d, d ∈ l -> Deal.asin d ∉ E) ->
  (deduplicate_deals E l).1 = l.
Proof.
  revert E. induction l as [|x l IH]; intros E Hnd Hnew; [reflexivity|].
  rewrite deduplicate_cons. rewrite fmap_cons in Hnd.
  apply NoDup_cons in Hnd as [Hx Hnd].
  case_bool_decide as Hin; cbn.
  - exfalso. apply (Hnew x); [apply elem_of_cons; now left|exact Hin].
  - f_equal. apply IH; [exact Hnd|].
    intros d Hd [H|H]%elem_of_union.
    + apply (Hnew d); [apply elem_of_cons; now right|exact H].
    + apply elem_of_singleton in H. apply Hx. rewrite <- H.
      apply list_elem_of_fmap. now exists d.
Qed.

(** X17. What [deduplicate_deals] hands back is its batch with entries
    left out, order kept. Because the call adds the accepted identifiers
    to [self.existing_asins], a further call on the same manager with
    deals of the same identifiers (the same batch again, say) accepts
    nothing and leaves the set as it is. A batch of pairwise distinct
    identifiers, none of them known, comes back whole. *)
Theorem deduplicate_deals_replay (E : gset string) (batch : list Deal.t) :
  let accepted := (deduplicate_deals E batch).1 in
  let seen := (deduplicate_deals E batch).2 in
  accepted `sublist_of` batch
  /\ (forall again,
         (forall d, d ∈ again -> exists d', d' ∈ batch /\ Deal.asin d' = Deal.asin d) ->
         deduplicate_deals seen again = ([], seen))
  /\ deduplicate_deals seen batch = ([], seen)
  /\ (NoDup (Deal.asin <$> batch) ->
      (forall d, d ∈ batch -> Deal.asin d ∉ E) ->
      accepted = batch).
Proof.
  cbn zeta.
  assert (Hagain : forall again,
             (forall d, d ∈ again ->
                        exists d', d' ∈ batch /\ Deal.asin d' = Deal.asin d) ->
             deduplicate_deals (deduplicate_deals E batch).2 again
             = ([], (deduplicate_deals E batch).2)).
  { intros again Hsame.
    assert (Hin : forall d, d ∈ again ->
                            Deal.asin d ∈ (deduplicate_deals E batch).2).
    { intros d Hd. destruct (Hsame d Hd) as (d' & Hd' & Heq).
      rewrite deduplicate_seen. apply elem_of_union. right.
      apply elem_of_list_to_set, list_elem_of_fmap. exists d'. auto. }
    apply deduplicate_nil_iff in Hin.
    destruct (deduplicate_deals (deduplicate_deals E batch).2 again)
      as [u S'] eqn:Hrun.
    cbn in Hin. subst u. f_equal.
    pose proof (deduplicate_retained (deduplicate_deals E batch).2 again) as Hr.
    rewrite Hrun in Hr. cbn in Hr. rewrite Hr. set_solver. }
  split; [apply deduplicate_sublist|]. split; [exact Hagain|].
  split; [|apply deduplicate_all_new].
  apply Hagain. intros d Hd. now exists d.
Qed.

Lemma deduplicate_deals_replay_witness :
  (deduplicate_deals ∅
     [fixture_deal "B08N5WRWNW" (Some 40) "2024-01-15T09:30:00";
      fixture_deal "B07XJ8C8F5" (Some 10) "2024-01-15T09:30:00"]).1
  = [fixture_deal "B08N5WRWNW" (Some 40) "2024-01-15T09:30:00";
     fixture_deal "B07XJ8C8F5" (Some 10) "2024-01-15T09:30:00"].
Proof.
  apply (deduplicate_deals_replay ∅
           [fixture_deal "B08N5WRWNW" (Some 40) "2024-01-15T09:30:00";
            fixture_deal "B07XJ8C8F5" (Some 10) "2024-01-15T09:30:00"]).
  - cbn. repeat constructor; set_solver.
  - intros d _. set_solver.
Defined.

Section ProcessDealsFacts.
Variable fromisoformat : string -> result Z.

(** The three ways through [process_deals]. *)
Lemma process_deals_cases (E : gset string) (settings : Settings) (utcnow : Z)
    (file : option (list Deal.t)) (new_deals : list Deal.t) :
  let existing := (load_existing_deals E file).1 in
  let seen := (load_existing_deals E file).2 in
  let n := Z.of_nat (length existing) in
  process_deals fromisoformat E settings utcnow file new_deals
  = (_ ← datetime_sub_hours utcnow (deal_freshness_hours settings);
     if forallb (fun d => bool_decide (Deal.asin d ∈ seen)) new_deals
        && ((n <=? target_deal_count settings) || (n =? 0))
     then Ok (existing, get_scraping_stats settings n 0 n)
     else Raise AttributeError).
Proof.
  cbn zeta. unfold process_deals.
  destruct (load_existing_deals E file) as [existing seen]. cbn [fst snd].
  unfold filter_fresh_deals.
  destruct (datetime_sub_hours utcnow (deal_freshness_hours settings))
    as [cutoff|e]; [|reflexivity].
  cbn [mbind result_bind rbind]. rewrite filter_fresh_loop. cbn [app].
  destruct (forallb (fun d => bool_decide (Deal.asin d ∈ seen)) new_deals)
    eqn:Hall.
  - assert (Hnil : (deduplicate_deals seen new_deals).1 = []).
    { apply deduplicate_nil_iff. intros d Hd.
      rewrite forallb_forall in Hall.
      apply list_elem_of_In in Hd. apply Hall in Hd.
      now apply bool_decide_eq_true in Hd. }
    rewrite Hnil. cbn [length andb]. cbn. rewrite app_nil_r.
    unfold manage_deal_count.
    destruct (Z.of_nat (length existing) <=? target_deal_count settings);
      [reflexivity|].
    destruct existing as [|d l]; [|reflexivity].
    cbn. unfold py_slice_to.
    destruct (0 <=? target_deal_count settings); rewrite take_nil; reflexivity.
  - destruct (deduplicate_deals seen new_deals).1 as [|d l] eqn:Hrun;
      [|reflexivity].
    exfalso.
    assert (Htrue : forallb (fun d => bool_decide (Deal.asin d ∈ seen)) new_deals
                    = true); [|congruence].
    apply forallb_forall. intros d Hd. apply bool_decide_eq_true.
    apply list_elem_of_In in Hd.
    now apply (proj1 (deduplicate_nil_iff seen new_deals) Hrun).
Qed.

End ProcessDealsFacts.

(** ** The whole run *)

Lemma mark_featured_deals_elem (deals : list Deal.t) (threshold : Z)
    (d : Deal.t) :
  d ∈ _mark_featured_deals deals threshold ->
  exists d0, d0 ∈ deals /\ set_featured false d = set_featured false d0.
Proof.
  unfold _mark_featured_deals. intros Hd.
  assert (Hin : set_featured false d
                ∈ set_featured false
                    <$> mark_loop threshold 0 (_sort_deals_by_discount deals)).
  { apply list_elem_of_fmap. now exists d. }
  rewrite mark_loop_unflagged in Hin.
  apply list_elem_of_fmap in Hin as (d0 & Heq & Hd0).
  exists d0. split; [|exact Heq].
  unfold _sort_deals_by_discount in Hd0.
  now rewrite py_sorted_perm in Hd0.
Qed.

Section ScrapeDealsFacts.
Variable World : Type.
Variable paapi_get_product_info :
  string -> World -> result (option AmazonProduct.t) * World.
Variable scrape_product :
  string -> World -> result (option AmazonProduct.t) * World.
Variable utcnow_isoformat : World -> string.
Variable HttpUrl : string -> option string.
Variable clock_at : string -> Clock.
Variable fromisoformat : string -> result Z.
Variable scrape_savingsguru_posts :
  Z -> World -> result (list SavingsGuruPost.t) * World.
Variable utcnow : World -> Z.
Variable deals_file : string -> World -> option (list Deal.t).
Variable exception_str : exn -> string.

Let run := scrape_deals World paapi_get_product_info scrape_product
             utcnow_isoformat HttpUrl clock_at
             fromisoformat scrape_savingsguru_posts utcnow deals_file
             exception_str.

(** X19. Whatever the posts, the two clients and the clock do,
    [scrape_deals] returns either nothing, with nothing handed to
    [save_json_file], or the deals that were already in the deals file,
    sorted and flagged again by [_mark_featured_deals], and hands exactly
    those to [save_json_file] at the path derived from [output_file]. A
    deal made in this run is never returned or saved: each returned deal
    is a deal of the file, up to its [featured] flag. *)
Theorem scrape_deals_returns_file_deals (existing_asins : gset string)
    (settings : Settings) (self : Scraper World) (max_pages : option Z)
    (output_file : string) :
  let deals := (run existing_asins settings self max_pages output_file).1.1 in
  let saved := (run existing_asins settings self max_pages output_file).1.2 in
  let path := output_path output_file in
  ((deals = [] /\ saved = None)
   \/ exists w,
        deals = _mark_featured_deals (default [] (deals_file path w)) 40
        /\ saved = Some (path, deals))
  /\ (forall d, d ∈ deals ->
        exists w existing d0,
          deals_file path w = Some existing /\ d0 ∈ existing
          /\ set_featured false d = set_featured false d0).
Proof.
  cbn zeta.
  assert (Hmain :
    let out := run existing_asins settings self max_pages output_file in
    (out.1.1 = [] /\ out.1.2 = None)
    \/ exists w,
         out.1.1 = _mark_featured_deals
                     (default [] (deals_file (output_path output_file) w)) 40
         /\ out.1.2 = Some (output_path output_file, out.1.1)).
  { cbn zeta. unfold run, scrape_deals, scrape_deals_try.
    destruct (scrape_savingsguru_posts _ _) as [[posts|e] w];
      [|left; split; reflexivity].
    destruct posts as [|post posts]; [left; split; reflexivity|].
    destruct (dict_fromkeys _) as [|a asins]; [left; split; reflexivity|].
    destruct (get_real_product_data _ _ _ _ _ _) as [products self1].
    destruct (create_deals_from_products _ _ _ _ _) as [new_deals|e];
      [|left; split; reflexivity].
    cbn [mbind result_bind rbind].
    rewrite process_deals_cases. cbn zeta.
    destruct (datetime_sub_hours _ _) as [cutoff|e];
      [|left; split; reflexivity].
    cbn [mbind result_bind rbind].
    destruct (forallb _ new_deals && _);
      [|left; split; reflexivity].
    right. exists (world World self1). cbn [mbind result_bind rbind fst snd].
    split; [|reflexivity].
    f_equal. unfold load_existing_deals.
    now destruct (deals_file _ _). }
  split; [exact Hmain|].
  intros d Hd. cbn zeta in Hmain.
  destruct Hmain as [[Hnil _]|(w & Hdeals & _)].
  - rewrite Hnil in Hd. inversion Hd.
  - rewrite Hdeals in Hd.
    destruct (deals_file (output_path output_file) w) as [existing|] eqn:Hfile.
    + apply mark_featured_deals_elem in Hd as (d0 & Hd0 & Heq).
      exists w, existing, d0. auto.
    + cbn in Hd. inversion Hd.
Qed.
End ScrapeDealsFacts.

(** ** The scraping client *)

Section ScrapingClientFacts.
Import AmazonScrapingClient.
Variable HttpUrl : string -> option string.
Variable Soup : Type.
Variable _extract_title : Soup -> result (option string).
Variable _extract_current_price : Soup -> result (option Q).
Variable _extract_list_price : Soup -> result (option Q).
Variable _extract_price_alternative : Soup -> result (option Q).
Variable _extract_image_url : Soup -> result (option string).
Variable _extract_availability : Soup -> result string.
Variable _is_valid_product_page : Soup -> result bool.
Variable client_get : string -> nat -> HttpOutcome Soup.

Let extract := _extract_product_data HttpUrl Soup _extract_title
                 _extract_current_price _extract_list_price
                 _extract_price_alternative _extract_image_url
                 _extract_availability.

Lemma extract_product_data_inv (soup : Soup) (asin : string)
    (p : AmazonProduct.t) :
  extract soup asin = Some p ->
  exists title c list_price image_url availability,
    _extract_title soup = Ok (Some title) /\ title <> ""
    /\ (0 < c)%Q
    /\ (_extract_current_price soup = Ok (Some c)
        \/ (exists c0, _extract_current_price soup = Ok c0
                       /\ decimal_truthy c0 = false)
           /\ _extract_price_alternative soup = Ok (Some c))
    /\ _extract_list_price soup = Ok list_price
    /\ _extract_image_url soup = Ok image_url
    /\ _extract_availability soup = Ok availability
    /\ String.length asin = 10%nat /\ py_isalnum asin = true
    /\ AmazonProduct.image_url p = image_url ≫= HttpUrl
    /\ derive_discount (Some c) list_price
       = Ok (AmazonProduct.discount_percent p)
    /\ opt_all (fun d => (0 <=? d) && (d <=? 100))
         (AmazonProduct.discount_percent p) = true
    /\ p = AmazonProduct.mk (py_upper asin) title (Some c) list_price
             (AmazonProduct.discount_percent p) (AmazonProduct.image_url p)
             availability false None [] SCRAPED.
Proof.
  assert (Hnew : forall title c list_price d image_url availability,
             derive_discount (Some c) list_price = Ok d ->
             AmazonProduct_new HttpUrl
               (AmazonProduct.mk asin title (Some c) list_price d image_url
                  availability false None [] SCRAPED) = Ok p ->
             String.length asin = 10%nat /\ py_isalnum asin = true
             /\ AmazonProduct.image_url p = image_url ≫= HttpUrl
             /\ derive_discount (Some c) list_price
                = Ok (AmazonProduct.discount_percent p)
             /\ opt_all (fun d => (0 <=? d) && (d <=? 100))
                  (AmazonProduct.discount_percent p) = true
             /\ p = AmazonProduct.mk (py_upper asin) title (Some c) list_price
                      (AmazonProduct.discount_percent p)
                      (AmazonProduct.image_url p)
                      availability false None [] SCRAPED).
  { intros title c list_price d image_url availability Hder Hp.
    unfold AmazonProduct_new in Hp.
    apply AmazonProduct_init_inv in Hp
      as (Hp & Hlen & Hal & _ & _ & (Hrange & Hcalc) & Hu).
    cbn in Hp, Hlen, Hal, Hrange, Hcalc, Hu.
    rewrite (calculate_derived _ _ _ Hder) in Hcalc. injection Hcalc as Hd.
    split; [exact Hlen|]. split; [exact Hal|].
    split.
    { destruct image_url as [url|]; cbn; [|exact Hu].
      destruct Hu as (stored & Hs & ->). now rewrite Hs. }
    subst d. auto. }
  unfold extract, _extract_product_data.
  destruct (_extract_title soup) as [[title|]|e];
    cbn [mbind result_bind rbind try_except]; try discriminate.
  destruct (String.eqb_spec title "") as [|Hne]; [discriminate|].
  destruct (_extract_current_price soup) as [c0|e];
    cbn [mbind result_bind rbind try_except]; [|discriminate].
  destruct (_extract_list_price soup) as [list_price|e];
    cbn [mbind result_bind rbind try_except]; [|discriminate].
  destruct (decimal_truthy c0) eqn:Htruthy; cbn [negb].
  - cbn [mbind result_bind rbind try_except].
    destruct (_extract_image_url soup) as [image_url|e];
      cbn [mbind result_bind rbind try_except]; [|discriminate].
    destruct (_extract_availability soup) as [availability|e];
      cbn [mbind result_bind rbind try_except]; [|discriminate].
    destruct (derive_discount c0 list_price) as [d|e] eqn:Hder;
      cbn [mbind result_bind rbind try_except]; [|discriminate].
    destruct c0 as [c|]; [|discriminate].
    destruct (Qeq_bool c 0 || Qle_bool c 0) eqn:Hc; [discriminate|].
    destruct (AmazonProduct_new _ _) as [p'|e] eqn:Hp;
      cbn [mbind result_bind rbind try_except]; [|discriminate].
    intros [= ->].
    apply orb_false_iff in Hc as [_ Hc]. apply Qle_bool_false in Hc.
    exists title, c, list_price, image_url, availability.
    repeat (split; [first [reflexivity|assumption|now left]|]).
    exact (Hnew _ _ _ _ _ _ Hder Hp).
  - destruct (_extract_price_alternative soup) as [c1|e];
      cbn [mbind result_bind rbind try_except]; [|discriminate].
    destruct (_extract_image_url soup) as [image_url|e];
      cbn [mbind result_bind rbind try_except]; [|discriminate].
    destruct (_extract_availability soup) as [availability|e];
      cbn [mbind result_bind rbind try_except]; [|discriminate].
    destruct (derive_discount c1 list_price) as [d|e] eqn:Hder;
      cbn [mbind result_bind rbind try_except]; [|discriminate].
    destruct c1 as [c|]; [|discriminate].
    destruct (Qeq_bool c 0 || Qle_bool c 0) eqn:Hc; [discriminate|].
    destruct (AmazonProduct_new _ _) as [p'|e] eqn:Hp;
      cbn [mbind result_bind rbind try_except]; [|discriminate].
    intros [= ->].
    apply orb_false_iff in Hc as [_ Hc]. apply Qle_bool_false in Hc.
    exists title, c, list_price, image_url, availability.
    repeat (split; [first [reflexivity|assumption|right; eauto]|]).
    exact (Hnew _ _ _ _ _ _ Hder Hp).
Qed.


Let attempts := scrape_attempts HttpUrl Soup _extract_title
                  _extract_current_price _extract_list_price
                  _extract_price_alternative _extract_image_url
                  _extract_availability _is_valid_product_page client_get.

Lemma scrape_attempts_spec (url asin : string) (remaining attempt : nat) :
  let out := attempts url asin remaining attempt in
  (attempt <= out.2 <= attempt + remaining)%nat
  /\ (forall p, out.1 = Some p ->
        (attempt < out.2)%nat
        /\ exists soup,
             client_get url (out.2 - 1) = Responded Soup 200 soup
             /\ _is_valid_product_page soup = Ok true
             /\ extract soup asin = Some p).
Proof.
  revert attempt. induction remaining as [|k IH]; intros attempt; cbn zeta.
  - cbn. split; [lia|discriminate].
  - cbn [attempts scrape_attempts]. fold attempts.
    specialize (IH (S attempt)). cbn zeta in IH. destruct IH as [IHn IHp].
    assert (Hnext :
      (attempt <= (attempts url asin k (S attempt)).2 <= attempt + S k)%nat
      /\ (forall p, (attempts url asin k (S attempt)).1 = Some p ->
            (attempt < (attempts url asin k (S attempt)).2)%nat
            /\ exists soup,
                 client_get url ((attempts url asin k (S attempt)).2 - 1)
                 = Responded Soup 200 soup
                 /\ _is_valid_product_page soup = Ok true
                 /\ extract soup asin = Some p)).
    { split; [lia|]. intros p Hp. destruct (IHp p Hp) as [Hlt Hs].
      split; [lia|exact Hs]. }
    destruct (client_get url attempt) as [status_code soup| |] eqn:Hget;
      try exact Hnext.
    destruct (Z.eqb_spec status_code 200) as [->|Hcode].
    + destruct (_is_valid_product_page soup) as [[|]|e] eqn:Hvalid;
        try exact Hnext.
      cbn [fst snd]. split; [lia|]. intros p Hp. split; [lia|].
      exists soup. replace (S attempt - 1)%nat with attempt by lia. auto.
    + destruct ((status_code =? 503) || (status_code =? 403)
                || (status_code =? 429)); [exact Hnext|].
      cbn [fst snd]. split; [lia|discriminate].
Qed.

(** X21. [scrape_product] sends at most [max_retry_attempts] requests
    (none when that number is not positive), and none at all for an
    identifier that is empty or not ten characters long, for which it
    returns [None]. A product comes back only from the last request sent:
    a response with status 200 whose page passed
    [_is_valid_product_page], read by [_extract_product_data]; so it has a
    present, positive price. *)
Theorem scrape_product_attempts (settings : Settings) (asin : string) :
  let out := scrape_product HttpUrl Soup _extract_title
               _extract_current_price _extract_list_price
               _extract_price_alternative _extract_image_url
               _extract_availability _is_valid_product_page client_get
               settings asin in
  Z.of_nat out.2 <= Z.max 0 (max_retry_attempts settings)
  /\ (String.length asin <> 10%nat -> out = (None, O))
  /\ (forall p, out.1 = Some p ->
        String.length asin = 10%nat
        /\ (0 < out.2)%nat
        /\ is_priced (Some p) = true
        /\ exists soup,
             client_get ("https://www.amazon.ca/dp/" +:+ asin) (out.2 - 1)
             = Responded Soup 200 soup
             /\ _is_valid_product_page soup = Ok true
             /\ extract soup asin = Some p).
Proof.
  cbn zeta. unfold scrape_product. fold attempts.
  destruct (String.eqb asin "" || negb (String.length asin =? 10)%nat)
    eqn:Hbad.
  - cbn [fst snd]. split; [lia|]. split; [reflexivity|discriminate].
  - apply orb_false_iff in Hbad as [_ Hlen].
    apply negb_false_iff, Nat.eqb_eq in Hlen.
    pose proof (scrape_attempts_spec ("https://www.amazon.ca/dp/" +:+ asin) asin
                  (Z.to_nat (max_retry_attempts settings)) 0) as [Hn Hp].
    cbn zeta in Hn, Hp. split; [lia|]. split; [intros H; contradiction|].
    intros p Hout. destruct (Hp p Hout) as (Hlt & soup & Hget & Hvalid & Hex).
    split; [exact Hlen|]. split; [exact Hlt|]. split; [|eauto].
    apply is_priced_spec.
    apply extract_product_data_inv in Hex
      as (title & c & list_price & image_url & availability & _ & _ & Hpos
          & _ & _ & _ & _ & _ & _ & _ & _ & _ & Hp').
    exists p, c. split; [reflexivity|]. split; [now rewrite Hp'|exact Hpos].
Qed.
End ScrapingClientFacts.


(** The third request brings the product; with two attempts allowed the
    client gives up after two requests, and an identifier of nine
    characters sends none. *)
Example scrape_product_retries :
  fixture_scrape_product fixture_settings "b08n5wrwnw"
  = (Some fixture_scraped_product, 3%nat)
  /\ fixture_scrape_product
       (mkSettings "test_access_key" "test_secret_key" "test-tag-20" "CA"
          1%Q 1%Q 3%Q 2 30%Q 120 20 24 10 "testing" "INFO" false)
       "b08n5wrwnw"
     = (None, 2%nat)
  /\ fixture_scrape_product fixture_settings "b08n5wrww" = (None, 0%nat).
Proof. repeat split; vm_compute; reflexivity. Qed.

(** Three runs that find the product of the fixtures. With no deals file,
    and with a file that holds another deal, the new deal makes the deal
    manager raise and the run returns nothing. With a file that already
    holds a deal of that identifier the run returns and saves the deal of
    the file, flagged as featured. *)
Example scrape_deals_runs :
  (fixture_run None).1 = ([], None)
  /\ (fixture_run
        (Some [fixture_deal "B07XJ8C8F5" (Some 10) "2024-01-15T09:30:00"])).1
     = ([], None)
  /\ (fixture_run
        (Some [fixture_deal "B08N5WRWNW" (Some 40) "2024-01-15T09:30:00"])).1
     = ([set_featured true
           (fixture_deal "B08N5WRWNW" (Some 40) "2024-01-15T09:30:00")],
        Some ("public/deals.json",
              [set_featured true
                 (fixture_deal "B08N5WRWNW" (Some 40) "2024-01-15T09:30:00")])).
Proof. repeat split; vm_compute; reflexivity. Qed.

(** ** The identifiers a run looks up *)

Lemma dict_fromkeys_snoc (l : list string) (a : string) :
  dict_fromkeys (l ++ [a])
  = if bool_decide (a ∈ dict_fromkeys l) then dict_fromkeys l
    else dict_fromkeys l ++ [a].
Proof.
  unfold dict_fromkeys. rewrite fold_left_app. cbn [fold_left].
  apply dict_set_keys.
Qed.

Lemma dict_fromkeys_elem_of (l : list string) (a : string) :
  a ∈ dict_fromkeys l <-> a ∈ l.
Proof.
  induction l as [|x l IH] using rev_ind.
  - reflexivity.
  - rewrite dict_fromkeys_snoc, elem_of_app, list_elem_of_singleton.
    case_bool_decide as Hx.
    + rewrite IH. split; [now left|]. intros [H| ->]; [exact H|].
      now apply IH.
    + rewrite elem_of_app, list_elem_of_singleton, IH. reflexivity.
Qed.

Lemma dict_fromkeys_NoDup (l : list string) : NoDup (dict_fromkeys l).
Proof.
  induction l as [|x l IH] using rev_ind.
  - constructor.
  - rewrite dict_fromkeys_snoc. case_bool_decide as Hx; [exact IH|].
    apply NoDup_app. split; [exact IH|]. split; [|apply NoDup_singleton].
    intros y Hy [->|Hin]%elem_of_cons; [now apply Hx|inversion Hin].
Qed.

Lemma dict_fromkeys_fixed (l : list string) : NoDup l -> dict_fromkeys l = l.
Proof.
  induction l as [|x l IH] using rev_ind; [reflexivity|].
  intros [Hl [Hx _]]%NoDup_app. rewrite dict_fromkeys_snoc.
  rewrite bool_decide_eq_false_2.
  - now rewrite IH.
  - rewrite dict_fromkeys_elem_of. intros Hin. apply (Hx x Hin).
    apply elem_of_cons. now left.
Qed.

Lemma elem_of_concat {A} (x : A) (ls : list (list A)) :
  x ∈ concat ls <-> exists l, x ∈ l /\ l ∈ ls.
Proof.
  induction ls as [|l0 ls IH]; cbn.
  - split; [intros H; inversion H|intros (l & _ & H); inversion H].
  - rewrite elem_of_app, IH. split.
    + intros [H|(l & H1 & H2)].
      * exists l0. split; [exact H|]. apply elem_of_cons. now left.
      * exists l. split; [exact H1|]. apply elem_of_cons. now right.
    + intros (l & H1 & [->|H2]%elem_of_cons); [now left|right; eauto].
Qed.

Section ScrapeDealsLookups.
Variable World : Type.
Variable paapi_get_product_info :
  string -> World -> result (option AmazonProduct.t) * World.
Variable scrape_product :
  string -> World -> result (option AmazonProduct.t) * World.
Variable utcnow_isoformat : World -> string.
Variable HttpUrl : string -> option string.
Variable clock_at : string -> Clock.
Variable fromisoformat : string -> result Z.
Variable scrape_savingsguru_posts :
  Z -> World -> result (list SavingsGuruPost.t) * World.
Variable utcnow : World -> Z.
Variable deals_file : string -> World -> option (list Deal.t).
Variable exception_str : exn -> string.

Let step := resolve_asin World paapi_get_product_info scrape_product
              utcnow_isoformat.

Lemma fold_resolve_lookups (asins : list string) (res : results)
    (self : Scraper World) :
  let after := (fold_left step asins (res, self)).2 in
  paapi_lookups (calls World after) = paapi_lookups (calls World self) ++ asins
  /\ total_api_calls (session World after)
     = total_api_calls (session World self) + Z.of_nat (length asins).
Proof.
  revert res self. induction asins as [|a asins IH]; intros res self.
  - cbn. rewrite app_nil_r. split; [reflexivity|lia].
  - cbn [fold_left]. cbn zeta.
    pose proof (resolve_asin_calls World paapi_get_product_info scrape_product
                  utcnow_isoformat res self a) as Hc.
    pose proof (resolve_asin_counters World paapi_get_product_info
                  scrape_product utcnow_isoformat res self a) as Hn.
    cbn zeta in Hc, Hn. fold step in Hc, Hn.
    destruct (step (res, self) a) as [res1 self1]. cbn [snd] in Hc, Hn.
    destruct (IH res1 self1) as [IH1 IH2]. cbn zeta in IH1, IH2.
    rewrite IH1, IH2, Hc. split.
    + unfold paapi_lookups. rewrite omap_app. cbn.
      destruct (yields_priced _); cbn; now rewrite <- app_assoc.
    + destruct Hn as (_ & Hn & _). cbn [length]. lia.
Qed.

Let run := scrape_deals World paapi_get_product_info scrape_product
             utcnow_isoformat HttpUrl clock_at
             fromisoformat scrape_savingsguru_posts utcnow deals_file
             exception_str.

(** X22. When [scrape_savingsguru_posts] raises, a run of [scrape_deals]
    calls neither client. When it returns posts, the run sends to the
    PAAPI client the identifiers of the posts, each distinct identifier
    once, in the order of first appearance ([dict.fromkeys]), whatever
    happens afterwards; [total_api_calls] grows by their number. *)
Theorem scrape_deals_lookups (existing_asins : gset string)
    (settings : Settings) (self : Scraper World) (max_pages : option Z)
    (output_file : string) :
  let after := (run existing_asins settings self max_pages output_file).2 in
  match (scrape_savingsguru_posts
           (default (max_pages_to_scrape settings) max_pages)
           (world World self)).1 with
  | Raise _ => calls World after = calls World self
  | Ok posts =>
    let all_asins := concat (SavingsGuruPost.extracted_asins <$> posts) in
    let unique_asins := dict_fromkeys all_asins in
    paapi_lookups (calls World after)
    = paapi_lookups (calls World self) ++ unique_asins
    /\ total_api_calls (session World after)
       = total_api_calls (session World self) + Z.of_nat (length unique_asins)
    /\ NoDup unique_asins
    /\ (forall a, a ∈ unique_asins <->
                  exists post, post ∈ posts
                               /\ a ∈ SavingsGuruPost.extracted_asins post)
    /\ (NoDup all_asins -> unique_asins = all_asins)
  end.
Proof.
  cbn zeta. unfold run, scrape_deals, scrape_deals_try.
  destruct (scrape_savingsguru_posts _ _) as [[posts|e] w]; cbn [fst];
    [|reflexivity].
  assert (Hrest : forall l,
             NoDup (dict_fromkeys l)
             /\ (forall a, a ∈ dict_fromkeys
                                 (concat (SavingsGuruPost.extracted_asins <$> posts))
                           <-> exists post, post ∈ posts
                                 /\ a ∈ SavingsGuruPost.extracted_asins post)
             /\ (NoDup l -> dict_fromkeys l = l)).
  { intros l. split; [apply dict_fromkeys_NoDup|].
    split; [|apply dict_fromkeys_fixed].
    intros a. rewrite dict_fromkeys_elem_of, elem_of_concat. split.
    - intros (l' & Ha & (post & -> & Hp)%list_elem_of_fmap). eauto.
    - intros (post & Hp & Ha). exists (SavingsGuruPost.extracted_asins post).
      split; [exact Ha|]. apply list_elem_of_fmap. eauto. }
  destruct posts as [|post posts'].
  { cbn. rewrite app_nil_r. split; [reflexivity|]. split; [lia|].
    apply (Hrest []). }
  set (posts := post :: posts') in *.
  set (all_asins := concat (SavingsGuruPost.extracted_asins <$> posts)) in *.
  pose proof (Hrest all_asins) as Hr.
  remember (dict_fromkeys all_asins) as unique_asins eqn:Hunique.
  destruct unique_asins as [|a asins].
  { cbn. rewrite app_nil_r. split; [reflexivity|]. split; [lia|exact Hr]. }
  cbn zeta.
  set (self0 := mkScraper World (session World self) (stats World self) w
                  (calls World self)).
  unfold get_real_product_data.
  destruct (fold_resolve_lookups (a :: asins) [] self0) as [Hcalls Hcount].
  cbn zeta in Hcalls, Hcount. unfold step in Hcalls, Hcount.
  match goal with
  | |- context [fold_left ?f ?l ?i] =>
    assert (Hloop :
      paapi_lookups (calls World (fold_left f l i).2)
      = paapi_lookups (calls World self0) ++ a :: asins
      /\ total_api_calls (session World (fold_left f l i).2)
         = total_api_calls (session World self0)
           + Z.of_nat (length (a :: asins)))
      by (split; [exact Hcalls|exact Hcount]);
    clear Hcalls Hcount;
    destruct (fold_left f l i) as [products self1]
  end.
  cbn [snd] in Hloop. destruct Hloop as [Hcalls Hcount].
  assert (Hgoal :
    paapi_lookups (calls World self1)
    = paapi_lookups (calls World self) ++ a :: asins
    /\ total_api_calls (session World self1)
       = total_api_calls (session World self)
         + Z.of_nat (length (a :: asins))
    /\ NoDup (a :: asins)
    /\ (forall a', a' ∈ a :: asins <->
                   exists post, post ∈ posts
                                /\ a' ∈ SavingsGuruPost.extracted_asins post)
    /\ (NoDup all_asins -> a :: asins = all_asins)).
  { split; [exact Hcalls|]. split; [exact Hcount|exact Hr]. }
  destruct (create_deals_from_products _ _ _ _ _) as [new_deals|e];
    cbn [mbind result_bind rbind]; [|exact Hgoal].
  destruct (process_deals _ _ _ _ _ _) as [management_result|e];
    cbn [mbind result_bind rbind]; exact Hgoal.
Qed.
End ScrapeDealsLookups.

(** ** utils.py *)

Lemma py_slice_nonneg {A} (lo hi : Z) (l : list A) :
  0 <= lo <= hi ->
  utils.py_slice lo hi l = take (Z.to_nat (hi - lo)) (drop (Z.to_nat lo) l).
Proof.
  intros [Hlo Hhi]. unfold utils.py_slice.
  assert (H1 : (lo <? 0) = false) by lia.
  assert (H2 : (hi <? 0) = false) by lia.
  rewrite H1, H2.
  destruct (Z.le_gt_cases (Z.of_nat (length l)) lo) as [Hge|Hlt].
  - rewrite !drop_ge by lia. now rewrite !take_nil.
  - replace (Z.min (Z.of_nat (length l)) lo) with lo by lia.
    destruct (Z.le_gt_cases hi (Z.of_nat (length l))) as [Hin|Hout].
    + now replace (Z.min (Z.of_nat (length l)) hi) with hi by lia.
    + rewrite !take_ge; [reflexivity| |]; rewrite length_drop; lia.
Qed.

Lemma concat_chunks {A} (b count : nat) (l : list A) :
  (length l <= count * b)%nat ->
  concat ((fun k => take b (drop (k * b) l)) <$> seq 0 count) = l.
Proof.
  revert l. induction count as [|c IH]; intros l Hlen.
  - destruct l; [reflexivity|cbn in Hlen; lia].
  - cbn [seq]. rewrite fmap_cons. cbn [concat].
    rewrite <- fmap_S_seq, <- list_fmap_compose.
    transitivity (take b l ++ drop b l); [|apply take_drop].
    f_equal.
    etransitivity; [|apply (IH (drop b l)); rewrite length_drop; lia].
    f_equal. apply list_fmap_ext. intros i k _. cbn.
    now rewrite drop_drop.
Qed.

Lemma batch_items_chunks {A} (items : list A) (batch_size : Z) :
  0 < batch_size ->
  utils.batch_items items batch_size
  = Ok ((fun k => take (Z.to_nat batch_size)
                    (drop (k * Z.to_nat batch_size) items))
          <$> seq 0 (Z.to_nat ((Z.of_nat (length items) + batch_size - 1)
                               / batch_size))).
Proof.
  intros Hpos. unfold utils.batch_items, py_range.
  assert (H1 : (batch_size =? 0) = false) by lia.
  assert (H2 : (0 <? batch_size) = true) by lia.
  rewrite H1, H2. cbn [mbind result_bind rbind]. f_equal.
  rewrite Z.sub_0_r, <- list_fmap_compose.
  apply list_fmap_ext. intros i k _. cbn.
  rewrite py_slice_nonneg by nia.
  f_equal; [f_equal; lia|]. f_equal. nia.
Qed.

(** X23. For a positive [batch_size], [batch_items] cuts the list into
    consecutive batches: joined again they give the list, there are
    [ceil(len(items) / batch_size)] of them, none is empty or longer than
    [batch_size], and every batch but the last has exactly [batch_size]
    entries. A [batch_size] of zero raises [ValueError]; a negative one
    yields no batch at all, whatever the list holds. *)
Theorem batch_items_spec {A} (items : list A) (batch_size : Z) :
  (0 < batch_size ->
   exists batches,
     utils.batch_items items batch_size = Ok batches
     /\ concat batches = items
     /\ Z.of_nat (length batches)
        = (Z.of_nat (length items) + batch_size - 1) / batch_size
     /\ (forall i b, batches !! i = Some b ->
           b = take (Z.to_nat batch_size)
                 (drop (i * Z.to_nat batch_size) items)
           /\ 0 < Z.of_nat (length b) <= batch_size
           /\ ((S i < length batches)%nat ->
               Z.of_nat (length b) = batch_size)))
  /\ (batch_size = 0 ->
      utils.batch_items items batch_size = Raise ValueError)
  /\ (batch_size < 0 -> utils.batch_items items batch_size = Ok []).
Proof.
  split; [|split].
  - intros Hpos. rewrite batch_items_chunks by exact Hpos.
    set (n := Z.of_nat (length items)).
    set (q := (n + batch_size - 1) / batch_size).
    assert (Hq : 0 <= q) by (apply Z.div_pos; lia).
    pose proof (Z.mul_div_le (n + batch_size - 1) batch_size Hpos) as Hlo.
    pose proof (Z.mul_succ_div_gt (n + batch_size - 1) batch_size Hpos) as Hhi.
    fold q in Hlo, Hhi.
    assert (Hcover : (length items <= Z.to_nat q * Z.to_nat batch_size)%nat)
      by nia.
    eexists. split; [reflexivity|].
    split; [now apply concat_chunks|].
    split; [rewrite length_fmap, length_seq; lia|].
    intros i b Hb. rewrite list_lookup_fmap in Hb.
    destruct (seq 0 (Z.to_nat q) !! i) as [k|] eqn:Hk; [|discriminate].
    apply lookup_seq in Hk as [-> Hi]. cbn in Hb. injection Hb as <-.
    split; [reflexivity|].
    rewrite length_take, length_drop, length_fmap, length_seq.
    split; [nia|]. intros Hnext. nia.
  - intros ->. reflexivity.
  - intros Hneg. unfold utils.batch_items, py_range.
    assert (H1 : (batch_size =? 0) = false) by lia.
    assert (H2 : (0 <? batch_size) = false) by lia.
    rewrite H1, H2. cbn [mbind result_bind rbind].
    assert (Hn : (0 - Z.of_nat (length items) - batch_size - 1) / - batch_size
                 < 1).
    { apply Z.div_lt_upper_bound; lia. }
    replace (Z.to_nat _) with O by lia. reflexivity.
Qed.

Example batch_items_of_five :
  utils.batch_items [1; 2; 3; 4; 5] 2 = Ok [[1; 2]; [3; 4]; [5]]
  /\ utils.batch_items [1; 2; 3; 4] 2 = Ok [[1; 2]; [3; 4]]
  /\ utils.batch_items (@nil Z) 2 = Ok []
  /\ utils.batch_items [1; 2; 3] (-1) = Ok [].
Proof. repeat split; reflexivity. Qed.

(** X24. [utils.validate_asin] accepts exactly the identifiers that the
    [asin] field of [AmazonProduct] accepts, ten alphanumeric characters.
    An ASCII identifier that it accepts it still accepts in upper case,
    the form in which [AmazonProduct] stores it. What it rejects,
    [AmazonProduct] rejects with an error. *)
Theorem utils_validate_asin_agrees (asin : string) :
  (utils.validate_asin asin = true <-> exists v, validate_asin asin = Ok v)
  /\ (utils.validate_asin asin = true <->
      String.length asin = 10%nat /\ py_isalnum asin = true)
  /\ (py_isascii asin = true -> utils.validate_asin asin = true ->
      validate_asin asin = Ok (py_upper asin)
      /\ utils.validate_asin (py_upper asin) = true)
  /\ (utils.validate_asin asin = false -> exists e, validate_asin asin = Raise e).
Proof.
  assert (Hiff : utils.validate_asin asin = true <->
                 String.length asin = 10%nat /\ py_isalnum asin = true).
  { unfold utils.validate_asin.
    destruct (String.eqb_spec asin "") as [->|Hne].
    - split; [discriminate|]. intros [H _]. discriminate H.
    - rewrite andb_true_iff, Nat.eqb_eq. reflexivity. }
  assert (Hmodel : validate_asin asin = Ok (py_upper asin) <->
                   String.length asin = 10%nat /\ py_isalnum asin = true).
  { split.
    - intros H. apply validate_asin_ok in H as (_ & H1 & H2). auto.
    - intros [H1 H2]. unfold validate_asin.
      apply Nat.eqb_eq in H1. now rewrite H1, H2. }
  split; [|split; [exact Hiff|split]].
  - rewrite Hiff, <- Hmodel. split; [eauto|].
    intros [v Hv]. now destruct (validate_asin_ok _ _ Hv) as (-> & _).
  - intros _ Hacc. split; [now apply Hmodel, Hiff|].
    apply Hiff in Hacc as [Hlen Hal].
    unfold utils.validate_asin, py_upper at 1 2.
    rewrite string_map_length, Hlen, py_upper_isalnum, Hal.
    destruct asin as [|c s]; [discriminate Hlen|reflexivity].
  - intros Hrej. unfold validate_asin.
    destruct (String.length asin =? 10)%nat eqn:Hlen; cbn [negb]; [|eauto].
    destruct (py_isalnum asin) eqn:Hal; cbn [negb]; [|eauto].
    exfalso. apply Nat.eqb_eq in Hlen.
    assert (Hacc : utils.validate_asin asin = true) by (apply Hiff; auto).
    congruence.
Qed.

Section AffiliateUrlFacts.
Variable HttpUrl : string -> option string.

(** X25. The link of a deal that [Deal.from_amazon_product] makes is the
    URL that [HttpUrl] stores for the text that
    [utils.create_affiliate_url] builds for the identifier and the tag on
    the marketplace [CA], and on every marketplace that is not [US] or
    [UK], the other marketplaces that [Settings] accepts among them: they
    fall back to [amazon.ca]. For [US] and [UK] the text differs from the
    one the factory builds. *)
Theorem deal_affiliate_url_marketplace (clock : Clock) (p : AmazonProduct.t)
    (partner_tag : string) (ctx : option SavingsGuruPost.t) (d : Deal.t)
    (marketplace : string) :
  from_amazon_product HttpUrl clock p partner_tag ctx
  = Ok (Some d) ->
  let link := utils.create_affiliate_url (AmazonProduct.asin p) partner_tag in
  HttpUrl (link "CA") = Some (Deal.affiliate_url d)
  /\ link "CA" = AmazonProduct.to_affiliate_url p partner_tag
  /\ (marketplace <> "US" -> marketplace <> "UK" ->
      HttpUrl (link marketplace) = Some (Deal.affiliate_url d))
  /\ link "US" <> AmazonProduct.to_affiliate_url p partner_tag
  /\ link "UK" <> AmazonProduct.to_affiliate_url p partner_tag.
Proof.
  intros H. apply from_amazon_product_inv in H
    as (post & c & img & affiliate & description & _ & _ & _ & _ & Haff
        & _ & -> & _).
  cbn zeta. cbn [Deal.affiliate_url].
  unfold AmazonProduct.to_affiliate_url, utils.create_affiliate_url in *.
  split; [exact Haff|]. split; [reflexivity|]. split; [|split].
  - intros Hus Huk. unfold utils.base_urls. cbn [assoc_get].
    destruct (String.eqb_spec "CA" marketplace); [exact Haff|].
    destruct (String.eqb_spec "US" marketplace); [congruence|].
    destruct (String.eqb_spec "UK" marketplace); [congruence|].
    exact Haff.
  - cbn. discriminate.
  - cbn. discriminate.
Qed.
End AffiliateUrlFacts.

Lemma deal_affiliate_url_marketplace_witness :
  accept_all_urls (utils.create_affiliate_url "B08N5WRWNW" "test-tag-20" "DE")
  = Some (Deal.affiliate_url fixture_factory_deal).
Proof.
  assert (H : from_amazon_product accept_all_urls fixture_clock fixture_product
                "test-tag-20" (Some fixture_post)
              = Ok (Some fixture_factory_deal)) by (vm_compute; reflexivity).
  apply (deal_affiliate_url_marketplace accept_all_urls
           fixture_clock fixture_product "test-tag-20" (Some fixture_post)
           fixture_factory_deal "DE" H).
  - discriminate.
  - discriminate.
Defined.

(** ** The pages of posts *)

Section PostPagesFacts.
Import PostPages.
Variable World : Type.
Variable Soup : Type.
Variable client_get : string -> World -> result (Z * Soup) * World.
Variable _extract_posts_from_page :
  Soup -> string -> result (list SavingsGuruPost.t).

Let page := scrape_page World Soup client_get _extract_posts_from_page.

(** Where a post of the result comes from: a response with status 200 to
    a request of the run, on whose page the post was found. *)
Let found_on (base_url : string) (urls : list string)
    (post : SavingsGuruPost.t) : Prop :=
  exists url w soup w' page_posts,
    url ∈ urls
    /\ client_get url w = (Ok (200, soup), w')
    /\ _extract_posts_from_page soup base_url = Ok page_posts
    /\ post ∈ page_posts.

Lemma scrape_page_step (base_url : string) (acc : PostScraper World)
    (n : Z) :
  let out := page base_url acc n in
  requested World out = requested World acc ++ [page_url base_url n]
  /\ (exists page_posts,
        posts World out = posts World acc ++ page_posts
        /\ posts_scraped World out
           = posts_scraped World acc + Z.of_nat (length page_posts)
        /\ forall post, post ∈ page_posts ->
             found_on base_url [page_url base_url n] post)
  /\ slept World acc <= slept World out <= slept World acc + 2.
Proof.
  cbn zeta. unfold page, scrape_page.
  destruct (client_get (page_url base_url n) (post_world World acc))
    as [[[status_code soup]|e] w] eqn:Hget.
  - destruct (Z.eqb_spec status_code 200) as [->|Hcode]; cbn [negb].
    + destruct (_extract_posts_from_page soup base_url) as [page_posts|e]
        eqn:Hex; cbn.
      * split; [reflexivity|]. split; [|lia].
        exists page_posts. split; [reflexivity|]. split; [reflexivity|].
        intros post Hin.
        exists (page_url base_url n), (post_world World acc), soup, w,
          page_posts.
        split; [apply elem_of_cons; now left|auto].
      * split; [reflexivity|]. split; [|lia].
        exists []. rewrite app_nil_r. split; [reflexivity|].
        split; [cbn; lia|]. intros post Hin. inversion Hin.
    + cbn. split; [reflexivity|]. split; [|lia].
      exists []. rewrite app_nil_r. split; [reflexivity|].
      split; [cbn; lia|]. intros post Hin. inversion Hin.
  - cbn. split; [reflexivity|]. split; [|lia].
    exists []. rewrite app_nil_r. split; [reflexivity|].
    split; [cbn; lia|]. intros post Hin. inversion Hin.
Qed.

Lemma scrape_pages_fold (base_url : string) (pages : list Z)
    (acc : PostScraper World) :
  let out := fold_left (page base_url) pages acc in
  requested World out = requested World acc ++ (page_url base_url <$> pages)
  /\ (exists new_posts,
        posts World out = posts World acc ++ new_posts
        /\ posts_scraped World out
           = posts_scraped World acc + Z.of_nat (length new_posts)
        /\ forall post, post ∈ new_posts ->
             found_on base_url (page_url base_url <$> pages) post)
  /\ slept World acc <= slept World out
     <= slept World acc + 2 * Z.of_nat (length pages).
Proof.
  revert acc. induction pages as [|n pages IH]; intros acc; cbn zeta.
  - cbn. rewrite app_nil_r. split; [reflexivity|]. split; [|lia].
    exists []. rewrite app_nil_r. split; [reflexivity|].
    split; [cbn; lia|]. intros post Hin. inversion Hin.
  - cbn [fold_left].
    destruct (scrape_page_step base_url acc n) as (H1 & (pp & H2 & H3 & H4) & H5).
    cbn zeta in H1, H2, H3, H5.
    destruct (IH (page base_url acc n)) as (I1 & (np & I2 & I3 & I4) & I5).
    cbn zeta in I1, I2, I3, I5.
    rewrite I1, I2, I3, H1, H2, H3. rewrite fmap_cons.
    split; [now rewrite <- app_assoc|]. split; [|cbn [length]; lia].
    exists (pp ++ np). split; [now rewrite app_assoc|].
    split; [rewrite length_app; lia|].
    intros post [Hin|Hin]%elem_of_app.
    + destruct (H4 post Hin) as (url & w & soup & w' & l & Hu & Hrest).
      exists url, w, soup, w', l. split; [|exact Hrest].
      apply list_elem_of_singleton in Hu as ->. apply elem_of_cons. now left.
    + destruct (I4 post Hin) as (url & w & soup & w' & l & Hu & Hrest).
      exists url, w, soup, w', l. split; [|exact Hrest].
      apply elem_of_cons. now right.
Qed.

(** X26. [scrape_savingsguru_posts] requests every page from 1 to
    [max_pages], one request per page and in order, whatever the earlier
    pages answered: first the site itself, then [/page/2], [/page/3] and
    so on; no page at all when [max_pages] is not positive. Every post it
    returns was found on the page of a response with status 200 to one of
    these requests; [posts_scraped] grows by the number of posts returned;
    and it sleeps two seconds per page at most. *)
Theorem scrape_savingsguru_posts_pages (max_pages : Z) (posts_scraped0 : Z)
    (w : World) :
  let base_url := "https://www.savingsguru.ca" in
  exists out,
    scrape_savingsguru_posts World Soup client_get _extract_posts_from_page
      max_pages posts_scraped0 w = Ok out
    /\ requested World out
       = (if 0 <? max_pages then [base_url] else [])
         ++ ((fun k => base_url +:+ "/page/" +:+ pretty (Z.of_nat k + 2))
               <$> seq 0 (Z.to_nat (max_pages - 1)))
    /\ Z.of_nat (length (requested World out)) = Z.max 0 max_pages
    /\ posts_scraped World out
       = posts_scraped0 + Z.of_nat (length (posts World out))
    /\ (forall post, post ∈ posts World out ->
          found_on base_url (requested World out) post)
    /\ 0 <= slept World out <= 2 * Z.max 0 max_pages.
Proof.
  cbn zeta. unfold scrape_savingsguru_posts, py_range.
  change (1 =? 0) with false. change (0 <? 1) with true.
  cbn [mbind result_bind rbind]. eexists. split; [reflexivity|].
  fold page.
  set (pages := (fun k => 1 + Z.of_nat k * 1)
                  <$> seq 0 (Z.to_nat ((max_pages + 1 - 1 + 1 - 1) / 1))).
  destruct (scrape_pages_fold "https://www.savingsguru.ca" pages
              (mkPostScraper World [] posts_scraped0 [] 0 w))
    as (H1 & (np & H2 & H3 & H4) & H5).
  cbn zeta in H1, H2, H3, H5. cbn [requested posts posts_scraped slept app] in *.
  assert (Hlen : length pages = Z.to_nat max_pages).
  { subst pages. rewrite length_fmap, length_seq, Z.div_1_r. f_equal. lia. }
  assert (Hurls :
    page_url "https://www.savingsguru.ca" <$> pages
    = (if 0 <? max_pages then ["https://www.savingsguru.ca"] else [])
      ++ ((fun k => "https://www.savingsguru.ca" +:+ "/page/"
                    +:+ pretty (Z.of_nat k + 2))
            <$> seq 0 (Z.to_nat (max_pages - 1)))).
  { subst pages. rewrite Z.div_1_r.
    replace (max_pages + 1 - 1 + 1 - 1) with max_pages by lia.
    destruct (Z.ltb_spec 0 max_pages) as [Hpos|Hneg].
    - replace (Z.to_nat max_pages) with (S (Z.to_nat (max_pages - 1))) by lia.
      cbn [seq]. rewrite !fmap_cons. cbn [app]. f_equal.
      rewrite <- fmap_S_seq, <- !list_fmap_compose.
      apply list_fmap_ext. intros i k _. cbn. unfold page_url.
      assert (Hk : (1 <? 1 + Z.of_nat (S k) * 1) = true)
        by (apply Z.ltb_lt; lia).
      rewrite Hk. do 3 f_equal. lia.
    - replace (Z.to_nat max_pages) with O by lia.
      replace (Z.to_nat (max_pages - 1)) with O by lia. reflexivity. }
  rewrite H1, H2, H3, Hurls. split; [reflexivity|].
  split.
  { rewrite <- Hurls, length_fmap, Hlen. lia. }
  split; [reflexivity|].
  split; [|lia].
  intros post Hin. rewrite <- Hurls. now apply H4.
Qed.
End PostPagesFacts.

(** ** The posts of a page *)

Lemma substring_length_le (m : nat) (s : string) :
  (String.length (String.substring 0 m s) <= m)%nat.
Proof.
  revert s. induction m as [|m IH]; intros [|c s]; cbn; try lia.
  specialize (IH s). lia.
Qed.

Section PostExtractionFacts.
Import PostExtraction.
Variable Soup : Type.
Variable Element : Type.
Variable select : Soup -> string -> list Element.
Variable select_one_text : Element -> string -> option string.
Variable first_href : Element -> option string.
Variable amazon_hrefs : Element -> list string.
Variable urljoin : string -> string -> string.
Variable extract_asin_from_url : string -> option string.
Variable hash : string -> Z.
Variable HttpUrl : string -> option string.
Variable clock_at : Element -> Clock.

Let single := _extract_single_post Element select_one_text first_href
                amazon_hrefs urljoin extract_asin_from_url hash
                HttpUrl clock_at.

(** What holds of a post that [_extract_single_post] returns. *)
Let extracted (post : SavingsGuruPost.t) : Prop :=
  SavingsGuruPost.post_title post <> ""
  /\ SavingsGuruPost.extracted_asins post <> []
  /\ NoDup (SavingsGuruPost.extracted_asins post)
  /\ (forall a, a ∈ SavingsGuruPost.extracted_asins post ->
        a <> ""
        /\ exists link, link ∈ SavingsGuruPost.amazon_short_links post
                        /\ extract_asin_from_url link = Some a)
  /\ (forall link, link ∈ SavingsGuruPost.amazon_short_links post ->
        link <> ""
        /\ py_contains "amzn.to" link || py_contains "amazon.ca" link
           || py_contains "amazon.com" link = true)
  /\ SavingsGuruPost.category post
     = _categorize_post (SavingsGuruPost.post_title post)
  /\ (exists url, HttpUrl url = Some (SavingsGuruPost.post_url post))
  /\ exists text, SavingsGuruPost.description post = Some text
                  /\ (String.length text <= 500)%nat.

Lemma extract_single_post_inv (post_element : Element) (base_url : string)
    (post : SavingsGuruPost.t) :
  single post_element base_url = Some post -> extracted post.
Proof.
  unfold single, _extract_single_post, extracted.
  set (title := default "" (first_text Element select_one_text post_element _)).
  destruct (String.eqb_spec title "") as [|Hne]; [discriminate|].
  clearbody title.
  set (description :=
         match first_text Element select_one_text post_element
                 [".content"; ".post-content"; ".entry-content"; "p"] with
         | Some text => String.substring 0 500 text
         | None => ""
         end).
  assert (Hdesc : (String.length description <= 500)%nat).
  { subst description.
    destruct (first_text Element select_one_text post_element _);
      [apply substring_length_le|cbn; lia]. }
  clearbody description.
  set (links := List.filter is_amazon_link (amazon_hrefs post_element)).
  pose proof (dict_fromkeys_NoDup
                (omap (asin_of_link extract_asin_from_url) links)) as Hnd.
  pose proof (dict_fromkeys_elem_of
                (omap (asin_of_link extract_asin_from_url) links)) as Hin.
  destruct (dict_fromkeys (omap (asin_of_link extract_asin_from_url) links))
    as [|a asins] eqn:Hasins; [discriminate|].
  destruct (HttpUrl _) as [post_url|] eqn:Hurl; [|discriminate].
  intros [= <-]. cbn.
  split; [exact Hne|]. split; [discriminate|]. split; [exact Hnd|].
  split; [|split; [|split; [reflexivity|split; [eauto|]]]].
  - intros a' Ha'. apply Hin in Ha'.
    apply list_elem_of_omap in Ha' as (link & Hlink & Hasin).
    unfold asin_of_link in Hasin.
    destruct (extract_asin_from_url link) as [asin|] eqn:Hex; [|discriminate].
    destruct (String.eqb_spec asin "") as [|Hne']; [discriminate|].
    injection Hasin as <-. split; [exact Hne'|]. eauto.
  - intros link Hlink. subst links.
    apply list_elem_of_In, filter_In in Hlink as [_ Hlink].
    unfold is_amazon_link in Hlink.
    apply andb_true_iff in Hlink as [Hne' Hlink].
    split; [|exact Hlink].
    intros ->. discriminate Hne'.
  - exists description. split; [reflexivity|exact Hdesc].
Qed.

(** [post_elements] takes the containers of the first selector that
    finds any. *)
Lemma post_elements_first (soup : Soup) (selectors : list string) :
  (Forall (fun s => select soup s = []) selectors
   /\ post_elements Soup Element select soup selectors = [])
  \/ exists before selector after,
       selectors = before ++ selector :: after
       /\ Forall (fun s => select soup s = []) before
       /\ select soup selector <> []
       /\ post_elements Soup Element select soup selectors
          = select soup selector.
Proof.
  induction selectors as [|s rest IH]; cbn; [left; split; auto|].
  destruct (select soup s) as [|el els] eqn:Hs.
  - destruct IH as [[Hall Hnil]|(before & selector & after & -> & Hall & Hne & Heq)].
    + left. split; [constructor; assumption|exact Hnil].
    + right. exists (s :: before), selector, after.
      split; [reflexivity|]. split; [constructor; assumption|]. auto.
  - right. exists [], s, rest. split; [reflexivity|]. split; [constructor|].
    rewrite Hs. split; [discriminate|reflexivity].
Qed.

Lemma omap_length_le {A B} (f : A -> option B) (l : list A) :
  (length (omap f l) <= length l)%nat.
Proof.
  induction l as [|x l IH]; cbn; [lia|].
  destruct (f x); cbn; lia.
Qed.

(** X27. [_extract_posts_from_page] reads the containers of one selector
    only, the first of [post_selectors] that finds any: the selectors
    before it find nothing, and the posts returned are those that
    [_extract_single_post] makes of its containers, in order, at most one
    per container. When no selector finds a container no post is
    returned. Every post returned has a title that is not empty, a list
    of identifiers that is not empty and has no duplicates, each of them
    extracted from one of the post's links, links that all name
    [amzn.to], [amazon.ca] or [amazon.com], the category that
    [_categorize_post] gives its title, a URL that [HttpUrl] accepted and
    stored, and a description of at most 500 characters. *)
Theorem extract_posts_from_page_posts (soup : Soup) (base_url : string) :
  let found := _extract_posts_from_page Soup Element select select_one_text
                 first_href amazon_hrefs urljoin extract_asin_from_url hash
                 HttpUrl clock_at soup base_url in
  ((Forall (fun s => select soup s = []) post_selectors /\ found = [])
   \/ exists before selector after,
        post_selectors = before ++ selector :: after
        /\ Forall (fun s => select soup s = []) before
        /\ select soup selector <> []
        /\ found = omap (fun post_element => single post_element base_url)
                     (select soup selector)
        /\ (length found <= length (select soup selector))%nat)
  /\ Forall extracted found.
Proof.
  cbn zeta. unfold _extract_posts_from_page. fold single. split.
  - destruct (post_elements_first soup post_selectors)
      as [[Hall Hnone]|(before & selector & after & Hsel & Hall & Hne & Heq)].
    + left. split; [exact Hall|]. now rewrite Hnone.
    + right. exists before, selector, after. rewrite Heq.
      split; [exact Hsel|]. split; [exact Hall|]. split; [exact Hne|].
      split; [reflexivity|apply omap_length_le].
  - apply Forall_forall. intros post Hpost.
    apply list_elem_of_omap in Hpost as (el & _ & Hel).
    now apply (extract_single_post_inv el base_url).
Qed.

(** The page of the fixtures: the container without a link to Amazon gives
    no post; the other gives a post with the identifier once. *)
Example extract_posts_from_page_fixture :
  fixture_extract_posts tt "https://www.savingsguru.ca"
  = [SavingsGuruPost.mk "sg_42_20240115" "Great Deal on Test Product"
       "https://www.savingsguru.ca/test-post"
       ["https://amzn.to/test123"; "https://www.amazon.ca/dp/B08N5WRWNW"]
       ["B08N5WRWNW"] "General" (Some "This is a test deal description")].
Proof. vm_compute. reflexivity. Qed.
End PostExtractionFacts.
